(** * Major and minor fulfillment checker (app.py): a shallow embedding

    The program reads five parsed JSON catalogs, extracts the courses of a
    minor, resolves the requirement areas of every course and builds the
    curriculum table.  The code is duck-typed Python, so the embedding keeps
    JSON documents as they are, gives every Python primitive the code uses
    its dynamic behaviour (including the exception it raises on a value of
    the wrong shape), and threads exceptions through an error monad.

    Conventions of the model:
    - a Python [str] is a [string] of 8-bit characters; character classes
      ([str.lower], the digit class of the regular expression) act on the
      ASCII range;
    - JSON numbers are integers ([Z]); Python's [True == 1] is kept;
    - a parsed JSON object is an association list in document order; a
      lookup returns the first binding of the key. *)

From Stdlib Require Import List String Ascii ZArith Bool Lia DecimalString.
Import ListNotations.
Local Open Scope string_scope.

(** ** JSON documents *)

Unset Elimination Schemes.
Inductive json : Type :=
| JNull
| JBool (b : bool)
| JInt (n : Z)
| JStr (s : string)
| JList (xs : list json)
| JDict (kvs : list (string * json)).
Set Elimination Schemes.

(** ** Exceptions *)

(** [RecursionError] and [SystemError] are only raised by the model with a
    store (below), on an object graph that no JSON parser builds: a cyclic
    one and one with a dangling reference. *)
Inductive exn : Type :=
| KeyError | TypeError | AttributeError | RecursionError | SystemError.

Inductive result (A : Type) : Type :=
| Ok (a : A)
| Err (e : exn).
Arguments Ok {A} a.
Arguments Err {A} e.

Definition bind {A B : Type} (m : result A) (f : A -> result B) : result B :=
  match m with
  | Ok a => f a
  | Err e => Err e
  end.

Notation "x <- m ;; k" := (bind m (fun x => k))
  (at level 61, m at next level, right associativity).

Fixpoint mapM {A B : Type} (f : A -> result B) (l : list A) : result (list B) :=
  match l with
  | [] => Ok []
  | a :: l' => b <- f a ;; bs <- mapM f l' ;; Ok (b :: bs)
  end.

(** [for x in l: acc = body(acc, x)] with a body that may raise. *)
Fixpoint foldM {A S : Type} (body : S -> A -> result S) (l : list A) (acc : S)
  : result S :=
  match l with
  | [] => Ok acc
  | a :: l' => acc' <- body acc a ;; foldM body l' acc'
  end.

(** ** Strings *)

Definition newline : ascii := ascii_of_nat 10.

Definition is_digit (c : ascii) : bool :=
  let n := nat_of_ascii c in (48 <=? n)%nat && (n <=? 57)%nat.

Definition lower_char (c : ascii) : ascii :=
  let n := nat_of_ascii c in
  if (65 <=? n)%nat && (n <=? 90)%nat then ascii_of_nat (n + 32) else c.

(** [s.lower()] *)
Fixpoint lower (s : string) : string :=
  match s with
  | EmptyString => EmptyString
  | String c r => String (lower_char c) (lower r)
  end.

(** [p in s] for two strings. *)
Fixpoint is_substring (p s : string) : bool :=
  String.prefix p s ||
  match s with
  | EmptyString => false
  | String _ r => is_substring p r
  end.

Fixpoint string_mem (c : ascii) (s : string) : bool :=
  match s with
  | EmptyString => false
  | String d r => Ascii.eqb c d || string_mem c r
  end.

(** [str(n)] for an integer. *)
Definition string_of_Z (n : Z) : string := NilZero.string_of_int (Z.to_int n).

Definition hex_digit (n : nat) : ascii :=
  if (n <? 10)%nat then ascii_of_nat (48 + n) else ascii_of_nat (87 + n).

(** [repr(s)] for a string: single quotes unless the string has a single
    quote and no double quote; backslash escapes for the quote, the
    backslash and the control characters. *)
Definition repr_char (q c : ascii) : string :=
  let n := nat_of_ascii c in
  if Ascii.eqb c q || (n =? 92)%nat then String (ascii_of_nat 92) (String c EmptyString)
  else if (n =? 9)%nat then String (ascii_of_nat 92) "t"
  else if (n =? 10)%nat then String (ascii_of_nat 92) "n"
  else if (n =? 13)%nat then String (ascii_of_nat 92) "r"
  else if (n <? 32)%nat || (n =? 127)%nat then
    String (ascii_of_nat 92)
      (String "x" (String (hex_digit (n / 16)) (String (hex_digit (n mod 16)) EmptyString)))
  else String c EmptyString.

Fixpoint repr_chars (q : ascii) (s : string) : string :=
  match s with
  | EmptyString => EmptyString
  | String c r => repr_char q c ++ repr_chars q r
  end.

Definition repr_str (s : string) : string :=
  let q := if string_mem "'" s && negb (string_mem (ascii_of_nat 34) s)
           then ascii_of_nat 34 else "'"%char in
  String q (repr_chars q s ++ String q EmptyString).

(** ** The regular expression of line 107: [re.search(r'\d+ID$', s)]

    [$] matches at the end of the string and also just before a newline
    that ends the string.  The digit class [\d] is taken as the digits 0-9,
    which is what it is on a string of ASCII characters: on such a string
    the search below is the search of Python. *)

Fixpoint skip_digits (s : string) : string :=
  match s with
  | String c r => if is_digit c then skip_digits r else s
  | EmptyString => EmptyString
  end.

Definition at_dollar (s : string) : bool :=
  match s with
  | EmptyString => true
  | String c EmptyString => Ascii.eqb c newline
  | _ => false
  end.

(** The pattern anchored at the first character of [s]. *)
Definition match_digits_ID_here (s : string) : bool :=
  match s with
  | String c r =>
      is_digit c &&
      match skip_digits r with
      | String "I" (String "D" t) => at_dollar t
      | _ => false
      end
  | EmptyString => false
  end.

Fixpoint re_search_digits_ID (s : string) : bool :=
  match_digits_ID_here s ||
  match s with
  | EmptyString => false
  | String _ r => re_search_digits_ID r
  end.

(** ** Python primitives on JSON values *)

Fixpoint lookup (k : string) (kvs : list (string * json)) : option json :=
  match kvs with
  | [] => None
  | (k', v) :: r => if String.eqb k k' then Some v else lookup k r
  end.

Definition has_key (k : string) (kvs : list (string * json)) : bool :=
  match lookup k kvs with Some _ => true | None => false end.

(** [a == b] *)
Fixpoint py_eq (a b : json) {struct a} : bool :=
  match a, b with
  | JNull, JNull => true
  | JBool x, JBool y => Bool.eqb x y
  | JBool x, JInt y => Z.eqb (Z.b2z x) y
  | JInt x, JBool y => Z.eqb x (Z.b2z y)
  | JInt x, JInt y => Z.eqb x y
  | JStr x, JStr y => String.eqb x y
  | JList xs, JList ys =>
      (fix eq_list (xs ys : list json) {struct xs} : bool :=
         match xs, ys with
         | [], [] => true
         | x :: xs', y :: ys' => py_eq x y && eq_list xs' ys'
         | _, _ => false
         end) xs ys
  | JDict kvs, JDict kvs' =>
      Nat.eqb (List.length kvs) (List.length kvs') &&
      (fix eq_items (l : list (string * json)) {struct l} : bool :=
         match l with
         | [] => true
         | (k, v) :: r =>
             match lookup k kvs' with
             | Some v' => py_eq v v'
             | None => false
             end && eq_items r
         end) kvs
  | _, _ => false
  end.

(** [bool(v)] *)
Definition truthy (v : json) : bool :=
  match v with
  | JNull => false
  | JBool b => b
  | JInt n => negb (Z.eqb n 0)
  | JStr s => negb (String.eqb s EmptyString)
  | JList xs => match xs with [] => false | _ => true end
  | JDict kvs => match kvs with [] => false | _ => true end
  end.

(** Lists and dicts cannot be hashed: they are refused as set members and
    as dict keys with a TypeError. *)
Definition hashable (v : json) : bool :=
  match v with
  | JList _ | JDict _ => false
  | _ => true
  end.

Definition is_dict (v : json) : bool :=
  match v with JDict _ => true | _ => false end.

Definition is_list (v : json) : bool :=
  match v with JList _ => true | _ => false end.

(** [repr(v)] and [str(v)] *)
Fixpoint py_repr (v : json) : string :=
  match v with
  | JNull => "None"
  | JBool true => "True"
  | JBool false => "False"
  | JInt n => string_of_Z n
  | JStr s => repr_str s
  | JList xs =>
      "[" ++
      (fix items (l : list json) : string :=
         match l with
         | [] => EmptyString
         | x :: r =>
             match r with
             | [] => py_repr x
             | _ :: _ => py_repr x ++ ", " ++ items r
             end
         end) xs ++ "]"
  | JDict kvs =>
      "{" ++
      (fix items (l : list (string * json)) : string :=
         match l with
         | [] => EmptyString
         | (k, x) :: r =>
             match r with
             | [] => repr_str k ++ ": " ++ py_repr x
             | _ :: _ => repr_str k ++ ": " ++ py_repr x ++ ", " ++ items r
             end
         end) kvs ++ "}"
  end.

Definition py_str (v : json) : string :=
  match v with
  | JStr s => s
  | _ => py_repr v
  end.

(** [x[k]] for a string [k] *)
Definition getitem (x : json) (k : string) : result json :=
  match x with
  | JDict kvs =>
      match lookup k kvs with
      | Some v => Ok v
      | None => Err KeyError
      end
  | _ => Err TypeError
  end.

(** [x.get(k, d)] *)
Definition dict_get (x : json) (k : string) (d : json) : result json :=
  match x with
  | JDict kvs =>
      match lookup k kvs with
      | Some v => Ok v
      | None => Ok d
      end
  | _ => Err AttributeError
  end.

(** [x.values()] *)
Definition values (x : json) : result (list json) :=
  match x with
  | JDict kvs => Ok (map snd kvs)
  | _ => Err AttributeError
  end.

(** [x.items()] *)
Definition items (x : json) : result (list (string * json)) :=
  match x with
  | JDict kvs => Ok kvs
  | _ => Err AttributeError
  end.

Fixpoint chars (s : string) : list json :=
  match s with
  | EmptyString => []
  | String c r => JStr (String c EmptyString) :: chars r
  end.

(** The elements [for e in x] runs over. *)
Definition iter (x : json) : result (list json) :=
  match x with
  | JList xs => Ok xs
  | JDict kvs => Ok (map (fun kv => JStr (fst kv)) kvs)
  | JStr s => Ok (chars s)
  | _ => Err TypeError
  end.

(** [v in x] *)
Definition contains (v x : json) : result bool :=
  match x with
  | JDict kvs =>
      if hashable v
      then Ok (match v with JStr k => has_key k kvs | _ => false end)
      else Err TypeError
  | JList xs => Ok (existsb (fun e => py_eq e v) xs)
  | JStr s =>
      match v with
      | JStr p => Ok (is_substring p s)
      | _ => Err TypeError
      end
  | _ => Err TypeError
  end.

(** ** Dicts and sets the program builds itself: keys are any hashable value *)

Definition pydict (A : Type) : Type := list (json * A).

Fixpoint pd_lookup {A : Type} (k : json) (m : pydict A) : option A :=
  match m with
  | [] => None
  | (k', v) :: r => if py_eq k' k then Some v else pd_lookup k r
  end.

(** [m[k] = v]: an existing key keeps its position. *)
Fixpoint pd_set {A : Type} (k : json) (v : A) (m : pydict A) : pydict A :=
  match m with
  | [] => [(k, v)]
  | (k', v') :: r => if py_eq k' k then (k', v) :: r else (k', v') :: pd_set k v r
  end.

Definition pd_setitem {A : Type} (k : json) (v : A) (m : pydict A)
  : result (pydict A) :=
  if hashable k then Ok (pd_set k v m) else Err TypeError.

(** [m.get(k, d)] *)
Definition pd_get {A : Type} (k : json) (d : A) (m : pydict A) : result A :=
  if hashable k
  then Ok (match pd_lookup k m with Some v => v | None => d end)
  else Err TypeError.

(** [set(l)] *)
Definition pyset : Type := list json.

Definition set_of_list (l : list json) : result pyset :=
  if forallb hashable l then Ok l else Err TypeError.

(** [v in s] for a set *)
Definition set_mem (v : json) (s : pyset) : result bool :=
  if hashable v then Ok (existsb (fun e => py_eq e v) s) else Err TypeError.

(** ** The Catalog Store: [data_bundle] (lines 23-29) *)

Record data_bundle : Type := {
  minor_data : json;
  gened_data : json;
  major_data : json;
  lib_data : json;
  ID_data : json
}.

(** ** Course Extractor: [get_minor_courses] (lines 47-63) *)

(** Lines 61-62: [if isinstance(item, dict) and 'Course' in item:
    courses.append(item['Course'])]. *)
Definition course_of (item : json) : list json :=
  match item with
  | JDict kvs =>
      match lookup "Course" kvs with
      | Some c => [c]
      | None => []
      end
  | _ => []
  end.

(** Lines 58-62: the nested lists of an entry without a course. *)
Definition nested_courses (value : json) : list json :=
  match value with
  | JList l => flat_map course_of l
  | _ => []
  end.

(** Lines 54-62: what one entry of a section appends to [courses]. *)
Definition extract_entry (entry : json) : list json :=
  match entry with
  | JDict kvs =>
      match lookup "Course" kvs with
      | Some c => [c]
      | None => flat_map nested_courses (map snd kvs)
      end
  | _ => []
  end.

Definition extract_section (section_list : json) : result (list json) :=
  entries <- iter section_list ;;
  Ok (flat_map extract_entry entries).

Definition get_minor_courses (selected_minor : string) (minor_data : json)
  : result (list json) :=
  present <- contains (JStr selected_minor) minor_data ;;
  if present : bool then
    minor_info <- getitem minor_data selected_minor ;;
    sections <- values minor_info ;;
    per_section <- mapM extract_section sections ;;
    Ok (List.concat per_section)
  else Ok [].

(** ** Fulfillment Resolver: [map_gened_requirements] (lines 65-115) *)

(** One element of the returned list:
    [{'Courses in Minor': course, 'Fulfilled Areas': current_fulfilled}]. *)
Record fulfillment : Type := {
  f_course : json;
  f_areas : list json
}.

(** Lines 76-77. *)
Definition gened_entry (m : pydict json) (course_info : json)
  : result (pydict json) :=
  areas <- dict_get course_info "Area(s)" (JList []) ;;
  course <- getitem course_info "Course" ;;
  pd_setitem course areas m.

(** Lines 73-77. *)
Definition build_gened_fulfillment_map (gened_data : json)
  : result (pydict json) :=
  foldM (fun m core_type =>
           gened <- getitem gened_data "gened" ;;
           l <- getitem gened core_type ;;
           entries <- iter l ;;
           foldM gened_entry entries m)
        ["Required Core"; "Flexible Core"] [].

(** [set([c['Course'] for c in l])] *)
Definition course_set (l : json) : result pyset :=
  entries <- iter l ;;
  cs <- mapM (fun c => getitem c "Course") entries ;;
  set_of_list cs.

Record lookups : Type := {
  gened_fulfillment_map : pydict json;
  major_core : pyset;
  major_elective : pyset;
  adv_lib : pyset;
  lib_art : pyset
}.

(** Lines 67-83. *)
Definition build_lookups (selected_major : string) (b : data_bundle)
  : result lookups :=
  gm <- build_gened_fulfillment_map (gened_data b) ;;
  major <- getitem (major_data b) selected_major ;;
  core <- getitem major "Core" ;;
  mc <- course_set core ;;
  major' <- getitem (major_data b) selected_major ;;
  electives <- getitem major' "Electives" ;;
  me <- course_set electives ;;
  adv <- getitem (lib_data b) "Adv Lib Art" ;;
  al <- course_set adv ;;
  lib <- getitem (lib_data b) "Lib Art" ;;
  la <- course_set lib ;;
  Ok {| gened_fulfillment_map := gm; major_core := mc; major_elective := me;
        adv_lib := al; lib_art := la |}.

(** Lines 89-90: a value that is not a list becomes a list of one element,
    or the empty list when the value is falsy. *)
Definition normalize_areas (fulfilled_geneds : json) : list json :=
  match fulfilled_geneds with
  | JList l => l
  | v => if truthy v then [v] else []
  end.

(** Line 107: [course in ID_data or re.search(r'\d+ID$', course)]. *)
Definition is_interdisciplinary (ID_data course : json) : result bool :=
  in_catalog <- contains course ID_data ;;
  if in_catalog : bool then Ok true
  else match course with
       | JStr s => Ok (re_search_digits_ID s)
       | _ => Err TypeError
       end.

Definition tag_if (b : bool) (tags : list string) : list json :=
  if b then map JStr tags else [].

(** Lines 88-113: the body of the loop over the courses. *)
Definition resolve_course (lk : lookups) (ID_data course : json)
  : result fulfillment :=
  fulfilled_geneds <- pd_get course (JList []) (gened_fulfillment_map lk) ;;
  let current_fulfilled := normalize_areas fulfilled_geneds in
  in_core <- set_mem course (major_core lk) ;;
  in_elective <- set_mem course (major_elective lk) ;;
  in_lib <- set_mem course (lib_art lk) ;;
  in_adv <- set_mem course (adv_lib lk) ;;
  is_id <- is_interdisciplinary ID_data course ;;
  Ok {| f_course := course;
        f_areas := (current_fulfilled
                    ++ tag_if in_core ["Major_Core"]
                    ++ tag_if in_elective ["Major_Elec"]
                    ++ tag_if in_lib ["Lib Art"]
                    ++ tag_if in_adv ["Lib Art"; "Adv Lib Art"]
                    ++ tag_if is_id ["ID"])%list |}.

Definition map_gened_requirements (courses : list json)
  (selected_major : string) (b : data_bundle) : result (list fulfillment) :=
  lk <- build_lookups selected_major b ;;
  mapM (resolve_course lk (ID_data b)) courses.

(** ** Curriculum Materializer: [process_curriculum_json] (lines 117-212) *)

(** Lines 125-126. *)
Definition format_credit (min_credit max_credit : json) : string :=
  if py_eq min_credit max_credit then py_str max_credit
  else py_str min_credit ++ "-" ++ py_str max_credit.

Definition default_credit : json := JDict [("Min", JInt 3); ("Max", JInt 3)].

(** Lines 131-135: the scan of the fields. *)
Fixpoint scan_credit (kvs : list (string * json)) : json :=
  match kvs with
  | [] => default_credit
  | (key, value) :: r =>
      if is_substring "credit" (lower key)
      then match value with
           | JDict vkvs =>
               if has_key "Min" vkvs && has_key "Max" vkvs then value
               else scan_credit r
           | _ => scan_credit r
           end
      else scan_credit r
  end.

(** Lines 128-135. *)
Definition get_credit_info (data_item : json) : result json :=
  c <- dict_get data_item "Credit" JNull ;;
  info <- (if truthy c then Ok c else dict_get data_item "credit" JNull) ;;
  if truthy info then Ok info
  else kvs <- items data_item ;; Ok (scan_credit kvs).

(** One element of [processed_list]. *)
Record processed : Type := {
  p_sub_section : string;
  p_course : json;
  p_name : json;
  p_credit : string;
  p_areas : list json
}.

(** Lines 143-151 (and 155-163, 170-178, 182-190): the row of one course
    entry; the four places differ in the sub-section and in the default
    title. *)
Definition course_row (sub_section : string) (default_title : json)
  (fulfillment_map : pydict (list json)) (item : json) : result processed :=
  course <- getitem item "Course" ;;
  credit_info <- get_credit_info item ;;
  name <- dict_get item "Title" default_title ;;
  min_credit <- getitem credit_info "Min" ;;
  max_credit <- getitem credit_info "Max" ;;
  areas <- pd_get course [] fulfillment_map ;;
  Ok {| p_sub_section := sub_section; p_course := course; p_name := name;
        p_credit := format_credit min_credit max_credit; p_areas := areas |}.

(** Lines 142-163 (and 169-190): what one item of a section appends. *)
Definition item_rows (direct_label group_prefix : string) (default_title : json)
  (fulfillment_map : pydict (list json)) (item : json)
  : result (list processed) :=
  has_course <- contains (JStr "Course") item ;;
  if has_course : bool then
    r <- course_row direct_label default_title fulfillment_map item ;;
    Ok [r]
  else
    has_group <- contains (JStr "group") item ;;
    if has_group : bool then
      group <- getitem item "group" ;;
      courses <- getitem item "courses" ;;
      infos <- iter courses ;;
      mapM (course_row (group_prefix ++ py_str group) (JStr EmptyString)
              fulfillment_map) infos
    else Ok [].

Definition section_rows (direct_label group_prefix : string)
  (default_title : json) (fulfillment_map : pydict (list json))
  (section : json) : result (list processed) :=
  section_items <- iter section ;;
  rows <- mapM (item_rows direct_label group_prefix default_title
                  fulfillment_map) section_items ;;
  Ok (List.concat rows).

(** Line 122. *)
Definition build_fulfillment_map (fulfillment_list : list fulfillment)
  : result (pydict (list json)) :=
  foldM (fun m item => pd_setitem (f_course item) (f_areas item) m)
        fulfillment_list [].

(** Lines 121-190. *)
Definition processed_list (curriculum_data : json)
  (fulfillment_list : list fulfillment) : result (list processed) :=
  fulfillment_map <- build_fulfillment_map fulfillment_list ;;
  core_section <- dict_get curriculum_data "Core" (JList []) ;;
  core_rows <- section_rows "A. Mandatory Core Courses" "B. Conditional Core: "
                 (JStr "Mandatory") fulfillment_map core_section ;;
  elective_section <- dict_get curriculum_data "Electives" (JList []) ;;
  elective_rows <- section_rows "A. General Electives List"
                     "B. Conditional Elective: " (JStr EmptyString)
                     fulfillment_map elective_section ;;
  Ok (core_rows ++ elective_rows)%list.

(** [d[k] = v] on a dict with string keys. *)
Fixpoint sd_set (k : string) (v : json) (d : list (string * json))
  : list (string * json) :=
  match d with
  | [] => [(k, v)]
  | (k', v') :: r =>
      if String.eqb k k' then (k', v) :: r else (k', v') :: sd_set k v r
  end.

(** Line 203: ['X' if gened_abbr in fulfilled_areas else '']. *)
Definition flag (fulfilled_areas : list json) (gened_abbr : string) : json :=
  JStr (if existsb (fun a => py_eq a (JStr gened_abbr)) fulfilled_areas
        then "X" else EmptyString).

(** Lines 195-203. *)
Definition course_dict (gened_areas : list string) (p : processed)
  : list (string * json) :=
  fold_left (fun d gened_abbr => sd_set gened_abbr (flag (p_areas p) gened_abbr) d)
    gened_areas
    [("Name", p_name p); ("Sub_Section", JStr (p_sub_section p));
     ("Courses in Minor", p_course p); ("Credit", JStr (p_credit p))].

(** *** The data frame (lines 206-210)

    A frame is the list of its rows.  [fillna('')] replaces a missing value
    by the empty string, [set_index] moves three columns into the row key and
    [reindex] lays the remaining columns out as [Credit] followed by the
    requirement areas, a column that is not there being filled with the empty
    string.  The cells hold the values of the dicts as they are: what pandas
    does to a column that mixes numbers with missing values, or to a title
    that is a list, is outside the model. *)

Record row : Type := {
  row_sub_section : json;
  row_course : json;
  row_name : json;
  row_cells : list (string * json)
}.

Definition fillna (v : json) : json :=
  match v with
  | JNull => JStr EmptyString
  | _ => v
  end.

Definition column (d : list (string * json)) (c : string) : json :=
  match lookup c d with
  | Some v => v
  | None => JStr EmptyString
  end.

Definition index_columns : list string :=
  ["Sub_Section"; "Courses in Minor"; "Name"].

Definition drop_columns (cs : list string) (d : list (string * json))
  : list (string * json) :=
  filter (fun kv => negb (existsb (String.eqb (fst kv)) cs)) d.

Definition frame_row (gened_areas : list string) (d : list (string * json))
  : row :=
  let filled := map (fun kv => (fst kv, fillna (snd kv))) d in
  let rest := drop_columns index_columns filled in
  {| row_sub_section := column filled "Sub_Section";
     row_course := column filled "Courses in Minor";
     row_name := column filled "Name";
     row_cells := map (fun c => (c, column rest c)) ("Credit" :: gened_areas) |}.

Definition process_curriculum_json (curriculum_name : string)
  (curriculum_data : json) (gened_areas : list string)
  (fulfillment_list : list fulfillment) : result (list row) :=
  rows <- processed_list curriculum_data fulfillment_list ;;
  Ok (map (fun p => frame_row gened_areas (course_dict gened_areas p)) rows).

(** ** The analysis of [main] (lines 254-295) *)

(** Line 265. *)
Definition gened_areas : list string :=
  ["EC"; "MQR"; "LPS"; "WCGI"; "USED"; "IS"; "CE"; "SW"; "Lib Art";
   "Adv Lib Art"; "ID"; "Major_Core"; "Major_Elec"].

(** What the user is shown: the warning of line 258, the notice of line 275
    or the table, as it is handed to the styler of lines 278-292; what the
    styler and [to_html] do with it is outside the model. *)
Inductive outcome : Type :=
| Warning (message : string)
| Info (message : string)
| Rendered (final_df : list row).

Definition analyze (selected_major selected_minor : string) (b : data_bundle)
  : result outcome :=
  courses <- get_minor_courses selected_minor (minor_data b) ;;
  match courses with
  | [] => Ok (Warning ("No course data found for minor: " ++ selected_minor))
  | _ :: _ =>
      course_gened_fulfillment_list <-
        map_gened_requirements courses selected_major b ;;
      curriculum_data <- getitem (minor_data b) selected_minor ;;
      final_df <- process_curriculum_json selected_minor curriculum_data
                    gened_areas course_gened_fulfillment_list ;;
      match final_df with
      | [] => Ok (Info "The selected minor curriculum data structure could not be processed into the table format.")
      | _ :: _ => Ok (Rendered final_df)
      end
  end.

(** * The same program over a store of mutable objects

    Python lists, dicts and sets are objects with an identity: a variable
    holds a reference, [append] and item assignment change the object in
    place, and every alias sees the change.  This second embedding keeps
    the objects in a store, so that what the program writes to is explicit.
    A loop [for x in l] runs over the elements [l] has when the loop starts:
    no loop of the program writes to the list it runs over. *)

Module Store.

Definition loc : Type := nat.

Inductive val : Type :=
| VNone
| VBool (b : bool)
| VInt (n : Z)
| VStr (s : string)
| VRef (l : loc).

Inductive obj : Type :=
| OList (xs : list val)
| ODict (kvs : list (val * val))
| OSet (xs : list val).

Definition heap : Type := list obj.

(** A computation changes the store and returns a value or raises; the
    store is kept when it raises. *)
Definition M (A : Type) : Type := heap -> heap * result A.

Definition ret {A : Type} (a : A) : M A := fun h => (h, Ok a).

Definition raise {A : Type} (e : exn) : M A := fun h => (h, Err e).

Definition bindM {A B : Type} (m : M A) (f : A -> M B) : M B :=
  fun h =>
    match m h with
    | (h', Ok a) => f a h'
    | (h', Err e) => (h', Err e)
    end.

Notation "x <~ m ;; k" := (bindM m (fun x => k))
  (at level 61, m at next level, right associativity).
Notation "m ;;; k" := (bindM m (fun _ => k))
  (at level 61, right associativity).

(** A computation that only reads the store. *)
Definition read {A : Type} (f : heap -> result A) : M A := fun h => (h, f h).

Fixpoint forM_ {A : Type} (l : list A) (body : A -> M unit) : M unit :=
  match l with
  | [] => ret tt
  | a :: l' => body a ;;; forM_ l' body
  end.

Definition when (b : bool) (m : M unit) : M unit := if b then m else ret tt.

(** *** Writing to the store *)

(** A new object. *)
Definition alloc (o : obj) : M val :=
  fun h => ((h ++ [o])%list, Ok (VRef (List.length h))).

Fixpoint update (l : loc) (o : obj) (h : heap) : heap :=
  match h, l with
  | [], _ => []
  | _ :: r, O => o :: r
  | o' :: r, S l' => o' :: update l' o r
  end.

(** [x.append(v)] *)
Definition list_append (x v : val) : M unit :=
  fun h =>
    match x with
    | VRef l =>
        match nth_error h l with
        | Some (OList xs) => (update l (OList (xs ++ [v])%list) h, Ok tt)
        | Some _ => (h, Err AttributeError)
        | None => (h, Err SystemError)
        end
    | _ => (h, Err AttributeError)
    end.

Definition hashable (v : val) : bool :=
  match v with
  | VRef _ => false
  | _ => true
  end.

(** [a == b] when one of the two is not a container. *)
Definition atom_eq (a b : val) : bool :=
  match a, b with
  | VNone, VNone => true
  | VBool x, VBool y => Bool.eqb x y
  | VBool x, VInt y => Z.eqb (Z.b2z x) y
  | VInt x, VBool y => Z.eqb x (Z.b2z y)
  | VInt x, VInt y => Z.eqb x y
  | VStr x, VStr y => String.eqb x y
  | _, _ => false
  end.

Fixpoint klookup (k : val) (kvs : list (val * val)) : option val :=
  match kvs with
  | [] => None
  | (k', v) :: r => if atom_eq k' k then Some v else klookup k r
  end.

Fixpoint kset (k v : val) (kvs : list (val * val)) : list (val * val) :=
  match kvs with
  | [] => [(k, v)]
  | (k', v') :: r => if atom_eq k' k then (k', v) :: r else (k', v') :: kset k v r
  end.

(** [x[k] = v] *)
Definition setitem (x k v : val) : M unit :=
  fun h =>
    match x with
    | VRef l =>
        match nth_error h l with
        | Some (ODict kvs) =>
            if hashable k then (update l (ODict (kset k v kvs)) h, Ok tt)
            else (h, Err TypeError)
        | Some (OList _) => (h, Err TypeError)
        | Some (OSet _) => (h, Err TypeError)
        | None => (h, Err SystemError)
        end
    | _ => (h, Err TypeError)
    end.

(** *** Reading the store *)

Fixpoint mapO {A B : Type} (f : A -> option B) (l : list A) : option (list B) :=
  match l with
  | [] => Some []
  | a :: l' =>
      match f a, mapO f l' with
      | Some b, Some bs => Some (b :: bs)
      | _, _ => None
      end
  end.

(** The JSON document a value stands for; [None] when the depth is used up
    (a cyclic graph) or the graph has an object that is not JSON. *)
Fixpoint reify (depth : nat) (h : heap) (v : val) {struct depth} : option json :=
  match v with
  | VNone => Some JNull
  | VBool b => Some (JBool b)
  | VInt n => Some (JInt n)
  | VStr s => Some (JStr s)
  | VRef l =>
      match depth with
      | O => None
      | S d =>
          match nth_error h l with
          | Some (OList xs) => option_map JList (mapO (reify d h) xs)
          | Some (ODict kvs) =>
              option_map JDict
                (mapO (fun kv =>
                         match fst kv with
                         | VStr k => option_map (pair k) (reify d h (snd kv))
                         | _ => None
                         end) kvs)
          | _ => None
          end
      end
  end.

Definition document (h : heap) (v : val) : result json :=
  match reify (S (List.length h)) h v with
  | Some j => Ok j
  | None => Err RecursionError
  end.

(** [a == b] *)
Definition val_eq (h : heap) (a b : val) : result bool :=
  match a, b with
  | VRef la, VRef lb =>
      if Nat.eqb la lb then Ok true
      else ja <- document h a ;; jb <- document h b ;; Ok (py_eq ja jb)
  | _, _ => Ok (atom_eq a b)
  end.

(** [str(v)] *)
Definition str_of (h : heap) (v : val) : result string :=
  match v with
  | VStr s => Ok s
  | _ => j <- document h v ;; Ok (py_str j)
  end.

Definition truthy (h : heap) (v : val) : result bool :=
  match v with
  | VNone => Ok false
  | VBool b => Ok b
  | VInt n => Ok (negb (Z.eqb n 0))
  | VStr s => Ok (negb (String.eqb s EmptyString))
  | VRef l =>
      match nth_error h l with
      | Some (OList xs) => Ok (match xs with [] => false | _ => true end)
      | Some (ODict kvs) => Ok (match kvs with [] => false | _ => true end)
      | Some (OSet xs) => Ok (match xs with [] => false | _ => true end)
      | None => Err SystemError
      end
  end.

Definition is_dict (h : heap) (v : val) : bool :=
  match v with
  | VRef l => match nth_error h l with Some (ODict _) => true | _ => false end
  | _ => false
  end.

Definition is_list (h : heap) (v : val) : bool :=
  match v with
  | VRef l => match nth_error h l with Some (OList _) => true | _ => false end
  | _ => false
  end.

(** [x[k]] for a string [k] *)
Definition getitem (x : val) (k : string) : M val :=
  read (fun h =>
    match x with
    | VRef l =>
        match nth_error h l with
        | Some (ODict kvs) =>
            match klookup (VStr k) kvs with
            | Some v => Ok v
            | None => Err KeyError
            end
        | Some _ => Err TypeError
        | None => Err SystemError
        end
    | _ => Err TypeError
    end).

(** [x.get(k, d)] *)
Definition dict_get (x k d : val) : M val :=
  read (fun h =>
    match x with
    | VRef l =>
        match nth_error h l with
        | Some (ODict kvs) =>
            if hashable k
            then Ok (match klookup k kvs with Some v => v | None => d end)
            else Err TypeError
        | Some _ => Err AttributeError
        | None => Err SystemError
        end
    | _ => Err AttributeError
    end).

(** [x.values()] *)
Definition values (x : val) : M (list val) :=
  read (fun h =>
    match x with
    | VRef l =>
        match nth_error h l with
        | Some (ODict kvs) => Ok (map snd kvs)
        | Some _ => Err AttributeError
        | None => Err SystemError
        end
    | _ => Err AttributeError
    end).

(** [x.items()] *)
Definition items (x : val) : M (list (val * val)) :=
  read (fun h =>
    match x with
    | VRef l =>
        match nth_error h l with
        | Some (ODict kvs) => Ok kvs
        | Some _ => Err AttributeError
        | None => Err SystemError
        end
    | _ => Err AttributeError
    end).

Fixpoint chars (s : string) : list val :=
  match s with
  | EmptyString => []
  | String c r => VStr (String c EmptyString) :: chars r
  end.

(** The elements [for e in x] runs over. *)
Definition iter (x : val) : M (list val) :=
  read (fun h =>
    match x with
    | VRef l =>
        match nth_error h l with
        | Some (OList xs) => Ok xs
        | Some (ODict kvs) => Ok (map fst kvs)
        | Some (OSet xs) => Ok xs
        | None => Err SystemError
        end
    | VStr s => Ok (chars s)
    | _ => Err TypeError
    end).

(** [v in l] for the elements of a list: the first equal element ends the
    search. *)
Fixpoint list_mem (h : heap) (v : val) (l : list val) : result bool :=
  match l with
  | [] => Ok false
  | e :: r => b <- val_eq h e v ;; if b : bool then Ok true else list_mem h v r
  end.

(** [v in x] *)
Definition contains (v x : val) : M bool :=
  read (fun h =>
    match x with
    | VRef l =>
        match nth_error h l with
        | Some (ODict kvs) =>
            if hashable v
            then Ok (match klookup v kvs with Some _ => true | None => false end)
            else Err TypeError
        | Some (OSet xs) =>
            if hashable v then Ok (existsb (fun e => atom_eq e v) xs)
            else Err TypeError
        | Some (OList xs) => list_mem h v xs
        | None => Err SystemError
        end
    | VStr s =>
        match v with
        | VStr p => Ok (is_substring p s)
        | _ => Err TypeError
        end
    | _ => Err TypeError
    end).

(** [set(l)] for the elements of a list. *)
Definition new_set (l : list val) : M val :=
  if forallb hashable l then alloc (OSet l) else raise TypeError.

(** ** The program *)

Record data_bundle : Type := {
  minor_data : val;
  gened_data : val;
  major_data : val;
  lib_data : val;
  ID_data : val
}.

(** Lines 54-55 and 61-62: [if isinstance(item, dict) and 'Course' in item]. *)
Definition is_course_entry (item : val) : M bool :=
  d <~ read (fun h => Ok (is_dict h item)) ;;
  if d : bool then contains (VStr "Course") item else ret false.

(** Lines 47-63. *)
Definition get_minor_courses (selected_minor : string) (minor_data : val)
  : M val :=
  courses <~ alloc (OList []) ;;
  present <~ contains (VStr selected_minor) minor_data ;;
  when present
    (minor_info <~ getitem minor_data selected_minor ;;
     sections <~ values minor_info ;;
     forM_ sections (fun section_list =>
       entries <~ iter section_list ;;
       forM_ entries (fun entry =>
         direct <~ is_course_entry entry ;;
         if direct : bool then
           c <~ getitem entry "Course" ;; list_append courses c
         else
           d <~ read (fun h => Ok (is_dict h entry)) ;;
           when d
             (vs <~ values entry ;;
              forM_ vs (fun value =>
                l <~ read (fun h => Ok (is_list h value)) ;;
                when l
                  (nested <~ iter value ;;
                   forM_ nested (fun item =>
                     direct' <~ is_course_entry item ;;
                     when direct'
                       (c <~ getitem item "Course" ;;
                        list_append courses c)))))))) ;;;
  ret courses.

(** [set([c['Course'] for c in l])] *)
Definition course_set (l : val) : M val :=
  entries <~ iter l ;;
  comprehension <~ alloc (OList []) ;;
  forM_ entries (fun c =>
    x <~ getitem c "Course" ;; list_append comprehension x) ;;;
  xs <~ iter comprehension ;;
  new_set xs.

(** Line 107. *)
Definition is_interdisciplinary (ID_data course : val) : M bool :=
  in_catalog <~ contains course ID_data ;;
  if in_catalog : bool then ret true
  else match course with
       | VStr s => ret (re_search_digits_ID s)
       | _ => raise TypeError
       end.

(** Lines 65-115. *)
Definition map_gened_requirements (courses : val) (selected_major : string)
  (b : data_bundle) : M val :=
  gened_fulfillment_map <~ alloc (ODict []) ;;
  forM_ ["Required Core"; "Flexible Core"] (fun core_type =>
    gened <~ getitem (gened_data b) "gened" ;;
    l <~ getitem gened core_type ;;
    entries <~ iter l ;;
    forM_ entries (fun course_info =>
      default <~ alloc (OList []) ;;
      areas <~ dict_get course_info (VStr "Area(s)") default ;;
      course <~ getitem course_info "Course" ;;
      setitem gened_fulfillment_map course areas)) ;;;
  major <~ getitem (major_data b) selected_major ;;
  core <~ getitem major "Core" ;;
  major_core <~ course_set core ;;
  major' <~ getitem (major_data b) selected_major ;;
  electives <~ getitem major' "Electives" ;;
  major_elective <~ course_set electives ;;
  adv <~ getitem (lib_data b) "Adv Lib Art" ;;
  adv_lib <~ course_set adv ;;
  lib <~ getitem (lib_data b) "Lib Art" ;;
  lib_art <~ course_set lib ;;
  course_gened_fulfillment_list <~ alloc (OList []) ;;
  cs <~ iter courses ;;
  forM_ cs (fun course =>
    default <~ alloc (OList []) ;;
    fulfilled_geneds <~ dict_get gened_fulfillment_map course default ;;
    l <~ read (fun h => Ok (is_list h fulfilled_geneds)) ;;
    fulfilled_geneds' <~
      (if l : bool then ret fulfilled_geneds
       else t <~ read (fun h => truthy h fulfilled_geneds) ;;
            if t : bool then alloc (OList [fulfilled_geneds])
            else alloc (OList [])) ;;
    (* Make a copy to avoid modifying the reference *)
    elements <~ iter fulfilled_geneds' ;;
    current_fulfilled <~ alloc (OList elements) ;;
    in_core <~ contains course major_core ;;
    when in_core (list_append current_fulfilled (VStr "Major_Core")) ;;;
    in_elective <~ contains course major_elective ;;
    when in_elective (list_append current_fulfilled (VStr "Major_Elec")) ;;;
    in_lib <~ contains course lib_art ;;
    when in_lib (list_append current_fulfilled (VStr "Lib Art")) ;;;
    in_adv <~ contains course adv_lib ;;
    when in_adv
      (list_append current_fulfilled (VStr "Lib Art") ;;;
       list_append current_fulfilled (VStr "Adv Lib Art")) ;;;
    is_id <~ is_interdisciplinary (ID_data b) course ;;
    when is_id (list_append current_fulfilled (VStr "ID")) ;;;
    entry <~ alloc (ODict [(VStr "Courses in Minor", course);
                           (VStr "Fulfilled Areas", current_fulfilled)]) ;;
    list_append course_gened_fulfillment_list entry) ;;;
  ret course_gened_fulfillment_list.

(** Lines 125-126. *)
Definition format_credit (min_credit max_credit : val) : M string :=
  read (fun h =>
    same <- val_eq h min_credit max_credit ;;
    if same : bool then str_of h max_credit
    else lo <- str_of h min_credit ;; hi <- str_of h max_credit ;;
         Ok (lo ++ "-" ++ hi)).

(** Lines 131-134. *)
Fixpoint scan_credit (h : heap) (kvs : list (val * val)) : option val :=
  match kvs with
  | [] => None
  | (key, value) :: r =>
      match key, value with
      | VStr k, VRef l =>
          if is_substring "credit" (lower k)
          then match nth_error h l with
               | Some (ODict vkvs) =>
                   match klookup (VStr "Min") vkvs, klookup (VStr "Max") vkvs with
                   | Some _, Some _ => Some value
                   | _, _ => scan_credit h r
                   end
               | _ => scan_credit h r
               end
          else scan_credit h r
      | _, _ => scan_credit h r
      end
  end.

(** Lines 128-135. *)
Definition get_credit_info (data_item : val) : M val :=
  c <~ dict_get data_item (VStr "Credit") VNone ;;
  t <~ read (fun h => truthy h c) ;;
  info <~ (if t : bool then ret c else dict_get data_item (VStr "credit") VNone) ;;
  t' <~ read (fun h => truthy h info) ;;
  if t' : bool then ret info
  else
    kvs <~ items data_item ;;
    found <~ read (fun h => Ok (scan_credit h kvs)) ;;
    match found with
    | Some value => ret value
    | None => alloc (ODict [(VStr "Min", VInt 3); (VStr "Max", VInt 3)])
    end.

(** Lines 143-151 (and 155-163, 170-178, 182-190). *)
Definition append_course_row (processed_list : val) (sub_section : string)
  (default_title : string) (fulfillment_map item : val) : M unit :=
  course <~ getitem item "Course" ;;
  credit_info <~ get_credit_info item ;;
  name <~ dict_get item (VStr "Title") (VStr default_title) ;;
  min_credit <~ getitem credit_info "Min" ;;
  max_credit <~ getitem credit_info "Max" ;;
  credit <~ format_credit min_credit max_credit ;;
  default <~ alloc (OList []) ;;
  areas <~ dict_get fulfillment_map course default ;;
  entry <~ alloc (ODict [(VStr "Sub_Section", VStr sub_section);
                         (VStr "Courses in Minor", course);
                         (VStr "Name", name);
                         (VStr "Credit", VStr credit);
                         (VStr "Fulfilled Areas", areas)]) ;;
  list_append processed_list entry.

(** Lines 141-163 (and 168-190). *)
Definition append_section (processed_list : val)
  (direct_label group_prefix default_title : string)
  (fulfillment_map section : val) : M unit :=
  section_items <~ iter section ;;
  forM_ section_items (fun item =>
    has_course <~ contains (VStr "Course") item ;;
    if has_course : bool then
      append_course_row processed_list direct_label default_title
        fulfillment_map item
    else
      has_group <~ contains (VStr "group") item ;;
      when has_group
        (group <~ getitem item "group" ;;
         name <~ read (fun h => str_of h group) ;;
         courses <~ getitem item "courses" ;;
         infos <~ iter courses ;;
         forM_ infos
           (append_course_row processed_list (group_prefix ++ name)
              EmptyString fulfillment_map))).

Record row : Type := {
  row_sub_section : val;
  row_course : val;
  row_name : val;
  row_cells : list (string * val)
}.

Definition fillna (v : val) : val :=
  match v with
  | VNone => VStr EmptyString
  | _ => v
  end.

Definition column (d : list (val * val)) (c : string) : val :=
  match klookup (VStr c) d with
  | Some v => v
  | None => VStr EmptyString
  end.

Definition drop_columns (cs : list string) (d : list (val * val))
  : list (val * val) :=
  filter (fun kv => negb (existsb (fun c => atom_eq (fst kv) (VStr c)) cs)) d.

Definition frame_row (gened_areas : list string) (d : list (val * val)) : row :=
  let filled := map (fun kv => (fst kv, fillna (snd kv))) d in
  let rest := drop_columns index_columns filled in
  {| row_sub_section := column filled "Sub_Section";
     row_course := column filled "Courses in Minor";
     row_name := column filled "Name";
     row_cells := map (fun c => (c, column rest c)) ("Credit" :: gened_areas) |}.

(** Lines 206-210: the frame reads the dicts of the list. *)
Definition data_frame (gened_areas : list string) (l : val) : M (list row) :=
  dicts <~ iter l ;;
  read (fun h =>
    mapM (fun d =>
            match d with
            | VRef x =>
                match nth_error h x with
                | Some (ODict kvs) => Ok (frame_row gened_areas kvs)
                | Some _ => Err TypeError
                | None => Err SystemError
                end
            | _ => Err TypeError
            end) dicts).

(** Lines 117-212. *)
Definition process_curriculum_json (curriculum_name : string)
  (curriculum_data : val) (gened_areas : list string) (fulfillment_list : val)
  : M (list row) :=
  fulfillment_map <~ alloc (ODict []) ;;
  fl <~ iter fulfillment_list ;;
  forM_ fl (fun item =>
    k <~ getitem item "Courses in Minor" ;;
    v <~ getitem item "Fulfilled Areas" ;;
    setitem fulfillment_map k v) ;;;
  processed_list <~ alloc (OList []) ;;
  default <~ alloc (OList []) ;;
  core_section <~ dict_get curriculum_data (VStr "Core") default ;;
  append_section processed_list "A. Mandatory Core Courses"
    "B. Conditional Core: " "Mandatory" fulfillment_map core_section ;;;
  default' <~ alloc (OList []) ;;
  elective_section <~ dict_get curriculum_data (VStr "Electives") default' ;;
  append_section processed_list "A. General Electives List"
    "B. Conditional Elective: " EmptyString fulfillment_map elective_section ;;;
  course_fulfillment_list_for_df <~ alloc (OList []) ;;
  ps <~ iter processed_list ;;
  forM_ ps (fun course_info =>
    name <~ getitem course_info "Name" ;;
    sub_section <~ getitem course_info "Sub_Section" ;;
    course <~ getitem course_info "Courses in Minor" ;;
    credit <~ getitem course_info "Credit" ;;
    course_dict <~ alloc (ODict [(VStr "Name", name);
                                 (VStr "Sub_Section", sub_section);
                                 (VStr "Courses in Minor", course);
                                 (VStr "Credit", credit)]) ;;
    fulfilled_areas <~ getitem course_info "Fulfilled Areas" ;;
    forM_ gened_areas (fun gened_abbr =>
      present <~ contains (VStr gened_abbr) fulfilled_areas ;;
      setitem course_dict (VStr gened_abbr)
        (VStr (if present : bool then "X" else EmptyString))) ;;;
    list_append course_fulfillment_list_for_df course_dict) ;;;
  data_frame gened_areas course_fulfillment_list_for_df.

Inductive outcome : Type :=
| Warning (message : string)
| Info (message : string)
| Rendered (final_df : list row).

(** Lines 254-295 of [main]. *)
Definition analyze (selected_major selected_minor : string) (b : data_bundle)
  : M outcome :=
  courses <~ get_minor_courses selected_minor (minor_data b) ;;
  some <~ read (fun h => truthy h courses) ;;
  if some : bool then
    course_gened_fulfillment_list <~
      map_gened_requirements courses selected_major b ;;
    curriculum_data <~ getitem (minor_data b) selected_minor ;;
    final_df <~ process_curriculum_json selected_minor curriculum_data
                  gened_areas course_gened_fulfillment_list ;;
    match final_df with
    | [] => ret (Info "The selected minor curriculum data structure could not be processed into the table format.")
    | _ :: _ => ret (Rendered final_df)
    end
  else ret (Warning ("No course data found for minor: " ++ selected_minor)).

(** *** Catalogs in the store

    The objects a JSON parser builds for a document: one new object per
    list and per dict. *)
Fixpoint load_json (j : json) (h : heap) : heap * val :=
  match j with
  | JNull => (h, VNone)
  | JBool b => (h, VBool b)
  | JInt n => (h, VInt n)
  | JStr s => (h, VStr s)
  | JList xs =>
      let '(h1, vs) :=
        (fix load_list (l : list json) (h : heap) : heap * list val :=
           match l with
           | [] => (h, [])
           | x :: r =>
               let '(h1, v) := load_json x h in
               let '(h2, vs) := load_list r h1 in
               (h2, v :: vs)
           end) xs h in
      ((h1 ++ [OList vs])%list, VRef (List.length h1))
  | JDict kvs =>
      let '(h1, vs) :=
        (fix load_items (l : list (string * json)) (h : heap)
           : heap * list (val * val) :=
           match l with
           | [] => (h, [])
           | (k, x) :: r =>
               let '(h1, v) := load_json x h in
               let '(h2, vs) := load_items r h1 in
               (h2, (VStr k, v) :: vs)
           end) kvs h in
      ((h1 ++ [ODict vs])%list, VRef (List.length h1))
  end.

End Store.

Definition load_bundle (b : data_bundle) (h : Store.heap)
  : Store.heap * Store.data_bundle :=
  let '(h1, mi) := Store.load_json (minor_data b) h in
  let '(h2, ge) := Store.load_json (gened_data b) h1 in
  let '(h3, ma) := Store.load_json (major_data b) h2 in
  let '(h4, li) := Store.load_json (lib_data b) h3 in
  let '(h5, id) := Store.load_json (ID_data b) h4 in
  (h5, {| Store.minor_data := mi; Store.gened_data := ge;
          Store.major_data := ma; Store.lib_data := li;
          Store.ID_data := id |}).

(** * What the specification talks about *)

(** ** Membership of a course in a catalog *)

(** The course [c] is one of the entries of the catalog list [l]. *)
Definition listed (c : string) (l : json) : Prop :=
  exists entries e,
    iter l = Ok entries /\ In e entries /\ getitem e "Course" = Ok (JStr c).

(** [c] is in the list [part] ("Core" or "Electives") of the major. *)
Definition in_major (c major part : string) (b : data_bundle) : Prop :=
  exists m l,
    getitem (major_data b) major = Ok m /\ getitem m part = Ok l /\ listed c l.

(** [c] is in the list [part] ("Lib Art" or "Adv Lib Art") of the
    liberal-arts catalog. *)
Definition in_lib (c part : string) (b : data_bundle) : Prop :=
  exists l, getitem (lib_data b) part = Ok l /\ listed c l.

(** [c] is in the "Required Core" or in the "Flexible Core" list of the
    gen-ed catalog. *)
Definition in_gened (c : string) (b : data_bundle) : Prop :=
  exists g core_type l,
    In core_type ["Required Core"; "Flexible Core"] /\
    getitem (gened_data b) "gened" = Ok g /\
    getitem g core_type = Ok l /\ listed c l.

(** The requirement-area columns of a row: all its cells but [Credit]. *)
Definition area_cells (r : row) : list (string * json) := tl (row_cells r).

Definition blank (cell : string * json) : Prop := snd cell = JStr EmptyString.

Definition flagged (cell : string * json) : Prop := snd cell = JStr "X".

(** ** The trailing pattern of an interdisciplinary identifier *)

(** [s] ends in one or more digits followed by "ID". *)
Definition ends_in_digits_ID (s : string) : Prop :=
  exists p d, is_digit d = true /\ s = p ++ String d "ID".

(** A string of ASCII characters. *)
Fixpoint ascii_only (s : string) : bool :=
  match s with
  | EmptyString => true
  | String c r => (nat_of_ascii c <? 128)%nat && ascii_only r
  end.

(** [s] ends in one or more digits followed by "ID" and one final newline. *)
Definition ends_in_digits_ID_newline (s : string) : Prop :=
  exists s', s = s' ++ String newline EmptyString /\ ends_in_digits_ID s'.

(** A string of digits. *)
Fixpoint all_digits (s : string) : bool :=
  match s with
  | EmptyString => true
  | String c r => is_digit c && all_digits r
  end.

(** ** The minor requirement tree of the data model *)

Record course_entry : Type := {
  ce_course : string;
  ce_title : option string;
  ce_credit : option (Z * Z)
}.

Inductive tree_item : Type :=
| Direct (e : course_entry)
| Group (name : string) (courses : list course_entry).

Record minor_tree : Type := {
  tree_core : list tree_item;
  tree_electives : list tree_item
}.

(** The JSON document of a tree, as the catalog stores it. *)
Definition json_of_entry (e : course_entry) : json :=
  JDict ([("Course", JStr (ce_course e))]
         ++ match ce_title e with
            | Some t => [("Title", JStr t)]
            | None => []
            end
         ++ match ce_credit e with
            | Some (lo, hi) => [("Credit", JDict [("Min", JInt lo); ("Max", JInt hi)])]
            | None => []
            end)%list.

Definition json_of_item (i : tree_item) : json :=
  match i with
  | Direct e => json_of_entry e
  | Group name courses =>
      JDict [("group", JStr name); ("courses", JList (map json_of_entry courses))]
  end.

Definition json_of_tree (t : minor_tree) : json :=
  JDict [("Core", JList (map json_of_item (tree_core t)));
         ("Electives", JList (map json_of_item (tree_electives t)))].

(** The courses of a tree in traversal order: the Core section, then the
    Electives section; in a section the items in source order, a group
    giving its courses in order. *)
Definition item_courses (i : tree_item) : list string :=
  match i with
  | Direct e => [ce_course e]
  | Group _ courses => map ce_course courses
  end.

Definition traversal (t : minor_tree) : list string :=
  (flat_map item_courses (tree_core t)
   ++ flat_map item_courses (tree_electives t))%list.

(** ** The merged gen-ed lookup *)

(** [course_info.get('Area(s)', [])] of a gen-ed entry. *)
Definition areas_of (course_info : json) : json :=
  match dict_get course_info "Area(s)" (JList []) with
  | Ok a => a
  | Err _ => JList []
  end.

(** The areas the merged lookup holds for [c]: those of the last entry of
    the course. *)
Fixpoint merged_areas (c : string) (entries : list json) : option json :=
  match entries with
  | [] => None
  | e :: r =>
      match merged_areas c r with
      | Some a => Some a
      | None =>
          match getitem e "Course" with
          | Ok (JStr c') => if String.eqb c' c then Some (areas_of e) else None
          | _ => None
          end
      end
  end.

(** The tags the resolver derives from the major, liberal-arts and
    interdisciplinary catalogs. *)
Definition derived_tag (a : json) : Prop :=
  In a (map JStr ["Major_Core"; "Major_Elec"; "Lib Art"; "Adv Lib Art"; "ID"]).

(** ** Example catalogs *)

Definition minor_M : json :=
  JDict [("M", JDict [("Core",
    JList [JDict [("Course", JStr "X1"); ("Title", JStr "T1")]])])].

(** The major catalog with the core given as a list of identifiers. *)
Definition major_of_identifiers : json :=
  JDict [("MAJ", JDict [("Core", JList [JStr "X1"]); ("Electives", JList [])])].

(** The major catalog with the core given as a list of course records. *)
Definition major_of_records : json :=
  JDict [("MAJ", JDict [("Core", JList [JDict [("Course", JStr "X1")]]);
                        ("Electives", JList [])])].

(** Catalogs without a course, in the shape the resolver reads. *)
Definition gened_empty : json :=
  JDict [("gened", JDict [("Required Core", JList []);
                          ("Flexible Core", JList [])])].

Definition lib_empty : json :=
  JDict [("Lib Art", JList []); ("Adv Lib Art", JList [])].

Definition bundle_of (minor gened major lib ID : json) : data_bundle :=
  {| minor_data := minor; gened_data := gened; major_data := major;
     lib_data := lib; ID_data := ID |}.

(** ** The parts of a resolved area list *)

Definition member (course : json) (s : pyset) : bool :=
  existsb (fun e => py_eq e course) s.

(** The areas the merged gen-ed lookup seeds the result with. *)
Definition gened_seed (lk : lookups) (course : json) : list json :=
  normalize_areas
    (match pd_lookup course (gened_fulfillment_map lk) with
     | Some v => v
     | None => JList []
     end).

(** The tags appended after the seed. *)
Definition derived_tags (lk : lookups) (course : json) (is_id : bool)
  : list json :=
  (tag_if (member course (major_core lk)) ["Major_Core"]
   ++ tag_if (member course (major_elective lk)) ["Major_Elec"]
   ++ tag_if (member course (lib_art lk)) ["Lib Art"]
   ++ tag_if (member course (adv_lib lk)) ["Lib Art"; "Adv Lib Art"]
   ++ tag_if is_id ["ID"])%list.

(** A gen-ed catalog with one entry, of course "X1", whose areas are [v]. *)
Definition gened_with_areas (v : json) : json :=
  JDict [("gened", JDict [("Required Core",
            JList [JDict [("Course", JStr "X1"); ("Area(s)", v)]]);
          ("Flexible Core", JList [])])].

(** A liberal-arts catalog with "X1" as its only advanced course. *)
Definition lib_adv_X1 : json :=
  JDict [("Lib Art", JList []);
         ("Adv Lib Art", JList [JDict [("Course", JStr "X1")]])].

(** The identifier "12ID" followed by a newline. *)
Definition id_then_newline : string := "12ID" ++ String newline EmptyString.

(** The sub-sections of the rows of a tree, in traversal order. *)
Definition item_sub_sections (direct_label group_prefix : string)
  (i : tree_item) : list string :=
  match i with
  | Direct _ => [direct_label]
  | Group name courses => map (fun _ => group_prefix ++ name) courses
  end.

Definition sub_sections (t : minor_tree) : list string :=
  (flat_map (item_sub_sections "A. Mandatory Core Courses"
               "B. Conditional Core: ") (tree_core t)
   ++ flat_map (item_sub_sections "A. General Electives List"
                  "B. Conditional Elective: ") (tree_electives t))%list.

(** ** Example trees *)

Definition plain_entry (c : string) : course_entry :=
  {| ce_course := c; ce_title := None; ce_credit := None |}.

(** Core = [A, B], Electives = [C]. *)
Definition tree_ABC : minor_tree :=
  {| tree_core := [Direct (plain_entry "A"); Direct (plain_entry "B")];
     tree_electives := [Direct (plain_entry "C")] |}.

(** A Core section whose conditional group comes before a direct entry. *)
Definition tree_group_first : minor_tree :=
  {| tree_core := [Group "G" [plain_entry "B"]; Direct (plain_entry "A")];
     tree_electives := [] |}.

Definition table_group_first : list row :=
  Eval vm_compute in
    match process_curriculum_json "M" (json_of_tree tree_group_first)
            gened_areas [] with
    | Ok rows => rows
    | Err _ => []
    end.

(** A resolver output that flags every course of [tree_ABC] differently. *)
Definition fulfillment_ABC : list fulfillment :=
  [{| f_course := JStr "A"; f_areas := [JStr "EC"] |};
   {| f_course := JStr "C"; f_areas := [JStr "ID"; JStr "Major_Core"] |}].

(** A minor with course "X1" in two sub-sections and a course "Z9" that is
    in no catalog. *)
Definition minor_twice : json :=
  JDict [("M", JDict [
    ("Core", JList [
       JDict [("Course", JStr "X1"); ("Title", JStr "T1")];
       JDict [("group", JStr "G");
              ("courses", JList [JDict [("Course", JStr "X1");
                                        ("Title", JStr "Again")]])]]);
    ("Electives", JList [JDict [("Course", JStr "Z9")]])])].

Definition bundle_twice : data_bundle :=
  bundle_of minor_twice gened_empty major_of_records lib_empty (JDict []).

Definition table_twice : list row :=
  Eval vm_compute in
    match analyze "MAJ" "M" bundle_twice with
    | Ok (Rendered rows) => rows
    | _ => []
    end.

Definition blank_row : row :=
  {| row_sub_section := JStr EmptyString; row_course := JStr EmptyString;
     row_name := JStr EmptyString; row_cells := [] |}.

(** ** What a computation over the store may write to *)

(** A reference to an object that is not among the first [n] of the store. *)
Definition fresh (n : nat) (v : Store.val) : Prop :=
  exists l, v = Store.VRef l /\ n <= l.

(** [m] keeps the first [n] objects of the store, only adds objects, and
    its result satisfies [Q]. *)
Definition frames {A : Type} (n : nat) (m : Store.M A) (Q : A -> Prop) : Prop :=
  forall h, n <= List.length h ->
    List.length h <= List.length (fst (m h)) /\
    (forall l, l < n -> nth_error (fst (m h)) l = nth_error h l) /\
    (forall a, snd (m h) = Ok a -> Q a).

Definition anything {A : Type} (a : A) : Prop := True.

(** ** The two embeddings side by side *)

(** The value of the first embedding for a value of the store that is no
    reference. *)
Definition json_of_atom (v : Store.val) : json :=
  match v with
  | Store.VNone => JNull
  | Store.VBool b => JBool b
  | Store.VInt n => JInt n
  | Store.VStr s => JStr s
  | Store.VRef _ => JNull
  end.

Definition row_of_store (r : Store.row) : row :=
  {| row_sub_section := json_of_atom (Store.row_sub_section r);
     row_course := json_of_atom (Store.row_course r);
     row_name := json_of_atom (Store.row_name r);
     row_cells := map (fun c => (fst c, json_of_atom (snd c))) (Store.row_cells r) |}.

Definition outcome_of_store (o : Store.outcome) : outcome :=
  match o with
  | Store.Warning m => Warning m
  | Store.Info m => Info m
  | Store.Rendered df => Rendered (map row_of_store df)
  end.

(** The analysis over the store, on catalogs loaded into the empty store. *)
Definition analyze_in_store (major minor : string) (b : data_bundle)
  : result outcome :=
  let '(h, sb) := load_bundle b [] in
  match snd (Store.analyze major minor sb h) with
  | Ok o => Ok (outcome_of_store o)
  | Err e => Err e
  end.

(** A gen-ed catalog whose entry of "X1" has the area list ["EC", "IS"],
    and a minor that has "X1" twice. *)
Definition bundle_shared_areas : data_bundle :=
  bundle_of minor_twice (gened_with_areas (JList [JStr "EC"; JStr "IS"]))
    major_of_records lib_adv_X1 (JDict [("Z9", JNull)]).

(** A minor whose only course has the identifier "12ID" followed by a
    newline, a course that is in no catalog. *)
Definition minor_newline : json :=
  JDict [("M", JDict [("Core", JList [JDict [("Course", JStr id_then_newline)]])])].

Definition bundle_newline : data_bundle :=
  bundle_of minor_newline gened_empty major_of_records lib_empty (JDict []).

Definition table_newline : list row :=
  Eval vm_compute in
    match analyze "MAJ" "M" bundle_newline with
    | Ok (Rendered rows) => rows
    | _ => []
    end.

(** * The rest of the program *)

(** ** Styling: [apply_row_styles] and [apply_section_borders]
    (lines 216-230) *)

(** Lines 216-217: one empty style per cell of the row. *)
Definition apply_row_styles {A : Type} (s : list A) : list string :=
  map (fun _ => EmptyString) s.

(** One element of the list [apply_section_borders] returns:
    [{'selector': ..., 'props': [('border-bottom', ...)]}]. *)
Record style_rule : Type := {
  selector : string;
  props : list (string * string)
}.

(** Lines 225-228, for the loop index [i]. *)
Definition light_border_rule (i : nat) : style_rule :=
  let child := "tr:nth-child(" ++ string_of_Z (Z.of_nat (i + 1)) ++ ")" in
  {| selector := child ++ " th, " ++ child ++ " td";
     props := [("border-bottom", "4px solid #cccccc !important")] |}.

(** Lines 222-229: the loop from index [i] on, [index_values] being the
    rows from that index. *)
Fixpoint section_borders_from (i : nat) (index_values : list row)
  : list style_rule :=
  match index_values with
  | [] => []
  | current :: rest =>
      match rest with
      | [] => []
      | next :: _ =>
          if negb (py_eq (row_sub_section next) (row_sub_section current))
          then light_border_rule i :: section_borders_from (S i) rest
          else section_borders_from (S i) rest
      end
  end.

(** Lines 219-230; the styler is read for the index of its frame only. *)
Definition apply_section_borders (styler : list row) : list style_rule :=
  section_borders_from 0 styler.

(** ** Loading: [load_data] (lines 16-43)

    The network is a parameter: [fetch url] is the document that
    [requests.get(url)], [raise_for_status()] and [json()] give, or the text
    of the exception one of them raises. *)

Definition base_url : string :=
  "https://raw.githubusercontent.com/RichardLin3/InfoSysProj/main/data/".

(** Lines 23-29, in the order of the dict. *)
Definition files : list (string * string) :=
  [("minor_data", "minors_v3.json");
   ("gened_data", "gened_v2.json");
   ("major_data", "all-majors.json");
   ("lib_data", "liberal_arts_courses.json");
   ("ID_data", "ID.json")].

(** What a run of [load_data] does and returns: the URLs it requests, the
    messages it shows with [st.error], and the dict it returns ([None] for
    the Python [None]). *)
Record loading : Type := {
  requested : list string;
  shown_errors : list string;
  returned : option (list (string * json))
}.

Section Loading.

Variable fetch : string -> string + json.

(** Lines 34-41: the loop over the files that are left. *)
Fixpoint load_files (fs : list (string * string))
  (loaded_data : list (string * json)) (urls : list string) : loading :=
  match fs with
  | [] => {| requested := urls; shown_errors := []; returned := Some loaded_data |}
  | (key, filename) :: rest =>
      match fetch (base_url ++ filename) with
      | inr document =>
          load_files rest (sd_set key document loaded_data)
            (urls ++ [(base_url ++ filename)%string])%list
      | inl e =>
          {| requested := (urls ++ [(base_url ++ filename)%string])%list;
             shown_errors := ["Error loading " ++ filename ++ ": " ++ e];
             returned := None |}
      end
  end.

Definition load_data : loading := load_files files [] [].

End Loading.

(** The five catalogs [main] reads from the loaded dict. *)
Definition bundle_of_loaded (d : list (string * json)) : result data_bundle :=
  mi <- getitem (JDict d) "minor_data" ;;
  ge <- getitem (JDict d) "gened_data" ;;
  ma <- getitem (JDict d) "major_data" ;;
  li <- getitem (JDict d) "lib_data" ;;
  id <- getitem (JDict d) "ID_data" ;;
  Ok (bundle_of mi ge ma li id).

(** ** What the properties below talk about *)

(** The sub-section changes after row [k] (counted from 1). *)
Definition changes_after (rows : list row) (k : nat) : bool :=
  match nth_error rows (k - 1), nth_error rows k with
  | Some current, Some next =>
      negb (py_eq (row_sub_section next) (row_sub_section current))
  | _, _ => false
  end.

(** The row numbers (from 1) after which the sub-section changes. *)
Definition sub_section_changes (rows : list row) : list nat :=
  filter (changes_after rows) (seq 1 (List.length rows - 1)).

(** The URL of a file of [files]. *)
Definition url_of (f : string * string) : string := base_url ++ snd f.

(** The credit string of an entry of the tree. *)
Definition entry_credit (e : course_entry) : string :=
  match ce_credit e with
  | Some (lo, hi) =>
      if Z.eqb lo hi then string_of_Z hi
      else string_of_Z lo ++ "-" ++ string_of_Z hi
  | None => "3"
  end.

Definition item_credits (i : tree_item) : list string :=
  match i with
  | Direct e => [entry_credit e]
  | Group _ courses => map entry_credit courses
  end.

Definition credits (t : minor_tree) : list string :=
  (flat_map item_credits (tree_core t)
   ++ flat_map item_credits (tree_electives t))%list.

(** The cell of a column in a row. *)
Definition cell (r : row) (c : string) : json := column (row_cells r) c.

(** No key of the dict mentions a credit. *)
Definition no_credit_key (kvs : list (string * json)) : Prop :=
  forall k, In k (map fst kvs) -> is_substring "credit" (lower k) = false.

(** A value that has a "Min" and a "Max". *)
Definition credit_pair (v : json) : Prop :=
  exists lo hi, getitem v "Min" = Ok lo /\ getitem v "Max" = Ok hi.

(** The title column of the rows of a tree: the title of the entry, or the
    default of the place the entry is read at. *)
Definition entry_name (default : string) (e : course_entry) : string :=
  match ce_title e with
  | Some t => t
  | None => default
  end.

Definition item_names (direct_default : string) (i : tree_item) : list string :=
  match i with
  | Direct e => [entry_name direct_default e]
  | Group _ courses => map (entry_name EmptyString) courses
  end.

Definition names (t : minor_tree) : list string :=
  (flat_map (item_names "Mandatory") (tree_core t)
   ++ flat_map (item_names EmptyString) (tree_electives t))%list.

(** A minor whose only section is neither "Core" nor "Electives". *)
Definition minor_other_section : json :=
  JDict [("M", JDict [("Other", JList [JDict [("Course", JStr "X1")]])])].

(** A liberal-arts catalog with "X1" in both lists. *)
Definition lib_both_X1 : json :=
  JDict [("Lib Art", JList [JDict [("Course", JStr "X1")]]);
         ("Adv Lib Art", JList [JDict [("Course", JStr "X1")]])].

(** A tree with titles and credits. *)
Definition tree_with_credits : minor_tree :=
  {| tree_core :=
       [Direct {| ce_course := "A"; ce_title := Some "Algebra";
                  ce_credit := Some (3, 4)%Z |};
        Group "G" [{| ce_course := "B"; ce_title := None;
                      ce_credit := Some (2, 2)%Z |}]];
     tree_electives := [Direct (plain_entry "C")] |}.

(** A network on which the third file cannot be fetched. *)
Definition fetch_without_majors (url : string) : string + json :=
  if String.eqb url (base_url ++ "all-majors.json")
  then inl "404 Client Error"
  else inr (JDict []).

(** ** Assertions on the store *)

(** If [m] starts in a store that satisfies [P] and returns [a], the store
    it leaves satisfies [Q a]. *)
Definition triple {A : Type} (P : Store.heap -> Prop) (m : Store.M A)
  (Q : A -> Store.heap -> Prop) : Prop :=
  forall h, P h -> forall a, snd (m h) = Ok a -> Q a (fst (m h)).

(** [e] is an entry of the resolver's result,
    [{'Courses in Minor': c, 'Fulfilled Areas': <list>}], whose area list is
    an object made after the object [bound]. *)
Definition entry_with_areas_after (bound : nat) (h : Store.heap)
  (e : Store.val) : Prop :=
  exists le c la,
    e = Store.VRef le /\
    nth_error h le
    = Some (Store.ODict [(Store.VStr "Courses in Minor", c);
                         (Store.VStr "Fulfilled Areas", Store.VRef la)]) /\
    bound < la.

(** The list at [L] holds such entries only. *)
Definition result_list (L : nat) (h : Store.heap) : Prop :=
  exists es,
    nth_error h L = Some (Store.OList es) /\
    Forall (entry_with_areas_after L h) es.

(** The entries of the list at [L] are dicts
    [{'Courses in Minor': c, 'Fulfilled Areas': <list>}] whose area list is
    none of the first [n] objects of the store. *)
Definition entries_with_new_areas (n : nat) (h : Store.heap) (v : Store.val)
  : Prop :=
  exists L es,
    v = Store.VRef L /\ n <= L /\
    nth_error h L = Some (Store.OList es) /\
    Forall (fun e =>
              exists le c la,
                e = Store.VRef le /\
                nth_error h le
                = Some (Store.ODict
                          [(Store.VStr "Courses in Minor", c);
                           (Store.VStr "Fulfilled Areas", Store.VRef la)]) /\
                n <= la) es.

(** The catalogs of [bundle_shared_areas] in the store, and the list of
    courses the extractor returns for the minor "M". *)
Definition store_shared_areas : Store.heap * Store.data_bundle :=
  Eval vm_compute in load_bundle bundle_shared_areas [].

Definition store_with_courses : Store.heap * Store.val :=
  Eval vm_compute in
    let '(h, b) := store_shared_areas in
    let '(h', r) := Store.get_minor_courses "M" (Store.minor_data b) h in
    (h', match r with Ok v => v | Err _ => Store.VNone end).

Definition resolved_in_store : Store.val :=
  Eval vm_compute in
    match snd (Store.map_gened_requirements (snd store_with_courses) "MAJ"
                 (snd store_shared_areas) (fst store_with_courses)) with
    | Ok v => v
    | Err _ => Store.VNone
    end.

(** A minor whose Core section has a conditional group without a "courses"
    field. *)
Definition tree_with_bare_group : json :=
  JDict [("Core", JList [JDict [("group", JStr "G")];
                         JDict [("Course", JStr "X1")]])].

(** * Properties *)

(** ** The error monad *)

Lemma bind_Ok {A B : Type} (m : result A) (f : A -> result B) (b : B) :
  bind m f = Ok b -> exists a, m = Ok a /\ f a = Ok b.
Proof.
  destruct m as [a|e]; simpl; intros H.
  - exists a; split; [reflexivity | exact H].
  - discriminate.
Qed.

Ltac inv_bind H :=
  let a := fresh "x" in
  let Ha := fresh "E" in
  apply bind_Ok in H; destruct H as (a & Ha & H).

Tactic Notation "bind_inv" hyp(H) "as" ident(a) ident(Ha) :=
  apply bind_Ok in H; destruct H as (a & Ha & H).

Ltac inv_Ok H := injection H as H; subst.

Lemma mapM_Ok {A B : Type} (f : A -> result B) (l : list A) (l' : list B) :
  mapM f l = Ok l' -> Forall2 (fun a b => f a = Ok b) l l'.
Proof.
  revert l'; induction l as [|a l IH]; simpl; intros l' H.
  - inv_Ok H. constructor.
  - inv_bind H. inv_bind H. inv_Ok H. constructor; auto.
Qed.

Lemma mapM_total {A B : Type} (f : A -> result B) (g : A -> B) (l : list A) :
  (forall a, In a l -> f a = Ok (g a)) -> mapM f l = Ok (map g l).
Proof.
  induction l as [|a l IH]; simpl; intros H; [reflexivity|].
  rewrite (H a (or_introl eq_refl)); simpl.
  rewrite IH by (intros; apply H; right; assumption). reflexivity.
Qed.

Lemma Forall2_In_r {A B : Type} (R : A -> B -> Prop) (l : list A) (l' : list B) (b : B) :
  Forall2 R l l' -> In b l' -> exists a, In a l /\ R a b.
Proof.
  induction 1 as [|a b' l l' HR HF IH]; simpl; intros Hin; [contradiction|].
  destruct Hin as [->|Hin].
  - exists a; auto.
  - destruct (IH Hin) as (a' & Ha' & HR'). exists a'; auto.
Qed.

Lemma Forall2_In_l {A B : Type} (R : A -> B -> Prop) (l : list A) (l' : list B) (a : A) :
  Forall2 R l l' -> In a l -> exists b, In b l' /\ R a b.
Proof.
  induction 1 as [|a' b l l' HR HF IH]; simpl; intros Hin; [contradiction|].
  destruct Hin as [->|Hin].
  - exists b; auto.
  - destruct (IH Hin) as (b' & Hb' & HR'). exists b'; auto.
Qed.

(** ** Equality with a string *)

Lemma py_eq_str_r (a : json) (s : string) :
  py_eq a (JStr s) = true <-> a = JStr s.
Proof.
  destruct a; simpl; split; intros H; try discriminate.
  - apply String.eqb_eq in H. subst; reflexivity.
  - injection H as ->. apply String.eqb_refl.
Qed.

Lemma py_eq_str_l (a : json) (s : string) :
  py_eq (JStr s) a = true <-> a = JStr s.
Proof.
  destruct a; simpl; split; intros H; try discriminate.
  - apply String.eqb_eq in H. subst; reflexivity.
  - injection H as ->. apply String.eqb_refl.
Qed.

Lemma existsb_py_eq_str (l : list json) (s : string) :
  existsb (fun e => py_eq e (JStr s)) l = true <-> In (JStr s) l.
Proof.
  rewrite existsb_exists. split.
  - intros (x & Hin & Heq). apply py_eq_str_r in Heq. subst; assumption.
  - intros Hin. exists (JStr s); split; [assumption|]. apply py_eq_str_r; reflexivity.
Qed.

(** ** C1: the end-to-end example *)

(** C1, as stated: with the major's core given as the list of identifiers
    ["X1"], the analysis raises and builds no table, whether the three
    empty catalogs are the empty object or catalogs without a course. *)
Lemma end_to_end_identifier_list_raises :
  analyze "MAJ" "M"
    (bundle_of minor_M (JDict []) major_of_identifiers (JDict []) (JDict []))
  = Err KeyError
  /\
  analyze "MAJ" "M"
    (bundle_of minor_M gened_empty major_of_identifiers lib_empty (JDict []))
  = Err TypeError.
Proof. split; reflexivity. Qed.

(** C1, amended: with the major's core given as the list of course records
    [{"Course": "X1"}] and gen-ed and liberal-arts catalogs without a course,
    the analysis of minor "M" and major "MAJ" builds a table of exactly one
    row: sub-section "A. Mandatory Core Courses", course "X1", title "T1",
    credit "3", the "Major_Core" column flagged and every other area column
    blank. *)
Theorem end_to_end_course_records :
  analyze "MAJ" "M"
    (bundle_of minor_M gened_empty major_of_records lib_empty (JDict []))
  = Ok (Rendered
      [{| row_sub_section := JStr "A. Mandatory Core Courses";
          row_course := JStr "X1";
          row_name := JStr "T1";
          row_cells :=
            [("Credit", JStr "3");
             ("EC", JStr EmptyString); ("MQR", JStr EmptyString);
             ("LPS", JStr EmptyString); ("WCGI", JStr EmptyString);
             ("USED", JStr EmptyString); ("IS", JStr EmptyString);
             ("CE", JStr EmptyString); ("SW", JStr EmptyString);
             ("Lib Art", JStr EmptyString); ("Adv Lib Art", JStr EmptyString);
             ("ID", JStr EmptyString); ("Major_Core", JStr "X");
             ("Major_Elec", JStr EmptyString)] |}]).
Proof. reflexivity. Qed.

(** ** C2: credit resolution *)

(** C2, at the course entry {"Course": "X1", "Credit": 4}: the credit
    resolution returns the number 4 as it is, not the 3-3 default, and the
    materializer then raises a TypeError when it reads the "Min" of it. *)
Theorem credit_that_is_no_pair_is_fatal :
  let entry := JDict [("Course", JStr "X1"); ("Credit", JInt 4)] in
  get_credit_info entry = Ok (JInt 4)
  /\ process_curriculum_json "M" (JDict [("Core", JList [entry])]) gened_areas []
     = Err TypeError.
Proof. split; reflexivity. Qed.

(** ** C8: a minor that is not in the catalog *)

(** C8: for a minor catalog (a JSON object) and a minor name that is not
    one of its keys, the extractor returns the empty list, and the analysis
    stops at the warning "No course data found for minor: <name>" without
    resolving or materializing anything. *)
Theorem missing_minor_reports_no_data (kvs : list (string * json))
  (selected_major selected_minor : string) (b : data_bundle) :
  minor_data b = JDict kvs ->
  lookup selected_minor kvs = None ->
  get_minor_courses selected_minor (minor_data b) = Ok []
  /\ analyze selected_major selected_minor b
     = Ok (Warning ("No course data found for minor: " ++ selected_minor)).
Proof.
  intros Hm Hl.
  assert (H : get_minor_courses selected_minor (minor_data b) = Ok []).
  { rewrite Hm. unfold get_minor_courses, contains, has_key. simpl.
    rewrite Hl. reflexivity. }
  split; [exact H|].
  unfold analyze. rewrite H. reflexivity.
Qed.

Lemma missing_minor_reports_no_data_witness :
  get_minor_courses "N" minor_M = Ok []
  /\ analyze "MAJ" "N"
       (bundle_of minor_M gened_empty major_of_records lib_empty (JDict []))
     = Ok (Warning "No course data found for minor: N").
Proof.
  apply (missing_minor_reports_no_data
           [("M", JDict [("Core",
              JList [JDict [("Course", JStr "X1"); ("Title", JStr "T1")]])])]
           "MAJ" "N"
           (bundle_of minor_M gened_empty major_of_records lib_empty (JDict []))).
  - reflexivity.
  - reflexivity.
Defined.

(** ** Strings and the trailing pattern *)

Lemma append_assoc (a b c : string) : (a ++ b) ++ c = a ++ (b ++ c).
Proof. induction a as [|x a IH]; simpl; [reflexivity | rewrite IH; reflexivity]. Qed.

Lemma append_nil_r (a : string) : a ++ EmptyString = a.
Proof. induction a as [|x a IH]; simpl; [reflexivity | rewrite IH; reflexivity]. Qed.

Lemma skip_digits_split (s : string) :
  exists ds, all_digits ds = true /\ s = ds ++ skip_digits s.
Proof.
  induction s as [|c r IH]; simpl.
  - exists EmptyString; split; reflexivity.
  - destruct (is_digit c) eqn:Hc.
    + destruct IH as (ds & Hds & Hr).
      exists (String c ds); simpl. rewrite Hc, Hds. split; [reflexivity|].
      f_equal; exact Hr.
    + exists EmptyString; split; reflexivity.
Qed.

(** A non-empty run of digits ends in a digit. *)
Lemma digits_last (c : ascii) (ds : string) :
  is_digit c = true -> all_digits ds = true ->
  exists p d, is_digit d = true /\ String c ds = p ++ String d EmptyString.
Proof.
  revert c; induction ds as [|x ds IH]; simpl; intros c Hc Hds.
  - exists EmptyString, c; split; [assumption | reflexivity].
  - apply andb_true_iff in Hds as [Hx Hds].
    destruct (IH x Hx Hds) as (p & d & Hd & Heq).
    exists (String c p), d; split; [assumption|]. simpl. rewrite Heq; reflexivity.
Qed.

Lemma at_dollar_cases (t : string) :
  at_dollar t = true <-> t = EmptyString \/ t = String newline EmptyString.
Proof.
  destruct t as [|c [|c' t]]; simpl; split; intros H; auto; try discriminate.
  - right. apply Ascii.eqb_eq in H. subst; reflexivity.
  - destruct H as [H|H]; [discriminate|]. injection H as ->. apply Ascii.eqb_refl.
  - destruct H as [H|H]; discriminate.
Qed.

Lemma match_here_shape (s : string) :
  match_digits_ID_here s = true ->
  exists p d t, is_digit d = true /\ at_dollar t = true /\
                s = p ++ String d ("ID" ++ t).
Proof.
  destruct s as [|c r]; simpl; [discriminate|]. intros H.
  apply andb_true_iff in H as [Hc H].
  destruct (skip_digits_split r) as (ds & Hds & Hr).
  destruct (skip_digits r) as [|i [|d' t]] eqn:Hs; try discriminate.
  - destruct i as [[] [] [] [] [] [] [] []]; discriminate.
  - destruct (Ascii.eqb_spec i "I"); [subst i|
      destruct i as [[] [] [] [] [] [] [] []]; try discriminate; congruence].
    destruct (Ascii.eqb_spec d' "D"); [subst d'|
      destruct d' as [[] [] [] [] [] [] [] []]; try discriminate; congruence].
    destruct (digits_last c ds Hc Hds) as (p & d & Hd & Heq).
    exists p, d, t. repeat split; try assumption.
    rewrite Hr.
    change (String c (ds ++ String "I" (String "D" t)))
      with (String c ds ++ String "I" (String "D" t)).
    rewrite Heq, append_assoc. reflexivity.
Qed.

Lemma re_search_shape (s : string) :
  re_search_digits_ID s = true ->
  exists p d t, is_digit d = true /\ at_dollar t = true /\
                s = p ++ String d ("ID" ++ t).
Proof.
  induction s as [|c r IH]; simpl; [discriminate|]. intros H.
  apply orb_true_iff in H as [H|H].
  - apply (match_here_shape (String c r)). exact H.
  - destruct (IH H) as (p & d & t & Hd & Ht & Heq).
    exists (String c p), d, t. repeat split; try assumption.
    simpl. rewrite Heq. reflexivity.
Qed.

Lemma re_search_suffix (p d : string) (c : ascii) (t : string) :
  is_digit c = true -> at_dollar t = true ->
  re_search_digits_ID (p ++ String c ("ID" ++ t)) = true.
Proof.
  intros Hc Ht. induction p as [|x p IH].
  - simpl append at 1.
    change (re_search_digits_ID (String c ("ID" ++ t)))
      with (match_digits_ID_here (String c ("ID" ++ t))
            || re_search_digits_ID ("ID" ++ t)).
    apply orb_true_iff; left.
    unfold match_digits_ID_here. rewrite Hc. simpl. exact Ht.
  - change (re_search_digits_ID (String x p ++ String c ("ID" ++ t)))
      with (match_digits_ID_here (String x (p ++ String c ("ID" ++ t)))
            || re_search_digits_ID (p ++ String c ("ID" ++ t))).
    rewrite IH. apply orb_true_r.
Qed.

(** The pattern is found in [s] exactly when [s], or [s] without a newline
    at its end, ends in digits followed by "ID". *)
Lemma re_search_digits_ID_spec (s : string) :
  re_search_digits_ID s = true <->
  ends_in_digits_ID s \/
  exists s', s = s' ++ String newline EmptyString /\ ends_in_digits_ID s'.
Proof.
  split.
  - intros H. destruct (re_search_shape s H) as (p & d & t & Hd & Ht & Heq).
    apply at_dollar_cases in Ht as [->| ->].
    + left. exists p, d. split; [assumption|]. exact Heq.
    + right. exists (p ++ String d "ID"). split.
      * rewrite Heq, append_assoc. reflexivity.
      * exists p, d. split; [assumption | reflexivity].
  - intros [(p & d & Hd & ->) | (s' & -> & p & d & Hd & ->)].
    + apply (re_search_suffix p EmptyString d EmptyString Hd). reflexivity.
    + rewrite append_assoc.
      apply (re_search_suffix p EmptyString d (String newline EmptyString) Hd).
      reflexivity.
Qed.

(** ** The lookups of the resolver *)

Lemma pd_lookup_set_str {A : Type} (c : string) (k : json) (v : A) (m : pydict A) :
  pd_lookup (JStr c) (pd_set k v m)
  = if py_eq k (JStr c) then Some v else pd_lookup (JStr c) m.
Proof.
  induction m as [|[k' v'] m IH]; simpl.
  - reflexivity.
  - destruct (py_eq k' k) eqn:Hk; simpl.
    + destruct (py_eq k' (JStr c)) eqn:Hc.
      * apply py_eq_str_r in Hc. subst k'.
        apply py_eq_str_l in Hk. subst k. simpl. rewrite String.eqb_refl. reflexivity.
      * destruct (py_eq k (JStr c)) eqn:Hkc; [|reflexivity].
        apply py_eq_str_r in Hkc. subst k.
        apply py_eq_str_r in Hk. subst k'. simpl in Hc.
        rewrite String.eqb_refl in Hc. discriminate.
    + destruct (py_eq k' (JStr c)) eqn:Hc.
      * destruct (py_eq k (JStr c)) eqn:Hkc; [|reflexivity].
        apply py_eq_str_r in Hkc, Hc. subst. simpl in Hk.
        rewrite String.eqb_refl in Hk. discriminate.
      * exact IH.
Qed.

Lemma merged_areas_app (c : string) (l1 l2 : list json) :
  merged_areas c (l1 ++ l2)
  = match merged_areas c l2 with
    | Some a => Some a
    | None => merged_areas c l1
    end.
Proof.
  induction l1 as [|e l1 IH]; simpl.
  - destruct (merged_areas c l2); reflexivity.
  - rewrite IH. destruct (merged_areas c l2); reflexivity.
Qed.

Lemma gened_entry_lookup (m m' : pydict json) (e : json) (c : string) :
  gened_entry m e = Ok m' ->
  pd_lookup (JStr c) m'
  = match getitem e "Course" with
    | Ok (JStr c') => if String.eqb c' c then Some (areas_of e) else pd_lookup (JStr c) m
    | _ => pd_lookup (JStr c) m
    end.
Proof.
  unfold gened_entry, areas_of. intros H.
  inv_bind H. inv_bind H. rewrite E, E0.
  unfold pd_setitem in H. destruct (hashable x0) eqn:Hh; [|discriminate].
  inv_Ok H. rewrite pd_lookup_set_str.
  destruct x0; simpl; try reflexivity; discriminate.
Qed.

Lemma gened_entries_lookup (entries : list json) (m m' : pydict json) (c : string) :
  foldM gened_entry entries m = Ok m' ->
  pd_lookup (JStr c) m'
  = match merged_areas c entries with
    | Some a => Some a
    | None => pd_lookup (JStr c) m
    end.
Proof.
  revert m; induction entries as [|e r IH]; simpl; intros m H.
  - inv_Ok H. reflexivity.
  - inv_bind H. rewrite (IH _ H).
    destruct (merged_areas c r); [reflexivity|].
    rewrite (gened_entry_lookup _ _ _ c E).
    destruct (getitem e "Course") as [[]|]; try reflexivity.
    destruct (String.eqb s c); reflexivity.
Qed.

(** The merged lookup holds, for a course, the areas of its last entry in
    the "Required Core" list followed by the "Flexible Core" list. *)
Lemma build_gened_fulfillment_map_lookup (gd g rc fc : json)
  (required flexible : list json) (gm : pydict json) (c : string) :
  build_gened_fulfillment_map gd = Ok gm ->
  getitem gd "gened" = Ok g ->
  getitem g "Required Core" = Ok rc -> iter rc = Ok required ->
  getitem g "Flexible Core" = Ok fc -> iter fc = Ok flexible ->
  pd_lookup (JStr c) gm = merged_areas c (required ++ flexible).
Proof.
  unfold build_gened_fulfillment_map. simpl. intros H Hg Hrc Hr Hfc Hf.
  rewrite Hg in H. simpl in H. rewrite Hrc, Hfc in H. simpl in H.
  rewrite Hr in H. simpl in H.
  inv_bind H. rewrite Hf in H. simpl in H. inv_bind H. inv_Ok H.
  rewrite merged_areas_app.
  rewrite (gened_entries_lookup _ _ _ c E0).
  rewrite (gened_entries_lookup _ _ _ c E). simpl.
  destruct (merged_areas c flexible); [reflexivity|].
  destruct (merged_areas c required); reflexivity.
Qed.

Lemma merged_areas_listed (c : string) (entries : list json) :
  merged_areas c entries <> None ->
  exists e, In e entries /\ getitem e "Course" = Ok (JStr c).
Proof.
  induction entries as [|e r IH]; simpl; intros H; [congruence|].
  destruct (merged_areas c r) eqn:Hm.
  - destruct IH as (e' & Hin & Hc); [congruence|]. exists e'; auto.
  - destruct (getitem e "Course") as [[]|] eqn:Hg; try congruence.
    destruct (String.eqb_spec s c); [|congruence]. subst.
    exists e; auto.
Qed.

Lemma course_set_members (l : json) (s : pyset) (c : string) :
  course_set l = Ok s -> (member (JStr c) s = true <-> listed c l).
Proof.
  unfold course_set, member, listed. intros H.
  inv_bind H. inv_bind H. unfold set_of_list in H.
  destruct (forallb hashable x0); [|discriminate]. inv_Ok H.
  apply mapM_Ok in E0. rewrite existsb_py_eq_str. split.
  - intros Hin. destruct (Forall2_In_r _ _ _ _ E0 Hin) as (e & He & Hc).
    exists x, e. auto.
  - intros (entries & e & Hi & He & Hc). rewrite E in Hi. inv_Ok Hi.
    destruct (Forall2_In_l _ _ _ _ E0 He) as (v & Hv & Hc').
    rewrite Hc in Hc'. inv_Ok Hc'. assumption.
Qed.

(** What [build_lookups] computes from the catalogs. *)
Lemma build_lookups_inv (major : string) (b : data_bundle) (lk : lookups) :
  build_lookups major b = Ok lk ->
  build_gened_fulfillment_map (gened_data b) = Ok (gened_fulfillment_map lk)
  /\ (exists m core electives,
        getitem (major_data b) major = Ok m /\
        getitem m "Core" = Ok core /\ course_set core = Ok (major_core lk) /\
        getitem m "Electives" = Ok electives /\
        course_set electives = Ok (major_elective lk))
  /\ (exists adv lib,
        getitem (lib_data b) "Adv Lib Art" = Ok adv /\
        course_set adv = Ok (adv_lib lk) /\
        getitem (lib_data b) "Lib Art" = Ok lib /\
        course_set lib = Ok (lib_art lk)).
Proof.
  unfold build_lookups. intros H.
  inv_bind H. inv_bind H. inv_bind H. inv_bind H. inv_bind H. inv_bind H.
  inv_bind H. inv_bind H. inv_bind H. inv_bind H. inv_bind H. inv_Ok H.
  simpl. rewrite E0 in E3. injection E3 as <-.
  split; [assumption|]. split.
  - exists x0, x1, x4. auto.
  - exists x6, x8. auto.
Qed.

(** The resolved areas of a course whose identifier is a string. *)
Lemma resolve_course_str (lk : lookups) (ID : json) (c : string) (f : fulfillment) :
  resolve_course lk ID (JStr c) = Ok f ->
  exists is_id,
    is_interdisciplinary ID (JStr c) = Ok is_id /\
    f = {| f_course := JStr c;
           f_areas := (gened_seed lk (JStr c) ++ derived_tags lk (JStr c) is_id)%list |}.
Proof.
  unfold resolve_course, pd_get, set_mem. simpl. intros H.
  inv_bind H. inv_Ok H. exists x. split; [assumption|]. reflexivity.
Qed.

Lemma resolve_course_course (lk : lookups) (ID course : json) (f : fulfillment) :
  resolve_course lk ID course = Ok f -> f_course f = course.
Proof.
  unfold resolve_course. intros H.
  inv_bind H. inv_bind H. inv_bind H. inv_bind H. inv_bind H. inv_bind H.
  inv_Ok H. reflexivity.
Qed.

Lemma is_interdisciplinary_dict (kvs : list (string * json)) (c : string) :
  is_interdisciplinary (JDict kvs) (JStr c)
  = Ok (has_key c kvs || re_search_digits_ID c).
Proof.
  unfold is_interdisciplinary. simpl.
  destruct (has_key c kvs); reflexivity.
Qed.

(** The list the resolver returns has one entry per course, in order. *)
Lemma map_gened_requirements_inv (courses : list json) (major : string)
  (b : data_bundle) (fl : list fulfillment) :
  map_gened_requirements courses major b = Ok fl ->
  exists lk,
    build_lookups major b = Ok lk /\
    Forall2 (fun course f => resolve_course lk (ID_data b) course = Ok f) courses fl.
Proof.
  unfold map_gened_requirements. intros H. inv_bind H.
  exists x. split; [assumption|]. apply mapM_Ok. assumption.
Qed.

Lemma map_gened_requirements_courses (courses : list json) (major : string)
  (b : data_bundle) (fl : list fulfillment) :
  map_gened_requirements courses major b = Ok fl -> map f_course fl = courses.
Proof.
  intros H. destruct (map_gened_requirements_inv _ _ _ _ H) as (lk & _ & HF).
  clear H. induction HF as [|course f l l' Hr HF IH]; simpl; [reflexivity|].
  rewrite (resolve_course_course _ _ _ _ Hr), IH. reflexivity.
Qed.

Lemma has_key_In (k : string) (kvs : list (string * json)) :
  has_key k kvs = true <-> In k (map fst kvs).
Proof.
  unfold has_key. induction kvs as [|[k' v] r IH]; simpl.
  - split; [discriminate | contradiction].
  - destruct (String.eqb_spec k k').
    + subst. split; auto.
    + rewrite IH. split; [auto | intros [H|H]; [congruence | assumption]].
Qed.

Lemma build_gened_fulfillment_map_inv (gd : json) (gm : pydict json) :
  build_gened_fulfillment_map gd = Ok gm ->
  exists g rc fc required flexible,
    getitem gd "gened" = Ok g /\
    getitem g "Required Core" = Ok rc /\ iter rc = Ok required /\
    getitem g "Flexible Core" = Ok fc /\ iter fc = Ok flexible.
Proof.
  unfold build_gened_fulfillment_map. simpl. intros H.
  inv_bind H. inv_bind E. inv_bind E. inv_bind E.
  inv_bind H. inv_bind E3. inv_bind E3. inv_bind E3.
  rewrite E0 in E4. injection E4 as <-.
  exists x0, x1, x5, x2, x6. auto.
Qed.

(** The entry of a string course in the resolver's result. *)
Lemma resolved_entry (courses : list json) (major : string) (b : data_bundle)
  (fl : list fulfillment) (c : string) (f : fulfillment) :
  map_gened_requirements courses major b = Ok fl ->
  In f fl -> f_course f = JStr c ->
  exists lk is_id,
    build_lookups major b = Ok lk /\
    is_interdisciplinary (ID_data b) (JStr c) = Ok is_id /\
    f_areas f = (gened_seed lk (JStr c) ++ derived_tags lk (JStr c) is_id)%list.
Proof.
  intros H Hin Hc.
  destruct (map_gened_requirements_inv _ _ _ _ H) as (lk & Hlk & HF).
  destruct (Forall2_In_r _ _ _ _ HF Hin) as (course & _ & Hr).
  pose proof (resolve_course_course _ _ _ _ Hr) as Hc'.
  rewrite Hc in Hc'. subst course.
  destruct (resolve_course_str _ _ _ _ Hr) as (is_id & Hid & ->).
  exists lk, is_id. auto.
Qed.

Lemma tag_if_In (b : bool) (tags : list string) (t : string) :
  In (JStr t) (tag_if b tags) <-> b = true /\ In t tags.
Proof.
  destruct b; simpl.
  - rewrite in_map_iff. split.
    + intros (x & Hx & Hin). injection Hx as ->. auto.
    + intros [_ Hin]. exists t; auto.
  - split; [contradiction | intros [H _]; discriminate].
Qed.

Lemma derived_tags_derived (lk : lookups) (course : json) (is_id : bool) :
  Forall derived_tag (derived_tags lk course is_id).
Proof.
  unfold derived_tags, derived_tag, tag_if.
  repeat (apply Forall_app; split);
    match goal with |- Forall _ (if ?b then _ else _) => destruct b end;
    repeat (apply Forall_cons || apply Forall_nil); simpl; auto 10.
Qed.

Lemma derived_tags_ID (lk : lookups) (course : json) (is_id : bool) :
  In (JStr "ID") (derived_tags lk course is_id) <-> is_id = true.
Proof.
  unfold derived_tags, tag_if.
  destruct (member course (major_core lk)), (member course (major_elective lk)),
    (member course (lib_art lk)), (member course (adv_lib lk)), is_id;
    simpl; split; intros H; try reflexivity; try discriminate H; auto 10;
    repeat (destruct H as [H|H]; try discriminate H); contradiction.
Qed.

(** ** C5: advanced liberal arts *)

(** C5: a course that is listed in the "Adv Lib Art" list of the
    liberal-arts catalog has both "Lib Art" and "Adv Lib Art" among its
    resolved areas, whether or not it is also in the "Lib Art" list. *)
Theorem adv_lib_art_gets_both_tags (courses : list json) (major : string)
  (b : data_bundle) (fl : list fulfillment) (c : string) (f : fulfillment) :
  map_gened_requirements courses major b = Ok fl ->
  in_lib c "Adv Lib Art" b ->
  In f fl -> f_course f = JStr c ->
  In (JStr "Lib Art") (f_areas f) /\ In (JStr "Adv Lib Art") (f_areas f).
Proof.
  intros H (l & Hl & Hlisted) Hin Hc.
  destruct (resolved_entry _ _ _ _ _ _ H Hin Hc) as (lk & is_id & Hlk & _ & ->).
  destruct (build_lookups_inv _ _ _ Hlk) as (_ & _ & adv & lib & Hadv & Hset & _).
  rewrite Hl in Hadv. injection Hadv as <-.
  apply (course_set_members _ _ c Hset) in Hlisted.
  unfold derived_tags. rewrite Hlisted.
  split; rewrite !in_app_iff; right; right; right; right; left; simpl; auto.
Qed.

Lemma adv_lib_art_gets_both_tags_witness :
  In (JStr "Lib Art") [JStr "Major_Core"; JStr "Lib Art"; JStr "Adv Lib Art"]
  /\ In (JStr "Adv Lib Art") [JStr "Major_Core"; JStr "Lib Art"; JStr "Adv Lib Art"].
Proof.
  apply (adv_lib_art_gets_both_tags [JStr "X1"] "MAJ"
           (bundle_of minor_M gened_empty major_of_records lib_adv_X1 (JDict []))
           [{| f_course := JStr "X1";
               f_areas := [JStr "Major_Core"; JStr "Lib Art"; JStr "Adv Lib Art"] |}]
           "X1"
           {| f_course := JStr "X1";
              f_areas := [JStr "Major_Core"; JStr "Lib Art"; JStr "Adv Lib Art"] |}).
  - reflexivity.
  - exists (JList [JDict [("Course", JStr "X1")]]). split; [reflexivity|].
    exists [JDict [("Course", JStr "X1")]], (JDict [("Course", JStr "X1")]).
    simpl. auto.
  - simpl. auto.
  - reflexivity.
Defined.

(** ** C4: the interdisciplinary tag *)

Lemma not_ends_in_digits_ID_newline : ~ ends_in_digits_ID id_then_newline.
Proof.
  intros (p & d & _ & H). unfold id_then_newline in H. simpl in H.
  do 6 (destruct p as [|? p]; simpl in H; try discriminate H).
Qed.

(** C4, as stated: the identifier "12ID" followed by a newline is no key of
    the (empty) interdisciplinary catalog and does not end in digits followed
    by "ID", yet the resolver tags it "ID": the [$] of the pattern also
    matches before a final newline. *)
Lemma newline_after_ID_is_tagged :
  map_gened_requirements [JStr id_then_newline] "MAJ"
    (bundle_of minor_M gened_empty major_of_records lib_empty (JDict []))
  = Ok [{| f_course := JStr id_then_newline; f_areas := [JStr "ID"] |}]
  /\ ~ In id_then_newline (map fst (@nil (string * json)))
  /\ ~ ends_in_digits_ID id_then_newline.
Proof.
  split; [reflexivity|]. split.
  - simpl. tauto.
  - exact not_ends_in_digits_ID_newline.
Qed.

(** C4, amended: for a course identifier of ASCII characters and an
    interdisciplinary catalog that is a JSON object, the resolved areas of
    the course are the gen-ed seed followed by the derived tags, and "ID" is
    among the derived tags if and only if the identifier is a key of the
    interdisciplinary catalog, or ends in one or more digits 0-9 followed by
    "ID", or ends in one or more digits 0-9 followed by "ID" and one final
    newline.  (On an identifier with other characters the digit class of
    Python is wider than that of the model, and nothing is stated.) *)
Theorem interdisciplinary_tag (courses : list json) (major : string)
  (b : data_bundle) (idkvs : list (string * json)) (fl : list fulfillment)
  (c : string) (f : fulfillment) :
  map_gened_requirements courses major b = Ok fl ->
  ID_data b = JDict idkvs ->
  ascii_only c = true ->
  In f fl -> f_course f = JStr c ->
  exists lk tags,
    build_lookups major b = Ok lk /\
    f_areas f = (gened_seed lk (JStr c) ++ tags)%list /\
    Forall derived_tag tags /\
    (In (JStr "ID") tags <->
       In c (map fst idkvs) \/ ends_in_digits_ID c \/
       ends_in_digits_ID_newline c).
Proof.
  intros H HID _ Hin Hc.
  destruct (resolved_entry _ _ _ _ _ _ H Hin Hc) as (lk & is_id & Hlk & Hid & Hf).
  exists lk, (derived_tags lk (JStr c) is_id).
  split; [assumption|]. split; [assumption|].
  split; [apply derived_tags_derived|].
  rewrite derived_tags_ID.
  rewrite HID, is_interdisciplinary_dict in Hid. injection Hid as <-.
  rewrite orb_true_iff, has_key_In, re_search_digits_ID_spec.
  unfold ends_in_digits_ID_newline. tauto.
Qed.

Lemma interdisciplinary_tag_witness :
  exists lk tags,
    build_lookups "MAJ"
      (bundle_of minor_M gened_empty major_of_records lib_empty (JDict []))
    = Ok lk /\
    [JStr "ID"] = (gened_seed lk (JStr "12ID") ++ tags)%list /\
    Forall derived_tag tags /\
    (In (JStr "ID") tags <->
       In "12ID" (map fst (@nil (string * json))) \/ ends_in_digits_ID "12ID" \/
       ends_in_digits_ID_newline "12ID").
Proof.
  apply (interdisciplinary_tag [JStr "12ID"] "MAJ"
           (bundle_of minor_M gened_empty major_of_records lib_empty (JDict []))
           [] [{| f_course := JStr "12ID"; f_areas := [JStr "ID"] |}]
           "12ID" {| f_course := JStr "12ID"; f_areas := [JStr "ID"] |}).
  - reflexivity.
  - reflexivity.
  - reflexivity.
  - simpl. auto.
  - reflexivity.
Defined.

(** ** C7: the merged gen-ed lookup and its seed *)

(** C7, as stated: a course whose stored area value is the empty string (a
    single value that is no list) is in the merged lookup, yet its result is
    seeded with nothing, not with the one-element sequence of that value;
    the same holds for the value null. *)
Lemma falsy_area_value_seeds_nothing :
  build_gened_fulfillment_map (gened_with_areas (JStr EmptyString))
  = Ok [(JStr "X1", JStr EmptyString)]
  /\
  map_gened_requirements [JStr "X1"] "MAJ"
    (bundle_of minor_M (gened_with_areas (JStr EmptyString))
       major_of_records lib_empty (JDict []))
  = Ok [{| f_course := JStr "X1"; f_areas := [JStr "Major_Core"] |}]
  /\
  map_gened_requirements [JStr "X1"] "MAJ"
    (bundle_of minor_M (gened_with_areas JNull)
       major_of_records lib_empty (JDict []))
  = Ok [{| f_course := JStr "X1"; f_areas := [JStr "Major_Core"] |}].
Proof. repeat split. Qed.

(** C7, amended: the merged lookup holds for a course the areas of its last
    entry in the "Required Core" list followed by the "Flexible Core" list;
    when that stored value [v] is not a list, the resolved areas of the
    course are the one-element sequence [v] followed by derived tags if [v]
    is truthy, and derived tags only if [v] is falsy (null, false, 0, the
    empty string, the empty object). *)
Theorem single_area_value_seed (courses : list json) (major : string)
  (b : data_bundle) (fl : list fulfillment) (g rc fc : json)
  (required flexible : list json) (c : string) (v : json) (f : fulfillment) :
  map_gened_requirements courses major b = Ok fl ->
  getitem (gened_data b) "gened" = Ok g ->
  getitem g "Required Core" = Ok rc -> iter rc = Ok required ->
  getitem g "Flexible Core" = Ok fc -> iter fc = Ok flexible ->
  merged_areas c (required ++ flexible) = Some v ->
  is_list v = false ->
  In f fl -> f_course f = JStr c ->
  exists lk tags,
    build_lookups major b = Ok lk /\
    pd_lookup (JStr c) (gened_fulfillment_map lk) = Some v /\
    Forall derived_tag tags /\
    f_areas f = ((if truthy v then [v] else []) ++ tags)%list.
Proof.
  intros H Hg Hrc Hr Hfc Hf Hm Hl Hin Hc.
  destruct (resolved_entry _ _ _ _ _ _ H Hin Hc) as (lk & is_id & Hlk & _ & Hfa).
  destruct (build_lookups_inv _ _ _ Hlk) as (Hgm & _).
  pose proof (build_gened_fulfillment_map_lookup _ _ _ _ _ _ _ c Hgm Hg Hrc Hr Hfc Hf)
    as Hlook.
  rewrite Hm in Hlook.
  exists lk, (derived_tags lk (JStr c) is_id).
  split; [assumption|]. split; [assumption|].
  split; [apply derived_tags_derived|].
  rewrite Hfa. unfold gened_seed. rewrite Hlook.
  destruct v; simpl in *; try reflexivity; discriminate.
Qed.

Lemma single_area_value_seed_witness :
  exists lk tags,
    build_lookups "MAJ"
      (bundle_of minor_M (gened_with_areas (JStr "EC"))
         major_of_records lib_empty (JDict []))
    = Ok lk /\
    pd_lookup (JStr "X1") (gened_fulfillment_map lk) = Some (JStr "EC") /\
    Forall derived_tag tags /\
    [JStr "EC"; JStr "Major_Core"]
    = ((if truthy (JStr "EC") then [JStr "EC"] else []) ++ tags)%list.
Proof.
  apply (single_area_value_seed [JStr "X1"] "MAJ"
           (bundle_of minor_M (gened_with_areas (JStr "EC"))
              major_of_records lib_empty (JDict []))
           [{| f_course := JStr "X1";
               f_areas := [JStr "EC"; JStr "Major_Core"] |}]
           (JDict [("Required Core",
                     JList [JDict [("Course", JStr "X1"); ("Area(s)", JStr "EC")]]);
                   ("Flexible Core", JList [])])
           (JList [JDict [("Course", JStr "X1"); ("Area(s)", JStr "EC")]])
           (JList [])
           [JDict [("Course", JStr "X1"); ("Area(s)", JStr "EC")]] []
           "X1" (JStr "EC")
           {| f_course := JStr "X1";
              f_areas := [JStr "EC"; JStr "Major_Core"] |});
    try reflexivity.
  simpl. auto.
Defined.

(** ** C6: a course in no catalog (the resolver) *)

Lemma unlisted_course_lookups (major : string) (b : data_bundle) (lk : lookups)
  (c : string) :
  build_lookups major b = Ok lk ->
  ~ in_gened c b ->
  ~ in_major c major "Core" b -> ~ in_major c major "Electives" b ->
  ~ in_lib c "Lib Art" b -> ~ in_lib c "Adv Lib Art" b ->
  gened_seed lk (JStr c) = [] /\
  derived_tags lk (JStr c) false = [].
Proof.
  intros Hlk Hg Hmc Hme Hla Hal.
  destruct (build_lookups_inv _ _ _ Hlk)
    as (Hgm & (m & core & el & Hm & Hcore & Hcs & Hel & Hes)
        & adv & lib & Hadv & Has & Hlib & Hls).
  split.
  - unfold gened_seed.
    destruct (build_gened_fulfillment_map_inv _ _ Hgm)
      as (g & rc & fc & required & flexible & Hgg & Hrc & Hr & Hfc & Hf).
    rewrite (build_gened_fulfillment_map_lookup _ _ _ _ _ _ _ c Hgm Hgg Hrc Hr Hfc Hf).
    destruct (merged_areas c (required ++ flexible)) eqn:Hma; [|reflexivity].
    exfalso. apply Hg.
    destruct (merged_areas_listed c (required ++ flexible)) as (e & Hin & He);
      [congruence|].
    apply in_app_iff in Hin as [Hin|Hin].
    + exists g, "Required Core", rc. repeat split; simpl; auto.
      exists required, e. auto.
    + exists g, "Flexible Core", fc. repeat split; simpl; auto.
      exists flexible, e. auto.
  - unfold derived_tags.
    assert (H1 : member (JStr c) (major_core lk) = false).
    { destruct (member (JStr c) (major_core lk)) eqn:E; [|reflexivity].
      exfalso. apply Hmc. exists m, core. repeat split; auto.
      apply (course_set_members _ _ c Hcs). assumption. }
    assert (H2 : member (JStr c) (major_elective lk) = false).
    { destruct (member (JStr c) (major_elective lk)) eqn:E; [|reflexivity].
      exfalso. apply Hme. exists m, el. repeat split; auto.
      apply (course_set_members _ _ c Hes). assumption. }
    assert (H3 : member (JStr c) (lib_art lk) = false).
    { destruct (member (JStr c) (lib_art lk)) eqn:E; [|reflexivity].
      exfalso. apply Hla. exists lib. split; auto.
      apply (course_set_members _ _ c Hls). assumption. }
    assert (H4 : member (JStr c) (adv_lib lk) = false).
    { destruct (member (JStr c) (adv_lib lk)) eqn:E; [|reflexivity].
      exfalso. apply Hal. exists adv. split; auto.
      apply (course_set_members _ _ c Has). assumption. }
    rewrite H1, H2, H3, H4. reflexivity.
Qed.

(** A course that is in no catalog and does not match the pattern resolves
    to no area. *)
Lemma unlisted_course_resolves_empty (courses : list json) (major : string)
  (b : data_bundle) (idkvs : list (string * json)) (fl : list fulfillment)
  (c : string) (f : fulfillment) :
  map_gened_requirements courses major b = Ok fl ->
  ID_data b = JDict idkvs ->
  ~ in_gened c b ->
  ~ in_major c major "Core" b -> ~ in_major c major "Electives" b ->
  ~ in_lib c "Lib Art" b -> ~ in_lib c "Adv Lib Art" b ->
  ~ In c (map fst idkvs) -> re_search_digits_ID c = false ->
  In f fl -> f_course f = JStr c ->
  f_areas f = [].
Proof.
  intros H HID Hg Hmc Hme Hla Hal Hk Hre Hin Hc.
  destruct (resolved_entry _ _ _ _ _ _ H Hin Hc) as (lk & is_id & Hlk & Hid & ->).
  rewrite HID, is_interdisciplinary_dict in Hid. injection Hid as <-.
  destruct (has_key c idkvs) eqn:Hhk.
  { exfalso. apply Hk. apply has_key_In. assumption. }
  rewrite Hre. simpl.
  destruct (unlisted_course_lookups _ _ _ c Hlk Hg Hmc Hme Hla Hal) as [-> ->].
  reflexivity.
Qed.

(** ** The materializer *)

Lemma lookup_In (k : string) (kvs : list (string * json)) (v : json) :
  lookup k kvs = Some v -> In v (map snd kvs).
Proof.
  induction kvs as [|[k' v'] r IH]; simpl; [discriminate|].
  destruct (String.eqb k k'); intros H.
  - injection H as ->. auto.
  - auto.
Qed.

Lemma getitem_dict (x : json) (k : string) (v : json) :
  getitem x k = Ok v -> exists kvs, x = JDict kvs /\ lookup k kvs = Some v.
Proof.
  destruct x; simpl; try discriminate.
  destruct (lookup k kvs) eqn:E; [|discriminate].
  intros H. inv_Ok H. exists kvs; auto.
Qed.

(** The row of a course entry: its course is the entry's "Course" and its
    areas are those the fulfillment map holds for the course. *)
Lemma course_row_inv (sub : string) (dt : json) (fm : pydict (list json))
  (item : json) (p : processed) :
  course_row sub dt fm item = Ok p ->
  p_sub_section p = sub /\
  pd_get (p_course p) [] fm = Ok (p_areas p) /\
  exists kvs, item = JDict kvs /\ lookup "Course" kvs = Some (p_course p).
Proof.
  unfold course_row. intros H.
  inv_bind H. inv_bind H. inv_bind H. inv_bind H. inv_bind H. inv_bind H.
  inv_Ok H. simpl. repeat split; try assumption.
  apply getitem_dict. assumption.
Qed.

Lemma course_of_In (item : json) (kvs : list (string * json)) (c : json) :
  item = JDict kvs -> lookup "Course" kvs = Some c -> In c (course_of item).
Proof. intros -> H. simpl. rewrite H. simpl; auto. Qed.

Lemma iter_dict_entry (x : json) (l : list json) (kvs : list (string * json)) :
  iter x = Ok l -> In (JDict kvs) l -> x = JList l.
Proof.
  destruct x; simpl; try discriminate; intros H Hin; inv_Ok H.
  - exfalso. induction s as [|a s IH]; simpl in Hin; [contradiction|].
    destruct Hin as [Hin|Hin]; [discriminate | auto].
  - reflexivity.
  - exfalso. apply in_map_iff in Hin as (kv & Hkv & _). discriminate.
Qed.

(** Every row of an item carries a course the extractor emits for it. *)
Lemma item_rows_inv (dl gp : string) (dt : json) (fm : pydict (list json))
  (item : json) (ps : list processed) (p : processed) :
  item_rows dl gp dt fm item = Ok ps -> In p ps ->
  In (p_course p) (extract_entry item) /\
  pd_get (p_course p) [] fm = Ok (p_areas p).
Proof.
  unfold item_rows. intros H Hin.
  bind_inv H as has_course Hhc. destruct has_course.
  - bind_inv H as r Hr. inv_Ok H. destruct Hin as [<-|[]].
    destruct (course_row_inv _ _ _ _ _ Hr) as (_ & Ha & kvs & -> & Hc).
    split; [|assumption]. simpl. rewrite Hc. simpl; auto.
  - bind_inv H as has_group Hhg. destruct has_group; [|inv_Ok H; contradiction].
    bind_inv H as group Hg. bind_inv H as courses Hcs. bind_inv H as infos Hi.
    apply mapM_Ok in H.
    destruct (Forall2_In_r _ _ _ _ H Hin) as (info & Hinfo & Hrow).
    destruct (course_row_inv _ _ _ _ _ Hrow) as (_ & Ha & ikvs & -> & Hc).
    split; [|assumption].
    destruct (getitem_dict _ _ _ Hcs) as (kvs & -> & Hcs').
    pose proof (iter_dict_entry _ _ _ Hi Hinfo) as ->.
    simpl in Hhc. unfold has_key in Hhc.
    simpl. destruct (lookup "Course" kvs); [discriminate|].
    apply in_flat_map. exists (JList infos). split.
    + apply (lookup_In _ _ _ Hcs').
    + simpl. apply in_flat_map. exists (JDict ikvs). split; [assumption|].
      simpl. rewrite Hc. simpl; auto.
Qed.

Lemma in_concat_Forall2 {A B : Type} (R : A -> list B -> Prop)
  (l : list A) (ls : list (list B)) (b : B) :
  Forall2 R l ls -> In b (List.concat ls) ->
  exists a bs, In a l /\ R a bs /\ In b bs.
Proof.
  induction 1 as [|a bs l ls HR HF IH]; simpl; intros Hin; [contradiction|].
  apply in_app_iff in Hin as [Hin|Hin].
  - exists a, bs; auto.
  - destruct (IH Hin) as (a' & bs' & Ha & HR' & Hb). exists a', bs'; auto.
Qed.

Lemma section_rows_inv (dl gp : string) (dt : json) (fm : pydict (list json))
  (section : json) (ps : list processed) (p : processed) :
  section_rows dl gp dt fm section = Ok ps -> In p ps ->
  pd_get (p_course p) [] fm = Ok (p_areas p) /\
  exists l, extract_section section = Ok l /\ In (p_course p) l.
Proof.
  unfold section_rows, extract_section. intros H Hin.
  inv_bind H. inv_bind H. inv_Ok H. apply mapM_Ok in E0.
  destruct (in_concat_Forall2 _ _ _ _ E0 Hin) as (item & rows & Hitem & Hrows & Hp).
  destruct (item_rows_inv _ _ _ _ _ _ _ Hrows Hp) as (Hc & Ha).
  split; [assumption|].
  rewrite E. simpl. eexists; split; [reflexivity|].
  apply in_flat_map. exists item; auto.
Qed.

(** The rows of the materializer before the frame is built: the areas of a
    row are those of the fulfillment map for its course, and the course is
    one the extractor emits for the "Core" or the "Electives" section. *)
Lemma processed_list_inv (data : json) (fl : list fulfillment)
  (ps : list processed) :
  processed_list data fl = Ok ps ->
  exists fm kvs,
    build_fulfillment_map fl = Ok fm /\ data = JDict kvs /\
    forall p, In p ps ->
      pd_get (p_course p) [] fm = Ok (p_areas p) /\
      exists section l,
        In section (map snd kvs) /\ extract_section section = Ok l /\
        In (p_course p) l.
Proof.
  unfold processed_list. intros H.
  bind_inv H as fm Hfm. bind_inv H as core Hcore. bind_inv H as core_rows Hcr.
  bind_inv H as electives Hel. bind_inv H as elective_rows Her. inv_Ok H.
  destruct data; simpl in Hcore, Hel; try discriminate.
  exists fm, kvs. split; [assumption|]. split; [reflexivity|].
  intros p Hin. apply in_app_iff in Hin as [Hin|Hin].
  - destruct (section_rows_inv _ _ _ _ _ _ _ Hcr Hin) as (Ha & l & Hl & Hc).
    split; [assumption|].
    destruct (lookup "Core" kvs) as [sec|] eqn:Hk; injection Hcore as <-.
    + exists sec, l. split; [apply (lookup_In _ _ _ Hk) | auto].
    + simpl in Hl. inv_Ok Hl. contradiction.
  - destruct (section_rows_inv _ _ _ _ _ _ _ Her Hin) as (Ha & l & Hl & Hc).
    split; [assumption|].
    destruct (lookup "Electives" kvs) as [sec|] eqn:Hk; injection Hel as <-.
    + exists sec, l. split; [apply (lookup_In _ _ _ Hk) | auto].
    + simpl in Hl. inv_Ok Hl. contradiction.
Qed.

(** The frame row of a processed entry, for the area columns of [main]. *)
Lemma frame_row_gened_areas (p : processed) :
  frame_row gened_areas (course_dict gened_areas p)
  = {| row_sub_section := JStr (p_sub_section p);
       row_course := fillna (p_course p);
       row_name := fillna (p_name p);
       row_cells := ("Credit", JStr (p_credit p))
                    :: map (fun a => (a, flag (p_areas p) a)) gened_areas |}.
Proof. reflexivity. Qed.

Lemma flag_no_area (a : string) : flag [] a = JStr EmptyString.
Proof. reflexivity. Qed.

(** The fulfillment map holds, for a string course, the areas of one of the
    entries of that course. *)
Lemma build_fulfillment_map_lookup (fl : list fulfillment)
  (m fm : pydict (list json)) (c : string) (a : list json) :
  foldM (fun m item => pd_setitem (f_course item) (f_areas item) m) fl m = Ok fm ->
  pd_lookup (JStr c) fm = Some a ->
  (exists f, In f fl /\ f_course f = JStr c /\ f_areas f = a)
  \/ pd_lookup (JStr c) m = Some a.
Proof.
  revert m; induction fl as [|f fl IH]; simpl; intros m H Hl.
  - inv_Ok H. auto.
  - inv_bind H. unfold pd_setitem in E.
    destruct (hashable (f_course f)); [|discriminate]. inv_Ok E.
    destruct (IH _ H Hl) as [(f' & Hin & Hc & Ha) | Hm].
    + left. exists f'; auto.
    + rewrite pd_lookup_set_str in Hm.
      destruct (py_eq (f_course f) (JStr c)) eqn:Heq; [|auto].
      apply py_eq_str_r in Heq. injection Hm as <-.
      left. exists f; auto.
Qed.

Lemma build_fulfillment_map_total (fl : list fulfillment) (m : pydict (list json)) :
  Forall (fun f => hashable (f_course f) = true) fl ->
  exists fm,
    foldM (fun m item => pd_setitem (f_course item) (f_areas item) m) fl m = Ok fm.
Proof.
  intros H; revert m; induction H as [|f fl Hf HF IH]; simpl; intros m.
  - eexists; reflexivity.
  - unfold pd_setitem at 1. rewrite Hf. simpl. apply IH.
Qed.

(** ** The analysis *)

Lemma analyze_inv (major minor : string) (b : data_bundle) (rows : list row) :
  analyze major minor b = Ok (Rendered rows) ->
  exists courses fl data ps,
    get_minor_courses minor (minor_data b) = Ok courses /\
    map_gened_requirements courses major b = Ok fl /\
    getitem (minor_data b) minor = Ok data /\
    processed_list data fl = Ok ps /\
    rows = map (fun p => frame_row gened_areas (course_dict gened_areas p)) ps.
Proof.
  unfold analyze. intros H.
  bind_inv H as courses Hc. destruct courses as [|c0 courses]; [discriminate|].
  bind_inv H as fl Hfl. bind_inv H as data Hd. bind_inv H as df Hdf.
  unfold process_curriculum_json in Hdf. bind_inv Hdf as ps Hps. inv_Ok Hdf.
  exists (c0 :: courses), fl, data, ps.
  repeat split; try assumption.
  destruct (map _ ps); [discriminate|]. inv_Ok H. reflexivity.
Qed.

(** The extractor emits the courses of every section of the minor. *)
Lemma get_minor_courses_covers (minor : string) (md : json) (courses : list json)
  (kvs : list (string * json)) (section : json) (l : list json) :
  get_minor_courses minor md = Ok courses ->
  getitem md minor = Ok (JDict kvs) ->
  In section (map snd kvs) -> extract_section section = Ok l ->
  incl l courses.
Proof.
  unfold get_minor_courses. intros H Hd Hs Hl.
  destruct (getitem_dict _ _ _ Hd) as (mkvs & -> & Hk).
  simpl in H. unfold has_key in H. rewrite Hk in H. simpl in H.
  bind_inv H as per Hper. inv_Ok H. apply mapM_Ok in Hper.
  destruct (Forall2_In_l _ _ _ _ Hper Hs) as (l' & Hl' & He).
  rewrite Hl in He. injection He as <-.
  intros x Hx. apply in_concat. exists l; auto.
Qed.

(** With the interdisciplinary catalog a JSON object, the resolver accepts
    only courses whose identifier is a string: on any other value the
    pattern search raises a TypeError. *)
Lemma resolved_courses_are_strings (courses : list json) (major : string)
  (b : data_bundle) (idkvs : list (string * json)) (fl : list fulfillment)
  (course : json) :
  map_gened_requirements courses major b = Ok fl ->
  ID_data b = JDict idkvs ->
  In course courses -> exists s, course = JStr s.
Proof.
  intros H HID Hin.
  destruct (map_gened_requirements_inv _ _ _ _ H) as (lk & _ & HF).
  destruct (Forall2_In_l _ _ _ _ HF Hin) as (f & _ & Hr).
  rewrite HID in Hr. unfold resolve_course in Hr.
  bind_inv Hr as fg Hfg. bind_inv Hr as c1 H1. bind_inv Hr as c2 H2.
  bind_inv Hr as c3 H3. bind_inv Hr as c4 H4. bind_inv Hr as is_id Hid.
  unfold is_interdisciplinary, contains in Hid.
  destruct course; simpl in Hid; try discriminate. eexists; reflexivity.
Qed.

(** The rows of the table: every row comes from a processed entry whose
    course is a string and whose areas are those of the fulfillment map. *)
Lemma analyze_rows (major minor : string) (b : data_bundle)
  (idkvs : list (string * json)) (rows : list row) :
  analyze major minor b = Ok (Rendered rows) ->
  ID_data b = JDict idkvs ->
  exists courses fl fm,
    map_gened_requirements courses major b = Ok fl /\
    build_fulfillment_map fl = Ok fm /\
    forall r, In r rows ->
      exists s areas,
        row_course r = JStr s /\
        areas = match pd_lookup (JStr s) fm with Some a => a | None => [] end /\
        area_cells r = map (fun a => (a, flag areas a)) gened_areas.
Proof.
  intros H HID.
  destruct (analyze_inv _ _ _ _ H) as (courses & fl & data & ps & Hc & Hfl & Hd & Hps & ->).
  destruct (processed_list_inv _ _ _ Hps) as (fm & kvs & Hfm & -> & Hrows).
  exists courses, fl, fm. split; [assumption|]. split; [assumption|].
  intros r Hr. apply in_map_iff in Hr as (p & <- & Hp).
  destruct (Hrows p Hp) as (Ha & section & l & Hsec & Hl & Hin).
  pose proof (get_minor_courses_covers _ _ _ _ _ _ Hc Hd Hsec Hl _ Hin) as Hin'.
  destruct (resolved_courses_are_strings _ _ _ _ _ _ Hfl HID Hin') as (s & Hs).
  rewrite frame_row_gened_areas. unfold area_cells. simpl.
  rewrite Hs in *. simpl in Ha. injection Ha as Ha.
  exists s, (p_areas p). repeat split. symmetry; assumption.
Qed.

(** ** C10: rows of the same course *)

(** C10: with the interdisciplinary catalog a JSON object, two rows of the
    curriculum table that carry the same course identifier have identical
    requirement-area columns, whatever their sub-sections and titles. *)
Theorem same_course_same_flags (major minor : string) (b : data_bundle)
  (idkvs : list (string * json)) (rows : list row) (r1 r2 : row) :
  analyze major minor b = Ok (Rendered rows) ->
  ID_data b = JDict idkvs ->
  In r1 rows -> In r2 rows ->
  row_course r1 = row_course r2 ->
  area_cells r1 = area_cells r2.
Proof.
  intros H HID H1 H2 Heq.
  destruct (analyze_rows _ _ _ _ _ H HID) as (courses & fl & fm & _ & _ & Hrows).
  destruct (Hrows r1 H1) as (s1 & a1 & Hc1 & Ha1 & ->).
  destruct (Hrows r2 H2) as (s2 & a2 & Hc2 & Ha2 & ->).
  rewrite Hc1, Hc2 in Heq. injection Heq as <-. subst a1 a2. reflexivity.
Qed.

(** ** C6: a course in no catalog *)

(** A course that is in no catalog and that the search of line 107 does not
    match resolves to the empty area list, and every requirement-area column
    of its rows in the curriculum table is blank. *)
Lemma unmatched_course_is_blank (major : string) (b : data_bundle)
  (idkvs : list (string * json)) (c : string) :
  ID_data b = JDict idkvs ->
  ~ in_gened c b ->
  ~ in_major c major "Core" b -> ~ in_major c major "Electives" b ->
  ~ in_lib c "Lib Art" b -> ~ in_lib c "Adv Lib Art" b ->
  ~ In c (map fst idkvs) -> re_search_digits_ID c = false ->
  (forall courses fl f,
     map_gened_requirements courses major b = Ok fl ->
     In f fl -> f_course f = JStr c -> f_areas f = [])
  /\
  (forall minor rows r,
     analyze major minor b = Ok (Rendered rows) ->
     In r rows -> row_course r = JStr c -> Forall blank (area_cells r)).
Proof.
  intros HID Hg Hmc Hme Hla Hal Hk Hre.
  assert (Hres : forall courses fl f,
             map_gened_requirements courses major b = Ok fl ->
             In f fl -> f_course f = JStr c -> f_areas f = []).
  { intros courses fl f H Hin Hc.
    apply (unlisted_course_resolves_empty courses major b idkvs fl c f); assumption. }
  split; [exact Hres|].
  intros minor rows r H Hin Hc.
  destruct (analyze_rows _ _ _ _ _ H HID) as (courses & fl & fm & Hfl & Hfm & Hrows).
  destruct (Hrows r Hin) as (s & areas & Hs & Ha & ->).
  rewrite Hc in Hs. injection Hs as <-.
  assert (Hareas : areas = []).
  { subst areas. destruct (pd_lookup (JStr c) fm) as [a|] eqn:Hl; [|reflexivity].
    destruct (build_fulfillment_map_lookup _ _ _ _ _ Hfm Hl)
      as [(f & Hf & Hfc & <-) | Hnil]; [|discriminate].
    apply (Hres courses fl f); assumption. }
  rewrite Hareas. apply Forall_forall. intros cell Hcell.
  apply in_map_iff in Hcell as (a & <- & _). reflexivity.
Qed.

Lemma not_listed_nil (c : string) : ~ listed c (JList []).
Proof.
  intros (entries & e & Hi & He & _). simpl in Hi. injection Hi as <-.
  contradiction.
Qed.

Lemma not_listed_other (c c' : string) :
  c <> c' -> ~ listed c (JList [JDict [("Course", JStr c')]]).
Proof.
  intros Hne (entries & e & Hi & He & Hc). simpl in Hi. injection Hi as <-.
  destruct He as [<-|[]]. simpl in Hc. injection Hc as ->. congruence.
Qed.

(** A course is in no list of the gen-ed and liberal-arts catalogs without
    a course, and in no list of the major whose only course is "X1". *)
Lemma in_no_example_catalog (minor : json) (c : string) :
  c <> "X1" ->
  let b := bundle_of minor gened_empty major_of_records lib_empty (JDict []) in
  ~ in_gened c b /\
  ~ in_major c "MAJ" "Core" b /\ ~ in_major c "MAJ" "Electives" b /\
  ~ in_lib c "Lib Art" b /\ ~ in_lib c "Adv Lib Art" b.
Proof.
  intros Hne b. repeat split.
  - intros (g & ct & l & Hin & Hg & Hl & Hlisted).
    simpl in Hg. injection Hg as <-.
    destruct Hin as [<-|[<-|[]]]; simpl in Hl; injection Hl as <-;
      exact (not_listed_nil _ Hlisted).
  - intros (m & l & Hm & Hl & Hlisted).
    simpl in Hm. injection Hm as <-. simpl in Hl. injection Hl as <-.
    exact (not_listed_other _ _ Hne Hlisted).
  - intros (m & l & Hm & Hl & Hlisted).
    simpl in Hm. injection Hm as <-. simpl in Hl. injection Hl as <-.
    exact (not_listed_nil _ Hlisted).
  - intros (l & Hl & Hlisted). simpl in Hl. injection Hl as <-.
    exact (not_listed_nil _ Hlisted).
  - intros (l & Hl & Hlisted). simpl in Hl. injection Hl as <-.
    exact (not_listed_nil _ Hlisted).
Qed.

(** C6, as stated: the identifier "12ID" followed by a newline is in no
    list of the gen-ed catalog, of the selected major and of the
    liberal-arts catalog, is no key of the interdisciplinary catalog and does
    not end in digits followed by "ID"; yet the resolver returns the area
    "ID" for it, and the "ID" column of its row in the table is flagged. *)
Lemma unlisted_course_before_newline_is_flagged :
  (~ in_gened id_then_newline bundle_newline /\
   ~ in_major id_then_newline "MAJ" "Core" bundle_newline /\
   ~ in_major id_then_newline "MAJ" "Electives" bundle_newline /\
   ~ in_lib id_then_newline "Lib Art" bundle_newline /\
   ~ in_lib id_then_newline "Adv Lib Art" bundle_newline)
  /\ ~ In id_then_newline (map fst (@nil (string * json)))
  /\ ~ ends_in_digits_ID id_then_newline
  /\ map_gened_requirements [JStr id_then_newline] "MAJ" bundle_newline
     = Ok [{| f_course := JStr id_then_newline; f_areas := [JStr "ID"] |}]
  /\ analyze "MAJ" "M" bundle_newline = Ok (Rendered table_newline)
  /\ map (fun r => (row_course r, cell r "ID")) table_newline
     = [(JStr id_then_newline, JStr "X")].
Proof.
  split; [apply (in_no_example_catalog minor_newline id_then_newline); discriminate|].
  split; [simpl; tauto|].
  split; [exact not_ends_in_digits_ID_newline|].
  repeat split.
Qed.

(** C6, amended: for an interdisciplinary catalog that is a JSON object, a
    course identifier of ASCII characters that is in neither list of the
    gen-ed catalog, in neither list of the selected major, in neither list
    of the liberal-arts catalog, is no key of the interdisciplinary catalog
    and ends neither in one or more digits followed by "ID" nor in one or
    more digits followed by "ID" and one final newline resolves to the empty
    area list, and every requirement-area column of its rows in the
    curriculum table is blank. *)
Theorem unlisted_course_is_blank (major : string) (b : data_bundle)
  (idkvs : list (string * json)) (c : string) :
  ID_data b = JDict idkvs ->
  ascii_only c = true ->
  ~ in_gened c b ->
  ~ in_major c major "Core" b -> ~ in_major c major "Electives" b ->
  ~ in_lib c "Lib Art" b -> ~ in_lib c "Adv Lib Art" b ->
  ~ In c (map fst idkvs) ->
  ~ ends_in_digits_ID c -> ~ ends_in_digits_ID_newline c ->
  (forall courses fl f,
     map_gened_requirements courses major b = Ok fl ->
     In f fl -> f_course f = JStr c -> f_areas f = [])
  /\
  (forall minor rows r,
     analyze major minor b = Ok (Rendered rows) ->
     In r rows -> row_course r = JStr c -> Forall blank (area_cells r)).
Proof.
  intros HID _ Hg Hmc Hme Hla Hal Hk He Hen.
  apply (unmatched_course_is_blank major b idkvs c); try assumption.
  destruct (re_search_digits_ID c) eqn:Hre; [|reflexivity].
  exfalso. apply re_search_digits_ID_spec in Hre as [H|H]; auto.
Qed.

Lemma same_course_same_flags_witness :
  area_cells (nth 0 table_twice blank_row) = area_cells (nth 1 table_twice blank_row).
Proof.
  apply (same_course_same_flags "MAJ" "M" bundle_twice [] table_twice
           (nth 0 table_twice blank_row) (nth 1 table_twice blank_row)).
  - reflexivity.
  - reflexivity.
  - simpl. auto.
  - simpl. auto.
  - reflexivity.
Defined.

Lemma unlisted_course_is_blank_witness :
  (forall courses fl f,
     map_gened_requirements courses "MAJ" bundle_twice = Ok fl ->
     In f fl -> f_course f = JStr "Z9" -> f_areas f = [])
  /\
  (forall minor rows r,
     analyze "MAJ" minor bundle_twice = Ok (Rendered rows) ->
     In r rows -> row_course r = JStr "Z9" -> Forall blank (area_cells r)).
Proof.
  apply (unlisted_course_is_blank "MAJ" bundle_twice [] "Z9").
  - reflexivity.
  - reflexivity.
  - apply (in_no_example_catalog minor_twice "Z9"). discriminate.
  - apply (in_no_example_catalog minor_twice "Z9"). discriminate.
  - apply (in_no_example_catalog minor_twice "Z9"). discriminate.
  - apply (in_no_example_catalog minor_twice "Z9"). discriminate.
  - apply (in_no_example_catalog minor_twice "Z9"). discriminate.
  - simpl. tauto.
  - intros (p & d & _ & H).
    do 3 (destruct p as [|? p]; simpl in H; try discriminate H).
  - intros (s' & H & _).
    do 3 (destruct s' as [|? s']; simpl in H; try discriminate H).
Defined.

(** ** C3: the order of the rows *)

Lemma mapM_exists {A B : Type} (f : A -> result B) (R : A -> B -> Prop)
  (l : list A) :
  (forall a, In a l -> exists b, f a = Ok b /\ R a b) ->
  exists l', mapM f l = Ok l' /\ Forall2 R l l'.
Proof.
  induction l as [|a l IH]; simpl; intros H.
  - exists []. split; [reflexivity | constructor].
  - destruct (H a (or_introl eq_refl)) as (b & Hb & HR).
    destruct IH as (l' & Hl' & HF); [intros; apply H; right; assumption|].
    exists (b :: l'). rewrite Hb, Hl'. split; [reflexivity | constructor; assumption].
Qed.

(** The row of an entry of the tree. *)
Lemma course_row_entry (sub : string) (dt : json) (fm : pydict (list json))
  (e : course_entry) :
  exists p,
    course_row sub dt fm (json_of_entry e) = Ok p /\
    p_course p = JStr (ce_course e) /\ p_sub_section p = sub.
Proof.
  destruct e as [c [t|] [[lo hi]|]]; unfold course_row; simpl;
    eexists; split; try reflexivity; simpl; auto.
Qed.

Lemma item_rows_tree (dl gp : string) (dt : json) (fm : pydict (list json))
  (i : tree_item) :
  exists ps,
    item_rows dl gp dt fm (json_of_item i) = Ok ps /\
    map p_course ps = map JStr (item_courses i) /\
    map p_sub_section ps = item_sub_sections dl gp i.
Proof.
  destruct i as [e | name courses].
  - destruct (course_row_entry dl dt fm e) as (p & Hp & Hc & Hs).
    exists [p]. unfold item_rows. simpl json_of_item.
    assert (Hk : contains (JStr "Course") (json_of_entry e) = Ok true) by reflexivity.
    rewrite Hk. simpl. rewrite Hp. simpl. rewrite Hc, Hs. auto.
  - unfold item_rows. simpl.
    induction courses as [|e courses IH]; simpl.
    + exists []. auto.
    + destruct IH as (ps & Hps & Hc & Hs).
      destruct (course_row_entry (gp ++ name) (JStr EmptyString) fm e)
        as (p & Hp & Hpc & Hpsub).
      exists (p :: ps). rewrite Hp. simpl. rewrite Hps. simpl.
      rewrite Hpc, Hpsub, Hc, Hs. auto.
Qed.

Lemma section_rows_tree (dl gp : string) (dt : json) (fm : pydict (list json))
  (tree_items : list tree_item) :
  exists ps,
    section_rows dl gp dt fm (JList (map json_of_item tree_items)) = Ok ps /\
    map p_course ps = map JStr (flat_map item_courses tree_items) /\
    map p_sub_section ps = flat_map (item_sub_sections dl gp) tree_items.
Proof.
  unfold section_rows. simpl.
  induction tree_items as [|i r IH]; simpl.
  - exists []. auto.
  - destruct (item_rows_tree dl gp dt fm i) as (ps & Hps & Hc & Hs).
    destruct IH as (qs & Hqs & Hqc & Hqsub).
    bind_inv Hqs as rows Hrows. inv_Ok Hqs.
    exists (ps ++ List.concat rows)%list.
    rewrite Hps. simpl. rewrite Hrows. simpl.
    rewrite !map_app, Hc, Hs, Hqc, Hqsub. auto.
Qed.

(** Every course of a resolver output can be a dict key: the resolver has
    looked it up in the merged gen-ed lookup. *)
Lemma resolver_output_hashable (courses : list json) (major : string)
  (b : data_bundle) (fl : list fulfillment) :
  map_gened_requirements courses major b = Ok fl ->
  Forall (fun f => hashable (f_course f) = true) fl.
Proof.
  intros H. destruct (map_gened_requirements_inv _ _ _ _ H) as (lk & _ & HF).
  clear H. induction HF as [|course f l l' Hr HF IH]; constructor; [|assumption].
  rewrite (resolve_course_course _ _ _ _ Hr).
  unfold resolve_course, pd_get in Hr.
  destruct (hashable course); [reflexivity | discriminate].
Qed.

(** C3, as stated: in a Core section whose conditional group G = [B] comes
    before the direct entry A, the row of the group's course B comes before
    the row of the direct entry A. *)
Lemma group_row_before_direct_row :
  process_curriculum_json "M" (json_of_tree tree_group_first) gened_areas []
  = Ok table_group_first
  /\ map (fun r => (row_sub_section r, row_course r)) table_group_first
     = [(JStr "B. Conditional Core: G", JStr "B");
        (JStr "A. Mandatory Core Courses", JStr "A")].
Proof. split; reflexivity. Qed.

(** C3, amended: for every minor requirement tree and every resolver output,
    the materializer returns a table whose rows follow the traversal of the
    tree: the rows of the Core section before the rows of the Electives
    section and, in a section, the items in source order, a direct entry
    giving one row and a conditional group one row per course of the group,
    in order (a group that precedes a direct entry in the source precedes it
    in the table). *)
Theorem rows_in_traversal_order (curriculum_name : string) (t : minor_tree)
  (fulfillment_list : list fulfillment) :
  Forall (fun f => hashable (f_course f) = true) fulfillment_list ->
  exists rows,
    process_curriculum_json curriculum_name (json_of_tree t) gened_areas
      fulfillment_list = Ok rows /\
    map row_course rows = map JStr (traversal t) /\
    map row_sub_section rows = map JStr (sub_sections t).
Proof.
  intros Hh.
  destruct (build_fulfillment_map_total fulfillment_list [] Hh) as (fm & Hfm).
  destruct (section_rows_tree "A. Mandatory Core Courses" "B. Conditional Core: "
              (JStr "Mandatory") fm (tree_core t)) as (cs & Hcs & Hcc & Hcsub).
  destruct (section_rows_tree "A. General Electives List"
              "B. Conditional Elective: " (JStr EmptyString) fm
              (tree_electives t)) as (es & Hes & Hec & Hesub).
  exists (map (fun p => frame_row gened_areas (course_dict gened_areas p))
            (cs ++ es)%list).
  unfold process_curriculum_json, processed_list, build_fulfillment_map.
  rewrite Hfm. simpl. rewrite Hcs. simpl. rewrite Hes. simpl.
  split; [reflexivity|].
  unfold traversal, sub_sections.
  rewrite !(map_app JStr), <- Hcc, <- Hec, <- Hcsub, <- Hesub, <- !map_app.
  rewrite !map_map. split.
  - apply map_ext_in. intros p Hp. rewrite frame_row_gened_areas. simpl.
    assert (Hs : exists s, p_course p = JStr s).
    { assert (Hin : In (p_course p) (map p_course (cs ++ es)))
        by (apply in_map; assumption).
      rewrite map_app, Hcc, Hec, <- map_app in Hin.
      apply in_map_iff in Hin as (s & Hs & _). exists s; auto. }
    destruct Hs as (s & ->). reflexivity.
  - apply map_ext. intros p. rewrite frame_row_gened_areas. reflexivity.
Qed.

Lemma rows_in_traversal_order_witness :
  exists rows,
    process_curriculum_json "M" (json_of_tree tree_ABC) gened_areas
      fulfillment_ABC = Ok rows /\
    map row_course rows = map JStr (traversal tree_ABC) /\
    map row_sub_section rows = map JStr (sub_sections tree_ABC).
Proof.
  apply (rows_in_traversal_order "M" tree_ABC fulfillment_ABC).
  repeat constructor.
Defined.

(** ** C9: the catalogs are not written to *)

Section Frame.

Import Store.

Variable n : nat.

Lemma frames_ret {A : Type} (a : A) (Q : A -> Prop) :
  Q a -> frames n (ret a) Q.
Proof.
  intros HQ h Hn. simpl. repeat split; auto.
  intros a' H. injection H as <-. assumption.
Qed.

Lemma frames_raise {A : Type} (e : exn) (Q : A -> Prop) :
  frames n (raise e) Q.
Proof. intros h Hn. simpl. repeat split; auto. discriminate. Qed.

Lemma frames_read {A : Type} (f : heap -> result A) :
  frames n (read f) anything.
Proof. intros h Hn. simpl. repeat split; auto. Qed.

Lemma frames_weaken {A : Type} (m : M A) (P Q : A -> Prop) :
  frames n m P -> (forall a, P a -> Q a) -> frames n m Q.
Proof.
  intros Hm HPQ h Hn. destruct (Hm h Hn) as (Hlen & Hold & HP).
  repeat split; auto.
Qed.

Lemma frames_bind {A B : Type} (m : M A) (f : A -> M B)
  (P : A -> Prop) (Q : B -> Prop) :
  frames n m P -> (forall a, P a -> frames n (f a) Q) ->
  frames n (bindM m f) Q.
Proof.
  intros Hm Hf h Hn. unfold bindM.
  destruct (Hm h Hn) as (Hlen & Hold & HP).
  destruct (m h) as [h' [a|e]]; simpl in *.
  - destruct (Hf a (HP a eq_refl) h') as (Hlen' & Hold' & HQ); [lia|].
    repeat split.
    + lia.
    + intros l Hl. rewrite Hold', Hold by assumption. reflexivity.
    + assumption.
  - repeat split; auto. discriminate.
Qed.

Lemma frames_alloc (o : obj) : frames n (alloc o) (fresh n).
Proof.
  intros h Hn. unfold alloc. simpl. repeat split.
  - rewrite length_app. simpl. lia.
  - intros l Hl. apply nth_error_app1. lia.
  - intros a H. injection H as <-. exists (List.length h). auto.
Qed.

Lemma update_length (l : loc) (o : obj) (h : heap) :
  List.length (update l o h) = List.length h.
Proof.
  revert l; induction h as [|o' h IH]; intros [|l]; simpl; auto.
Qed.

Lemma update_other (l l' : loc) (o : obj) (h : heap) :
  l' <> l -> nth_error (update l o h) l' = nth_error h l'.
Proof.
  revert l l'; induction h as [|o' h IH]; intros [|l] [|l'] H; simpl; auto.
  congruence.
Qed.

Lemma frames_list_append (x v : val) :
  fresh n x -> frames n (list_append x v) anything.
Proof.
  intros (l & -> & Hl) h Hn. unfold list_append.
  destruct (nth_error h l) as [[xs|kvs|xs]|]; simpl; repeat split; auto.
  - rewrite update_length. lia.
  - intros l' Hl'. apply update_other. lia.
Qed.

Lemma frames_setitem (x k v : val) :
  fresh n x -> frames n (setitem x k v) anything.
Proof.
  intros (l & -> & Hl) h Hn. unfold setitem.
  destruct (nth_error h l) as [[xs|kvs|xs]|]; simpl; repeat split; auto.
  - destruct (hashable k); simpl; [rewrite update_length|]; lia.
  - intros l' Hl'. destruct (hashable k); simpl; [|reflexivity].
    apply update_other. lia.
Qed.

Lemma frames_forM_ {A : Type} (l : list A) (body : A -> M unit) :
  (forall a, frames n (body a) anything) -> frames n (forM_ l body) anything.
Proof.
  intros Hb. induction l as [|a l IH]; simpl.
  - apply frames_ret. exact I.
  - eapply frames_bind; [apply Hb | intros _ _; exact IH].
Qed.

Lemma frames_when (b : bool) (m : M unit) :
  frames n m anything -> frames n (when b m) anything.
Proof. intros H. destruct b; simpl; [assumption | apply frames_ret; exact I]. Qed.

Lemma frames_new_set (l : list val) : frames n (new_set l) anything.
Proof.
  unfold new_set. destruct (forallb hashable l).
  - eapply frames_weaken; [apply frames_alloc | intros; exact I].
  - apply frames_raise.
Qed.

(** One step of a computation: a read, an allocation or a write to a fresh
    object, followed by the rest. *)
Ltac frame_step :=
  match goal with
  | |- frames _ (bindM (alloc _) _) _ =>
      eapply frames_bind; [apply frames_alloc | intros ? ?]
  | |- frames _ (bindM (list_append _ _) _) _ =>
      eapply frames_bind; [apply frames_list_append; assumption | intros ? _]
  | |- frames _ (bindM (setitem _ _ _) _) _ =>
      eapply frames_bind; [apply frames_setitem; assumption | intros ? _]
  | |- frames _ (bindM (forM_ _ _) _) _ =>
      eapply frames_bind; [apply frames_forM_; intros ? | intros ? _]
  | |- frames _ (bindM (when _ _) _) _ =>
      eapply frames_bind; [apply frames_when | intros ? _]
  | |- frames _ (bindM (new_set _) _) _ =>
      eapply frames_bind; [apply frames_new_set | intros ? _]
  | |- frames _ (bindM (read _) _) _ =>
      eapply frames_bind; [apply frames_read | intros ? _]
  | |- frames _ (bindM (getitem _ _) _) _ =>
      eapply frames_bind; [apply frames_read | intros ? _]
  | |- frames _ (bindM (dict_get _ _ _) _) _ =>
      eapply frames_bind; [apply frames_read | intros ? _]
  | |- frames _ (bindM (values _) _) _ =>
      eapply frames_bind; [apply frames_read | intros ? _]
  | |- frames _ (bindM (items _) _) _ =>
      eapply frames_bind; [apply frames_read | intros ? _]
  | |- frames _ (bindM (iter _) _) _ =>
      eapply frames_bind; [apply frames_read | intros ? _]
  | |- frames _ (bindM (contains _ _) _) _ =>
      eapply frames_bind; [apply frames_read | intros ? _]
  | |- frames _ (bindM (format_credit _ _) _) _ =>
      eapply frames_bind; [apply frames_read | intros ? _]
  | |- frames _ (list_append _ _) anything =>
      apply frames_list_append; assumption
  | |- frames _ (setitem _ _ _) anything =>
      apply frames_setitem; assumption
  | |- frames _ (forM_ _ _) anything => apply frames_forM_; intros ?
  | |- frames _ (when _ _) anything => apply frames_when
  | |- frames _ (new_set _) anything => apply frames_new_set
  | |- frames _ (read _) anything => apply frames_read
  | |- frames _ (contains _ _) anything => apply frames_read
  | |- frames _ (dict_get _ _ _) anything => apply frames_read
  | |- frames _ (ret _) anything => apply frames_ret; exact I
  | |- frames _ (ret _) (fresh _) => apply frames_ret; assumption
  | |- frames _ (raise _) _ => apply frames_raise
  | |- frames _ (alloc _) (fresh _) => apply frames_alloc
  | |- frames _ (alloc _) anything =>
      eapply frames_weaken; [apply frames_alloc | intros; exact I]
  | |- frames _ (if ?b then _ else _) _ => destruct b
  | |- frames _ (match ?x with Some _ => _ | None => _ end) _ => destruct x
  end.

Lemma frames_is_course_entry (item : val) :
  frames n (is_course_entry item) anything.
Proof.
  unfold is_course_entry. repeat frame_step.
Qed.

Lemma frames_get_minor_courses (selected_minor : string) (minor_data : val) :
  frames n (get_minor_courses selected_minor minor_data) (fresh n).
Proof.
  unfold get_minor_courses.
  frame_step. frame_step.
  eapply frames_bind; [apply frames_when | intros ? _; frame_step].
  repeat frame_step.
  eapply frames_bind; [apply frames_is_course_entry | intros ? _].
  repeat frame_step.
  eapply frames_bind; [apply frames_is_course_entry | intros ? _].
  repeat frame_step.
Qed.

Lemma frames_course_set (l : val) : frames n (course_set l) anything.
Proof. unfold course_set. repeat frame_step. Qed.

Lemma frames_is_interdisciplinary (ID course : val) :
  frames n (is_interdisciplinary ID course) anything.
Proof.
  unfold is_interdisciplinary. repeat frame_step.
  destruct course; repeat frame_step.
Qed.

Lemma frames_map_gened_requirements (courses : val) (selected_major : string)
  (b : data_bundle) :
  frames n (map_gened_requirements courses selected_major b) (fresh n).
Proof.
  unfold map_gened_requirements.
  repeat frame_step.
  do 4 (eapply frames_bind; [apply frames_course_set | intros ? _];
        repeat frame_step).
  eapply frames_bind with (P := anything).
  { repeat frame_step. }
  intros ? _. repeat frame_step.
  eapply frames_bind; [apply frames_is_interdisciplinary | intros ? _].
  repeat frame_step.
Qed.

Lemma frames_get_credit_info (data_item : val) :
  frames n (get_credit_info data_item) anything.
Proof.
  unfold get_credit_info. repeat frame_step.
  eapply frames_bind with (P := anything).
  { repeat frame_step. }
  intros ? _. repeat frame_step.
Qed.

Lemma frames_append_course_row (processed_list : val)
  (sub_section default_title : string) (fulfillment_map item : val) :
  fresh n processed_list ->
  frames n (append_course_row processed_list sub_section default_title
              fulfillment_map item) anything.
Proof.
  intros Hp. unfold append_course_row. repeat frame_step.
  eapply frames_bind; [apply frames_get_credit_info | intros ? _].
  repeat frame_step.
Qed.

Lemma frames_append_section (processed_list : val)
  (direct_label group_prefix default_title : string)
  (fulfillment_map section : val) :
  fresh n processed_list ->
  frames n (append_section processed_list direct_label group_prefix
              default_title fulfillment_map section) anything.
Proof.
  intros Hp. unfold append_section. repeat frame_step.
  - apply frames_append_course_row. assumption.
  - apply frames_append_course_row. assumption.
Qed.

Lemma frames_data_frame (gened_areas : list string) (l : val) :
  frames n (data_frame gened_areas l) anything.
Proof. unfold data_frame. frame_step. apply frames_read. Qed.

Lemma frames_process_curriculum_json (curriculum_name : string)
  (curriculum_data : val) (gened_areas : list string) (fulfillment_list : val) :
  frames n (process_curriculum_json curriculum_name curriculum_data
              gened_areas fulfillment_list) anything.
Proof.
  unfold process_curriculum_json. repeat frame_step.
  eapply frames_bind; [apply frames_append_section; assumption | intros ? _].
  repeat frame_step.
  eapply frames_bind; [apply frames_append_section; assumption | intros ? _].
  repeat frame_step.
  apply frames_data_frame.
Qed.

Lemma frames_analyze (selected_major selected_minor : string) (b : data_bundle) :
  frames n (analyze selected_major selected_minor b) anything.
Proof.
  unfold analyze.
  eapply frames_bind; [apply frames_get_minor_courses | intros ? ?].
  repeat frame_step.
  eapply frames_bind; [apply frames_map_gened_requirements | intros ? ?].
  repeat frame_step.
  eapply frames_bind; [apply frames_process_curriculum_json | intros final_df _].
  destruct final_df; repeat frame_step.
Qed.

End Frame.

Lemma firstn_unchanged {A : Type} (h h' : list A) :
  List.length h <= List.length h' ->
  (forall l, l < List.length h -> nth_error h' l = nth_error h l) ->
  firstn (List.length h) h' = h.
Proof.
  revert h'; induction h as [|a h IH]; intros h' Hlen Hold; simpl; [reflexivity|].
  destruct h' as [|a' h']; simpl in *; [lia|].
  pose proof (Hold 0 ltac:(lia)) as H0. simpl in H0. injection H0 as ->.
  f_equal. apply IH; [lia|].
  intros l Hl. apply (Hold (S l)). lia.
Qed.

Lemma frames_firstn {A : Type} (m : Store.M A) (Q : A -> Prop) (h : Store.heap) :
  frames (List.length h) m Q -> firstn (List.length h) (fst (m h)) = h.
Proof.
  intros H. destruct (H h (le_n _)) as (Hlen & Hold & _).
  apply firstn_unchanged; assumption.
Qed.

(** C9: whatever the store holds and whatever the course list, the major
    and the catalogs are, a run of the resolver and a run of the whole
    analysis, finished or interrupted by an exception, leave every object
    the store had before the run as it was, hence the five catalogs and the
    area lists of the gen-ed catalog: the store after the run is the store
    before it followed by the objects the run has made. *)
Theorem catalogs_are_not_written_to (selected_major selected_minor : string)
  (b : Store.data_bundle) (courses : Store.val) (h : Store.heap) :
  firstn (List.length h)
    (fst (Store.map_gened_requirements courses selected_major b h)) = h
  /\
  firstn (List.length h)
    (fst (Store.analyze selected_major selected_minor b h)) = h.
Proof.
  split.
  - apply (frames_firstn _ (fresh (List.length h))).
    apply frames_map_gened_requirements.
  - apply (frames_firstn _ anything). apply frames_analyze.
Qed.

(** ** Reading a document after a run *)

Lemma mapO_mono {A B : Type} (f g : A -> option B) (l : list A) (l' : list B) :
  (forall a b, In a l -> f a = Some b -> g a = Some b) ->
  Store.mapO f l = Some l' -> Store.mapO g l = Some l'.
Proof.
  revert l'; induction l as [|a l IH]; simpl; intros l' H Hm; [assumption|].
  destruct (f a) as [b|] eqn:Hf; [|discriminate].
  destruct (Store.mapO f l) as [bs|] eqn:Hl; [|discriminate].
  rewrite (H a b (or_introl eq_refl) Hf).
  rewrite (IH bs); [assumption | | reflexivity].
  intros a' b' Hin. apply H. right; assumption.
Qed.

(** A document that can be read in a store reads the same, at any greater
    depth, in a store that has the same objects and more. *)
Lemma reify_mono (h h' : Store.heap) (d d' : nat) (v : Store.val) (j : json) :
  (forall l o, nth_error h l = Some o -> nth_error h' l = Some o) ->
  d <= d' ->
  Store.reify d h v = Some j -> Store.reify d' h' v = Some j.
Proof.
  intros Hext. revert d' v j. induction d as [|d IH]; intros d' v j Hd H.
  - destruct v; destruct d'; simpl in *; try assumption; discriminate.
  - destruct d' as [|d']; [lia|].
    destruct v; simpl in *; try assumption.
    destruct (nth_error h l) as [o|] eqn:Hl; [|discriminate].
    rewrite (Hext _ _ Hl). destruct o as [xs|kvs|xs]; [| |discriminate].
    + destruct (Store.mapO (Store.reify d h) xs) as [js|] eqn:Hm; [|discriminate].
      rewrite (mapO_mono _ (Store.reify d' h') _ _ (fun a b _ => IH d' a b ltac:(lia)) Hm).
      assumption.
    + match type of H with
      | option_map _ (Store.mapO ?f kvs) = _ =>
          destruct (Store.mapO f kvs) as [js|] eqn:Hm; [|discriminate]
      end.
      erewrite mapO_mono; [exact H | | exact Hm].
      intros [k x] b _. simpl. destruct k; try discriminate.
      destruct (Store.reify d h x) as [jx|] eqn:Hx; [|discriminate].
      rewrite (IH d' x jx ltac:(lia) Hx). trivial.
Qed.

Lemma firstn_nth_error {A : Type} (h h' : list A) (l : nat) (o : A) :
  firstn (List.length h) h' = h ->
  nth_error h l = Some o -> nth_error h' l = Some o.
Proof.
  intros Hf Hl. rewrite <- Hf in Hl.
  assert (Hlt : l < List.length h).
  { apply nth_error_Some. rewrite <- Hf at 1. congruence. }
  rewrite nth_error_firstn in Hl.
  destruct (Nat.ltb_spec l (List.length h)); [assumption | lia].
Qed.

(** Every document that can be read from the store before an analysis
    reads the same after it: a second analysis finds the catalogs of the
    first. *)
Lemma documents_read_the_same (major minor : string) (b : Store.data_bundle)
  (h : Store.heap) (v : Store.val) (j : json) :
  Store.document h v = Ok j ->
  Store.document (fst (Store.analyze major minor b h)) v = Ok j.
Proof.
  unfold Store.document. intros H.
  destruct (Store.reify (S (List.length h)) h v) as [j'|] eqn:Hr; [|discriminate].
  pose proof (frames_analyze (List.length h) major minor b) as Hfr.
  pose proof (frames_firstn _ _ _ Hfr) as Hfirst.
  destruct (Hfr h (le_n _)) as (Hlen & _ & _).
  erewrite reify_mono; [exact H | | | exact Hr].
  - intros l o. apply firstn_nth_error. assumption.
  - lia.
Qed.

(** ** The credit of a course entry *)

(** On a dictionary [get_credit_info] itself never raises: what it returns
    is a truthy [Credit]/[credit] value, a pair found by the scan, or the
    default. *)
Lemma get_credit_info_total (kvs : list (string * json)) :
  exists info, get_credit_info (JDict kvs) = Ok info.
Proof.
  unfold get_credit_info. simpl.
  destruct (lookup "Credit" kvs) as [c|]; simpl.
  - destruct (truthy c) eqn:Hc; simpl.
    + rewrite Hc. eexists; reflexivity.
    + destruct (lookup "credit" kvs) as [c'|]; simpl.
      * destruct (truthy c'); eexists; reflexivity.
      * eexists; reflexivity.
  - destruct (lookup "credit" kvs) as [c'|]; simpl.
    + destruct (truthy c'); eexists; reflexivity.
    + eexists; reflexivity.
Qed.

(** A [Credit] field that is a {Min, Max} pair is the credit of the entry. *)
Lemma get_credit_info_pair (kvs : list (string * json)) (lo hi : json) :
  lookup "Credit" kvs = Some (JDict [("Min", lo); ("Max", hi)]) ->
  get_credit_info (JDict kvs) = Ok (JDict [("Min", lo); ("Max", hi)]).
Proof. intros H. unfold get_credit_info. simpl. rewrite H. reflexivity. Qed.

(** ** The two embeddings on examples *)

Example store_agrees_on_the_end_to_end_example :
  analyze_in_store "MAJ" "M"
    (bundle_of minor_M gened_empty major_of_records lib_empty (JDict []))
  = analyze "MAJ" "M"
      (bundle_of minor_M gened_empty major_of_records lib_empty (JDict [])).
Proof. reflexivity. Qed.

Example store_agrees_on_shared_areas :
  analyze_in_store "MAJ" "M" bundle_shared_areas
  = analyze "MAJ" "M" bundle_shared_areas.
Proof. reflexivity. Qed.

Example store_agrees_on_a_missing_minor :
  analyze_in_store "MAJ" "N" bundle_shared_areas
  = analyze "MAJ" "N" bundle_shared_areas.
Proof. reflexivity. Qed.

Example store_agrees_on_an_exception :
  analyze_in_store "MAJ" "M"
    (bundle_of minor_M gened_empty major_of_identifiers lib_empty (JDict []))
  = analyze "MAJ" "M"
      (bundle_of minor_M gened_empty major_of_identifiers lib_empty (JDict [])).
Proof. reflexivity. Qed.

(** * Further properties of the program *)

(** ** The extractor on a tree of the data model *)





(** ** The resolver *)

(** The resolver returns one entry per course of its input, for the same
    courses in the same order, a course that occurs twice having two
    entries. *)
Theorem resolver_keeps_the_courses (courses : list json) (major : string)
  (b : data_bundle) (fl : list fulfillment) :
  map_gened_requirements courses major b = Ok fl ->
  map f_course fl = courses /\ List.length fl = List.length courses.
Proof.
  intros H. pose proof (map_gened_requirements_courses _ _ _ _ H) as Hc.
  split; [assumption|]. rewrite <- Hc, length_map. reflexivity.
Qed.

Lemma resolver_keeps_the_courses_witness :
  map f_course
    [{| f_course := JStr "X1"; f_areas := [JStr "Major_Core"] |};
     {| f_course := JStr "Z9"; f_areas := [] |};
     {| f_course := JStr "X1"; f_areas := [JStr "Major_Core"] |}]
  = [JStr "X1"; JStr "Z9"; JStr "X1"]
  /\ List.length
       [{| f_course := JStr "X1"; f_areas := [JStr "Major_Core"] |};
        {| f_course := JStr "Z9"; f_areas := [] |};
        {| f_course := JStr "X1"; f_areas := [JStr "Major_Core"] |}]
     = List.length [JStr "X1"; JStr "Z9"; JStr "X1"].
Proof.
  apply (resolver_keeps_the_courses [JStr "X1"; JStr "Z9"; JStr "X1"] "MAJ"
           bundle_twice).
  reflexivity.
Defined.

(** When the gen-ed catalog can be read and the selected major is no key of
    the major catalog, the resolver raises a KeyError, whatever the courses
    are, also for no course at all. *)
Theorem missing_major_raises (courses : list json) (major : string)
  (b : data_bundle) (gm : pydict json) (kvs : list (string * json)) :
  build_gened_fulfillment_map (gened_data b) = Ok gm ->
  major_data b = JDict kvs ->
  lookup major kvs = None ->
  map_gened_requirements courses major b = Err KeyError.
Proof.
  intros Hg Hm Hl. unfold map_gened_requirements, build_lookups.
  rewrite Hg, Hm. simpl. rewrite Hl. reflexivity.
Qed.

Lemma missing_major_raises_witness :
  map_gened_requirements [] "PHYS" bundle_twice = Err KeyError.
Proof.
  apply (missing_major_raises [] "PHYS" bundle_twice []
           [("MAJ", JDict [("Core", JList [JDict [("Course", JStr "X1")]]);
                           ("Electives", JList [])])]);
    reflexivity.
Defined.

(** A course that is in both lists of the liberal-arts catalog gets the tag
    "Lib Art" twice: its resolved areas end in "Lib Art", "Lib Art",
    "Adv Lib Art", followed by "ID" or by nothing. *)
Theorem lib_art_is_tagged_twice (courses : list json) (major : string)
  (b : data_bundle) (fl : list fulfillment) (c : string) (f : fulfillment) :
  map_gened_requirements courses major b = Ok fl ->
  in_lib c "Lib Art" b -> in_lib c "Adv Lib Art" b ->
  In f fl -> f_course f = JStr c ->
  exists before after,
    f_areas f
    = (before ++ [JStr "Lib Art"; JStr "Lib Art"; JStr "Adv Lib Art"] ++ after)%list
    /\ (after = [] \/ after = [JStr "ID"]).
Proof.
  intros H (l & Hl & Hlisted) (l' & Hl' & Hlisted') Hin Hc.
  destruct (resolved_entry _ _ _ _ _ _ H Hin Hc) as (lk & is_id & Hlk & _ & ->).
  destruct (build_lookups_inv _ _ _ Hlk)
    as (_ & _ & adv & lib & Hadv & Has & Hlib & Hls).
  rewrite Hl in Hlib. injection Hlib as <-.
  rewrite Hl' in Hadv. injection Hadv as <-.
  apply (course_set_members _ _ c Hls) in Hlisted.
  apply (course_set_members _ _ c Has) in Hlisted'.
  unfold derived_tags. rewrite Hlisted, Hlisted'.
  exists (gened_seed lk (JStr c)
          ++ tag_if (member (JStr c) (major_core lk)) ["Major_Core"]
          ++ tag_if (member (JStr c) (major_elective lk)) ["Major_Elec"])%list,
         (tag_if is_id ["ID"]).
  split.
  - rewrite <- !app_assoc. reflexivity.
  - destruct is_id; simpl; auto.
Qed.

Lemma lib_art_is_tagged_twice_witness :
  exists before after,
    [JStr "Major_Core"; JStr "Lib Art"; JStr "Lib Art"; JStr "Adv Lib Art"]
    = (before ++ [JStr "Lib Art"; JStr "Lib Art"; JStr "Adv Lib Art"] ++ after)%list
    /\ (after = [] \/ after = [JStr "ID"]).
Proof.
  apply (lib_art_is_tagged_twice [JStr "X1"] "MAJ"
           (bundle_of minor_M gened_empty major_of_records lib_both_X1 (JDict []))
           [{| f_course := JStr "X1";
               f_areas := [JStr "Major_Core"; JStr "Lib Art"; JStr "Lib Art";
                           JStr "Adv Lib Art"] |}]
           "X1"
           {| f_course := JStr "X1";
              f_areas := [JStr "Major_Core"; JStr "Lib Art"; JStr "Lib Art";
                          JStr "Adv Lib Art"] |}).
  - reflexivity.
  - exists (JList [JDict [("Course", JStr "X1")]]). split; [reflexivity|].
    exists [JDict [("Course", JStr "X1")]], (JDict [("Course", JStr "X1")]).
    simpl. auto.
  - exists (JList [JDict [("Course", JStr "X1")]]). split; [reflexivity|].
    exists [JDict [("Course", JStr "X1")]], (JDict [("Course", JStr "X1")]).
    simpl. auto.
  - simpl. auto.
  - reflexivity.
Defined.

(** With the interdisciplinary catalog a JSON object, a course whose
    identifier is not a string (null, a number, a list) makes the resolver
    raise an exception. *)
Theorem course_that_is_no_string_raises (courses : list json) (major : string)
  (b : data_bundle) (idkvs : list (string * json)) (course : json) :
  ID_data b = JDict idkvs ->
  In course courses ->
  (forall s, course <> JStr s) ->
  exists e, map_gened_requirements courses major b = Err e.
Proof.
  intros HID Hin Hns.
  destruct (map_gened_requirements courses major b) as [fl|e] eqn:H.
  - destruct (resolved_courses_are_strings _ _ _ _ _ _ H HID Hin) as (s & Hs).
    destruct (Hns s Hs).
  - exists e. reflexivity.
Qed.

Lemma course_that_is_no_string_raises_witness :
  exists e,
    map_gened_requirements [JStr "X1"; JNull] "MAJ" bundle_twice = Err e.
Proof.
  apply (course_that_is_no_string_raises [JStr "X1"; JNull] "MAJ"
           bundle_twice [] JNull).
  - reflexivity.
  - simpl. auto.
  - intros s. discriminate.
Defined.

(** ** The credit of an entry *)

Lemma lookup_key_In (k : string) (kvs : list (string * json)) (v : json) :
  lookup k kvs = Some v -> In k (map fst kvs).
Proof.
  induction kvs as [|[k' v'] r IH]; simpl; [discriminate|].
  destruct (String.eqb_spec k k'); intros H; [left; auto | right; auto].
Qed.

Lemma scan_credit_pair (kvs : list (string * json)) :
  credit_pair (scan_credit kvs).
Proof.
  induction kvs as [|[key value] r IH]; simpl.
  - exists (JInt 3), (JInt 3). split; reflexivity.
  - destruct (is_substring "credit" (lower key)); [|assumption].
    destruct value; try assumption.
    destruct (has_key "Min" kvs) eqn:Hmin; [|assumption].
    destruct (has_key "Max" kvs) eqn:Hmax; [|assumption].
    simpl. unfold has_key in Hmin, Hmax. unfold credit_pair. simpl.
    destruct (lookup "Min" kvs) as [lo|]; [|discriminate].
    destruct (lookup "Max" kvs) as [hi|]; [|discriminate].
    exists lo, hi. split; reflexivity.
Qed.

(** When the entry has no truthy "Credit" and no truthy "credit" field, the
    credit resolution returns a value that has a "Min" and a "Max": a pair
    found under a key that mentions "credit", or the default. *)
Theorem credit_fallback_is_a_pair (kvs : list (string * json)) :
  (forall v, lookup "Credit" kvs = Some v -> truthy v = false) ->
  (forall v, lookup "credit" kvs = Some v -> truthy v = false) ->
  exists info, get_credit_info (JDict kvs) = Ok info /\ credit_pair info.
Proof.
  intros HC Hc. exists (scan_credit kvs). split; [|apply scan_credit_pair].
  unfold get_credit_info. simpl.
  assert (H1 : truthy (match lookup "Credit" kvs with Some v => v | None => JNull end)
               = false).
  { destruct (lookup "Credit" kvs) as [v|] eqn:E; [apply HC; reflexivity | reflexivity]. }
  assert (H2 : truthy (match lookup "credit" kvs with Some v => v | None => JNull end)
               = false).
  { destruct (lookup "credit" kvs) as [v|] eqn:E; [apply Hc; reflexivity | reflexivity]. }
  destruct (lookup "Credit" kvs) as [v|]; destruct (lookup "credit" kvs) as [v'|];
    simpl in *; rewrite ?H1; simpl; rewrite ?H2; reflexivity.
Qed.

Lemma credit_fallback_is_a_pair_witness :
  exists info,
    get_credit_info
      (JDict [("Course", JStr "X1"); ("Credit", JDict []);
              ("Course Credits", JDict [("Min", JInt 1); ("Max", JInt 4)])])
    = Ok info /\ credit_pair info.
Proof.
  apply (credit_fallback_is_a_pair
           [("Course", JStr "X1"); ("Credit", JDict []);
            ("Course Credits", JDict [("Min", JInt 1); ("Max", JInt 4)])]).
  - intros v H. simpl in H. injection H as <-. reflexivity.
  - intros v H. simpl in H. discriminate.
Defined.

Lemma scan_credit_no_key (kvs : list (string * json)) :
  no_credit_key kvs -> scan_credit kvs = default_credit.
Proof.
  unfold no_credit_key. induction kvs as [|[key value] r IH]; simpl; intros H.
  - reflexivity.
  - rewrite (H key (or_introl eq_refl)). apply IH. intros k Hk. apply H. auto.
Qed.

(** An entry none of whose keys mentions "credit", in any letter case, has
    the default credit {Min: 3, Max: 3}. *)
Theorem credit_defaults_to_three (kvs : list (string * json)) :
  no_credit_key kvs ->
  get_credit_info (JDict kvs) = Ok default_credit.
Proof.
  intros H. unfold get_credit_info. simpl.
  assert (H1 : lookup "Credit" kvs = None).
  { destruct (lookup "Credit" kvs) as [v|] eqn:E; [|reflexivity].
    apply lookup_key_In in E. apply H in E. discriminate. }
  assert (H2 : lookup "credit" kvs = None).
  { destruct (lookup "credit" kvs) as [v|] eqn:E; [|reflexivity].
    apply lookup_key_In in E. apply H in E. discriminate. }
  rewrite H1, H2. simpl. rewrite scan_credit_no_key by assumption. reflexivity.
Qed.

Lemma credit_defaults_to_three_witness :
  get_credit_info (JDict [("Course", JStr "X1"); ("Title", JStr "T1")])
  = Ok default_credit.
Proof.
  apply (credit_defaults_to_three [("Course", JStr "X1"); ("Title", JStr "T1")]).
  intros k [<-|[<-|[]]]; reflexivity.
Defined.

(** ** The table of an analysis *)

(** Every row of the table an analysis shows has the column [Credit]
    followed by the thirteen area columns of line 265, in that order, and
    each area cell is "X" or blank; the table has at least one row. *)
Theorem table_shape (major minor : string) (b : data_bundle) (rows : list row) :
  analyze major minor b = Ok (Rendered rows) ->
  rows <> [] /\
  forall r, In r rows ->
    map fst (row_cells r) = "Credit" :: gened_areas /\
    Forall (fun c => blank c \/ flagged c) (area_cells r).
Proof.
  intros H. split.
  - unfold analyze in H.
    bind_inv H as courses Hc. destruct courses; [discriminate|].
    bind_inv H as fl Hfl. bind_inv H as data Hd. bind_inv H as df Hdf.
    destruct df; [discriminate|]. inv_Ok H. discriminate.
  - destruct (analyze_inv _ _ _ _ H) as (courses & fl & data & ps & _ & _ & _ & _ & ->).
    intros r Hr. apply in_map_iff in Hr as (p & <- & _).
    rewrite frame_row_gened_areas. unfold area_cells. simpl. split; [reflexivity|].
    unfold flag, blank, flagged.
    repeat (apply Forall_cons;
            [simpl; match goal with |- context [if ?x then _ else _] => destruct x end;
             auto|]).
    apply Forall_nil.
Qed.

Lemma table_shape_witness :
  table_twice <> [] /\
  forall r, In r table_twice ->
    map fst (row_cells r) = "Credit" :: gened_areas /\
    Forall (fun c => blank c \/ flagged c) (area_cells r).
Proof.
  apply (table_shape "MAJ" "M" bundle_twice table_twice). reflexivity.
Defined.

Lemma build_fulfillment_map_has (fl : list fulfillment)
  (m fm : pydict (list json)) (c : string) :
  foldM (fun m item => pd_setitem (f_course item) (f_areas item) m) fl m = Ok fm ->
  (exists f, In f fl /\ f_course f = JStr c) \/ pd_lookup (JStr c) m <> None ->
  pd_lookup (JStr c) fm <> None.
Proof.
  revert m; induction fl as [|f fl IH]; simpl; intros m H Hor.
  - inv_Ok H. destruct Hor as [(f & [] & _) | Hm]. assumption.
  - inv_bind H. unfold pd_setitem in E.
    destruct (hashable (f_course f)); [|discriminate]. inv_Ok E.
    apply (IH _ H).
    destruct Hor as [(f' & [<-|Hin] & Hc) | Hm].
    + right. rewrite pd_lookup_set_str, Hc. simpl. rewrite String.eqb_refl.
      discriminate.
    + left. exists f'; auto.
    + right. rewrite pd_lookup_set_str.
      destruct (py_eq (f_course f) (JStr c)); [discriminate | assumption].
Qed.

(** With the interdisciplinary catalog a JSON object, every row of the
    table shows a course the extractor returned, with the flags of the areas
    the resolver returned for that course: the empty default of the lookup
    of lines 150, 162, 177 and 189 is never used in an analysis. *)
Theorem rows_show_the_resolved_areas (major minor : string) (b : data_bundle)
  (idkvs : list (string * json)) (rows : list row) :
  analyze major minor b = Ok (Rendered rows) ->
  ID_data b = JDict idkvs ->
  exists courses fl,
    get_minor_courses minor (minor_data b) = Ok courses /\
    map_gened_requirements courses major b = Ok fl /\
    forall r, In r rows ->
      In (row_course r) courses /\
      exists f, In f fl /\ f_course f = row_course r /\
                area_cells r = map (fun a => (a, flag (f_areas f) a)) gened_areas.
Proof.
  intros H HID.
  destruct (analyze_inv _ _ _ _ H) as (courses & fl & data & ps & Hc & Hfl & Hd & Hps & ->).
  destruct (processed_list_inv _ _ _ Hps) as (fm & kvs & Hfm & -> & Hrows).
  exists courses, fl. split; [assumption|]. split; [assumption|].
  intros r Hr. apply in_map_iff in Hr as (p & <- & Hp).
  destruct (Hrows p Hp) as (Ha & section & l & Hsec & Hl & Hin).
  pose proof (get_minor_courses_covers _ _ _ _ _ _ Hc Hd Hsec Hl _ Hin) as Hin'.
  destruct (resolved_courses_are_strings _ _ _ _ _ _ Hfl HID Hin') as (s & Hs).
  rewrite frame_row_gened_areas. unfold area_cells. simpl.
  rewrite Hs in *. simpl in Ha. injection Ha as Ha. simpl.
  split; [assumption|].
  assert (Hex : exists f, In f fl /\ f_course f = JStr s).
  { rewrite <- (map_gened_requirements_courses _ _ _ _ Hfl) in Hin'.
    apply in_map_iff in Hin' as (f & Hf & Hinf). exists f; auto. }
  pose proof (build_fulfillment_map_has _ _ _ s Hfm (or_introl Hex)) as Hsome.
  destruct (pd_lookup (JStr s) fm) as [a|] eqn:Hlook; [|congruence].
  destruct (build_fulfillment_map_lookup _ _ _ _ _ Hfm Hlook)
    as [(f & Hf & Hfc & Hfa) | Hnil]; [|discriminate].
  exists f. rewrite Hfa, Ha. auto.
Qed.

Lemma rows_show_the_resolved_areas_witness :
  exists courses fl,
    get_minor_courses "M" (minor_data bundle_twice) = Ok courses /\
    map_gened_requirements courses "MAJ" bundle_twice = Ok fl /\
    forall r, In r table_twice ->
      In (row_course r) courses /\
      exists f, In f fl /\ f_course f = row_course r /\
                area_cells r = map (fun a => (a, flag (f_areas f) a)) gened_areas.
Proof.
  apply (rows_show_the_resolved_areas "MAJ" "M" bundle_twice [] table_twice);
    reflexivity.
Defined.

(** The materializer reads the sections "Core" and "Electives" only: for a
    minor that has neither, although the extractor finds courses in its
    other sections, the table is empty and the analysis shows the notice
    that the data could not be processed. *)
Theorem other_sections_are_not_shown (major minor : string) (b : data_bundle)
  (mkvs kvs : list (string * json)) (courses : list json)
  (fl : list fulfillment) :
  minor_data b = JDict mkvs ->
  lookup minor mkvs = Some (JDict kvs) ->
  lookup "Core" kvs = None -> lookup "Electives" kvs = None ->
  get_minor_courses minor (minor_data b) = Ok courses -> courses <> [] ->
  map_gened_requirements courses major b = Ok fl ->
  process_curriculum_json minor (JDict kvs) gened_areas fl = Ok []
  /\ analyze major minor b
     = Ok (Info "The selected minor curriculum data structure could not be processed into the table format.").
Proof.
  intros Hm Hl Hcore Hel Hc Hne Hfl.
  assert (Hp : process_curriculum_json minor (JDict kvs) gened_areas fl = Ok []).
  { unfold process_curriculum_json, processed_list.
    destruct (build_fulfillment_map_total fl [] (resolver_output_hashable _ _ _ _ Hfl))
      as (fm & Hfm).
    unfold build_fulfillment_map. rewrite Hfm. simpl.
    rewrite Hcore, Hel. reflexivity. }
  split; [exact Hp|].
  unfold analyze. rewrite Hc. destruct courses; [congruence|].
  simpl. rewrite Hfl. simpl. rewrite Hm. simpl. rewrite Hl. simpl.
  rewrite Hp. reflexivity.
Qed.

Lemma other_sections_are_not_shown_witness :
  process_curriculum_json "M"
    (JDict [("Other", JList [JDict [("Course", JStr "X1")]])]) gened_areas
    [{| f_course := JStr "X1"; f_areas := [JStr "Major_Core"] |}] = Ok []
  /\ analyze "MAJ" "M"
       (bundle_of minor_other_section gened_empty major_of_records lib_empty
          (JDict []))
     = Ok (Info "The selected minor curriculum data structure could not be processed into the table format.").
Proof.
  apply (other_sections_are_not_shown "MAJ" "M"
           (bundle_of minor_other_section gened_empty major_of_records lib_empty
              (JDict []))
           [("M", JDict [("Other", JList [JDict [("Course", JStr "X1")]])])]
           [("Other", JList [JDict [("Course", JStr "X1")]])]
           [JStr "X1"]
           [{| f_course := JStr "X1"; f_areas := [JStr "Major_Core"] |}]);
    try reflexivity.
  discriminate.
Defined.

(** ** The credit and title columns of a tree *)

Lemma course_row_entry_columns (sub default : string) (fm : pydict (list json))
  (e : course_entry) :
  exists p,
    course_row sub (JStr default) fm (json_of_entry e) = Ok p /\
    p_credit p = entry_credit e /\ p_name p = JStr (entry_name default e).
Proof.
  destruct e as [c [t|] [[lo hi]|]]; unfold course_row; simpl;
    eexists; (split; [reflexivity|]); simpl; auto.
Qed.

Lemma item_rows_columns (dl gp default : string) (fm : pydict (list json))
  (i : tree_item) :
  exists ps,
    item_rows dl gp (JStr default) fm (json_of_item i) = Ok ps /\
    map p_credit ps = item_credits i /\
    map p_name ps = map JStr (item_names default i).
Proof.
  destruct i as [e | name courses].
  - destruct (course_row_entry_columns dl default fm e) as (p & Hp & Hc & Hn).
    exists [p]. unfold item_rows. simpl json_of_item.
    assert (Hk : contains (JStr "Course") (json_of_entry e) = Ok true) by reflexivity.
    rewrite Hk. simpl. rewrite Hp. simpl. rewrite Hc, Hn. auto.
  - unfold item_rows. simpl.
    induction courses as [|e courses IH]; simpl.
    + exists []. auto.
    + destruct IH as (ps & Hps & Hc & Hn).
      destruct (course_row_entry_columns (gp ++ name) EmptyString fm e)
        as (p & Hp & Hpc & Hpn).
      exists (p :: ps). rewrite Hp. simpl. rewrite Hps. simpl.
      rewrite Hpc, Hpn, Hc, Hn. auto.
Qed.

Lemma section_rows_columns (dl gp default : string) (fm : pydict (list json))
  (tree_items : list tree_item) :
  exists ps,
    section_rows dl gp (JStr default) fm (JList (map json_of_item tree_items))
    = Ok ps /\
    map p_credit ps = flat_map item_credits tree_items /\
    map p_name ps = map JStr (flat_map (item_names default) tree_items).
Proof.
  unfold section_rows. simpl.
  induction tree_items as [|i r IH]; simpl.
  - exists []. auto.
  - destruct (item_rows_columns dl gp default fm i) as (ps & Hps & Hc & Hn).
    destruct IH as (qs & Hqs & Hqc & Hqn).
    bind_inv Hqs as rows Hrows. inv_Ok Hqs.
    exists (ps ++ List.concat rows)%list.
    rewrite Hps. simpl. rewrite Hrows. simpl.
    rewrite !map_app, Hc, Hn, Hqc, Hqn. auto.
Qed.

(** For every tree of the data model and every resolver output, the credit
    column of the table holds, row by row, "3" for an entry without credit,
    the number for an entry whose Min and Max are equal and "Min-Max"
    otherwise; the title column holds the title of the entry, and for an
    entry without title "Mandatory" if it is a direct entry of the Core
    section and the empty string anywhere else. *)
Theorem credit_and_title_columns (curriculum_name : string) (t : minor_tree)
  (fulfillment_list : list fulfillment) :
  Forall (fun f => hashable (f_course f) = true) fulfillment_list ->
  exists rows,
    process_curriculum_json curriculum_name (json_of_tree t) gened_areas
      fulfillment_list = Ok rows /\
    map (fun r => cell r "Credit") rows = map JStr (credits t) /\
    map row_name rows = map JStr (names t).
Proof.
  intros Hh.
  destruct (build_fulfillment_map_total fulfillment_list [] Hh) as (fm & Hfm).
  destruct (section_rows_columns "A. Mandatory Core Courses"
              "B. Conditional Core: " "Mandatory" fm (tree_core t))
    as (cs & Hcs & Hcc & Hcn).
  destruct (section_rows_columns "A. General Electives List"
              "B. Conditional Elective: " EmptyString fm (tree_electives t))
    as (es & Hes & Hec & Hen).
  exists (map (fun p => frame_row gened_areas (course_dict gened_areas p))
            (cs ++ es)%list).
  unfold process_curriculum_json, processed_list, build_fulfillment_map.
  rewrite Hfm. simpl. rewrite Hcs. simpl. rewrite Hes. simpl.
  split; [reflexivity|].
  unfold credits, names.
  rewrite <- Hcc, <- Hec, !(map_app JStr), <- Hcn, <- Hen, <- !map_app.
  rewrite !map_map. split.
  - apply map_ext. intros p. rewrite frame_row_gened_areas. reflexivity.
  - apply map_ext_in. intros p Hp. rewrite frame_row_gened_areas. simpl.
    assert (Hs : exists s, p_name p = JStr s).
    { assert (Hin : In (p_name p) (map p_name (cs ++ es)))
        by (apply in_map; assumption).
      rewrite map_app, Hcn, Hen, <- map_app in Hin.
      apply in_map_iff in Hin as (s & Hs & _). exists s; auto. }
    destruct Hs as (s & ->). reflexivity.
Qed.

Lemma credit_and_title_columns_witness :
  exists rows,
    process_curriculum_json "M" (json_of_tree tree_with_credits) gened_areas
      fulfillment_ABC = Ok rows /\
    map (fun r => cell r "Credit") rows = map JStr (credits tree_with_credits) /\
    map row_name rows = map JStr (names tree_with_credits).
Proof.
  apply (credit_and_title_columns "M" tree_with_credits fulfillment_ABC).
  repeat constructor.
Defined.

(** ** The section borders *)

Lemma filter_map_S (P : nat -> bool) (l : list nat) :
  filter P (map S l) = map S (filter (fun k => P (S k)) l).
Proof.
  induction l as [|a l IH]; simpl; [reflexivity|].
  rewrite IH. destruct (P (S a)); reflexivity.
Qed.

Lemma changes_after_cons (current : row) (rows : list row) (k : nat) :
  1 <= k -> changes_after (current :: rows) (S k) = changes_after rows k.
Proof.
  intros Hk. unfold changes_after. destruct k as [|k]; [lia|].
  replace (S (S k) - 1) with (S (S k - 1)) by lia. reflexivity.
Qed.

Lemma section_borders_from_changes (i : nat) (rows : list row) :
  section_borders_from i rows
  = map (fun k => light_border_rule (i + k - 1)) (sub_section_changes rows).
Proof.
  revert i; induction rows as [|current rest IH]; intros i; [reflexivity|].
  destruct rest as [|next rest']; [reflexivity|].
  change (section_borders_from i (current :: next :: rest'))
    with (if negb (py_eq (row_sub_section next) (row_sub_section current))
          then light_border_rule i :: section_borders_from (S i) (next :: rest')
          else section_borders_from (S i) (next :: rest')).
  rewrite IH. unfold sub_section_changes.
  replace (List.length (current :: next :: rest') - 1) with (S (List.length rest'))
    by (simpl; lia).
  replace (List.length (next :: rest') - 1) with (List.length rest')
    by (simpl; lia).
  replace (seq 1 (S (List.length rest')))
    with (1 :: map S (seq 1 (List.length rest')))
    by (rewrite seq_shift; reflexivity).
  assert (Hrest : filter (changes_after (current :: next :: rest'))
                    (map S (seq 1 (List.length rest')))
                  = map S (filter (changes_after (next :: rest'))
                             (seq 1 (List.length rest')))).
  { rewrite filter_map_S. f_equal. apply filter_ext_in. intros k Hk.
    apply in_seq in Hk. apply changes_after_cons. lia. }
  assert (Hm : forall l,
             map (fun k => light_border_rule (i + k - 1)) (map S l)
             = map (fun k => light_border_rule (S i + k - 1)) l).
  { intros l. rewrite map_map. apply map_ext. intros k. f_equal. lia. }
  assert (H1 : changes_after (current :: next :: rest') 1
               = negb (py_eq (row_sub_section next) (row_sub_section current)))
    by reflexivity.
  cbn [filter]. rewrite H1, Hrest.
  destruct (negb (py_eq (row_sub_section next) (row_sub_section current))).
  - cbn [map]. rewrite Hm. replace (i + 1 - 1) with i by lia. reflexivity.
  - rewrite Hm. reflexivity.
Qed.

(** [apply_section_borders] returns one rule per row after which the
    sub-section changes, in the order of the rows: the row numbers are those
    [k], counted from 1 and smaller than the number of rows, whose row and
    next row differ in sub-section, so the last row never gets a border. *)
Theorem section_borders_are_the_changes (rows : list row) :
  apply_section_borders rows
  = map (fun k => light_border_rule (k - 1)) (sub_section_changes rows)
  /\ Forall (fun k => 1 <= k < List.length rows) (sub_section_changes rows).
Proof.
  split.
  - unfold apply_section_borders. rewrite section_borders_from_changes.
    reflexivity.
  - apply Forall_forall. intros k Hk. unfold sub_section_changes in Hk.
    apply filter_In in Hk as [Hk _]. apply in_seq in Hk. lia.
Qed.

(** ** Loading the catalogs *)

Lemma load_files_fails (fetch : string -> string + json)
  (before after : list (string * string)) (key filename e : string)
  (loaded_data : list (string * json)) (urls : list string) :
  (forall f, In f before -> exists document, fetch (url_of f) = inr document) ->
  fetch (base_url ++ filename) = inl e ->
  load_files fetch (before ++ (key, filename) :: after) loaded_data urls
  = {| requested := (urls ++ map url_of (before ++ [(key, filename)]))%list;
       shown_errors := ["Error loading " ++ filename ++ ": " ++ e];
       returned := None |}.
Proof.
  intros Hb He. revert loaded_data urls.
  induction before as [|[k f] before IH]; intros loaded_data urls.
  - cbn [app load_files]. rewrite He. reflexivity.
  - cbn [app load_files].
    destruct (Hb (k, f) (or_introl eq_refl)) as (document & Hd).
    unfold url_of in Hd. simpl snd in Hd. rewrite Hd.
    rewrite IH by (intros; apply Hb; right; assumption).
    cbn [map]. rewrite <- app_assoc. reflexivity.
Qed.

(** When the request of one of the five files fails and those before it
    succeed, [load_data] returns [None], shows the one message
    "Error loading <file>: <exception>" of that file, and has requested the
    files up to that one only: no later file is requested. *)
Theorem load_data_stops_at_the_first_failure (fetch : string -> string + json)
  (before after : list (string * string)) (key filename e : string) :
  files = (before ++ (key, filename) :: after)%list ->
  (forall f, In f before -> exists document, fetch (url_of f) = inr document) ->
  fetch (base_url ++ filename) = inl e ->
  load_data fetch
  = {| requested := map url_of (before ++ [(key, filename)]);
       shown_errors := ["Error loading " ++ filename ++ ": " ++ e];
       returned := None |}.
Proof.
  intros Hf Hb He. unfold load_data. rewrite Hf.
  rewrite (load_files_fails fetch before after key filename e [] [] Hb He).
  reflexivity.
Qed.

(** All five files fetched: [load_data] returns the dict of the five
    documents under the keys of lines 24-28, shows no error and has
    requested the five URLs in order; it returns a dict in no other case. *)
Theorem load_data_returns_all_or_nothing (fetch : string -> string + json)
  (d : list (string * json)) :
  returned (load_data fetch) = Some d <->
  exists mi ge ma li id,
    fetch (base_url ++ "minors_v3.json") = inr mi /\
    fetch (base_url ++ "gened_v2.json") = inr ge /\
    fetch (base_url ++ "all-majors.json") = inr ma /\
    fetch (base_url ++ "liberal_arts_courses.json") = inr li /\
    fetch (base_url ++ "ID.json") = inr id /\
    d = [("minor_data", mi); ("gened_data", ge); ("major_data", ma);
         ("lib_data", li); ("ID_data", id)] /\
    bundle_of_loaded d = Ok (bundle_of mi ge ma li id) /\
    requested (load_data fetch) = map url_of files /\
    shown_errors (load_data fetch) = [].
Proof.
  unfold load_data, files. cbn [load_files]. split.
  - destruct (fetch (base_url ++ "minors_v3.json")) as [e|mi] eqn:H1; [discriminate|].
    destruct (fetch (base_url ++ "gened_v2.json")) as [e|ge] eqn:H2; [discriminate|].
    destruct (fetch (base_url ++ "all-majors.json")) as [e|ma] eqn:H3; [discriminate|].
    destruct (fetch (base_url ++ "liberal_arts_courses.json")) as [e|li] eqn:H4;
      [discriminate|].
    destruct (fetch (base_url ++ "ID.json")) as [e|id] eqn:H5; [discriminate|].
    intros H. injection H as <-.
    exists mi, ge, ma, li, id. repeat split; reflexivity.
  - intros (mi & ge & ma & li & id & H1 & H2 & H3 & H4 & H5 & -> & _).
    rewrite H1, H2, H3, H4, H5. reflexivity.
Qed.

Lemma load_data_stops_at_the_first_failure_witness :
  load_data fetch_without_majors
  = {| requested :=
         map url_of [("minor_data", "minors_v3.json");
                     ("gened_data", "gened_v2.json");
                     ("major_data", "all-majors.json")];
       shown_errors := ["Error loading all-majors.json: 404 Client Error"];
       returned := None |}.
Proof.
  apply (load_data_stops_at_the_first_failure fetch_without_majors
           [("minor_data", "minors_v3.json"); ("gened_data", "gened_v2.json")]
           [("lib_data", "liberal_arts_courses.json"); ("ID_data", "ID.json")]
           "major_data" "all-majors.json" "404 Client Error").
  - reflexivity.
  - intros f [<-|[<-|[]]]; exists (JDict []); reflexivity.
  - reflexivity.
Defined.

(** ** The objects the extractor and the resolver return *)

(** The list the extractor returns and the list the resolver returns are
    new objects: references to no object the store had before the run; and
    the extractor, like the resolver, leaves the objects of the store as
    they were. *)
Theorem results_are_new_objects (selected_major selected_minor : string)
  (b : Store.data_bundle) (minor_data courses : Store.val) (h : Store.heap) :
  firstn (List.length h)
    (fst (Store.get_minor_courses selected_minor minor_data h)) = h
  /\ (forall v, snd (Store.get_minor_courses selected_minor minor_data h) = Ok v ->
        fresh (List.length h) v)
  /\ (forall v, snd (Store.map_gened_requirements courses selected_major b h) = Ok v ->
        fresh (List.length h) v).
Proof.
  pose proof (frames_get_minor_courses (List.length h) selected_minor minor_data)
    as Hg.
  pose proof (frames_map_gened_requirements (List.length h) courses
                selected_major b) as Hr.
  split; [apply (frames_firstn _ _ _ Hg)|]. split.
  - apply (Hg h (le_n _)).
  - apply (Hr h (le_n _)).
Qed.

(** ** The area lists of the resolver's result *)

Section Triples.

Import Store.

Lemma triple_any {A : Type} (P : heap -> Prop) (m : M A) :
  triple P m (fun _ _ => True).
Proof. intros h _ a _. exact I. Qed.

Lemma triple_bind {A B : Type} (P : heap -> Prop) (m : M A) (f : A -> M B)
  (R : A -> heap -> Prop) (Q : B -> heap -> Prop) :
  triple P m R -> (forall a, triple (R a) (f a) Q) -> triple P (bindM m f) Q.
Proof.
  intros Hm Hf h HP b. unfold bindM.
  pose proof (Hm h HP) as Hm'.
  destruct (m h) as [h' [a|e]]; simpl in *; [|discriminate].
  apply (Hf a h'). apply Hm'. reflexivity.
Qed.

Lemma triple_weaken {A : Type} (P P' : heap -> Prop) (m : M A)
  (Q Q' : A -> heap -> Prop) :
  triple P' m Q' -> (forall h, P h -> P' h) ->
  (forall a h, Q' a h -> Q a h) -> triple P m Q.
Proof. intros Hm HP HQ h Hh a Ha. apply HQ. apply (Hm h); auto. Qed.

Lemma triple_pure {A : Type} (P : heap -> Prop) (F : Prop) (m : M A)
  (Q : A -> heap -> Prop) :
  (F -> triple P m Q) -> triple (fun h => P h /\ F) m Q.
Proof. intros H h [HP HF] a Ha. apply (H HF h); assumption. Qed.

Lemma triple_ret {A : Type} (P : heap -> Prop) (a : A) :
  triple P (ret a) (fun x h => P h /\ x = a).
Proof. intros h HP x Hx. simpl in *. injection Hx as <-. auto. Qed.

Lemma triple_raise {A : Type} (P : heap -> Prop) (e : exn)
  (Q : A -> heap -> Prop) :
  triple P (raise e) Q.
Proof. intros h _ a Ha. discriminate. Qed.

Lemma triple_read {A : Type} (P : heap -> Prop) (f : heap -> result A) :
  triple P (read f) (fun _ h => P h).
Proof. intros h HP a _. exact HP. Qed.

Lemma triple_forM_ {A : Type} (J : heap -> Prop) (l : list A)
  (body : A -> M unit) :
  (forall a, triple J (body a) (fun _ h => J h)) ->
  triple J (forM_ l body) (fun _ h => J h).
Proof.
  intros Hb. induction l as [|a l IH]; simpl.
  - intros h HJ x Hx. exact HJ.
  - eapply triple_bind; [apply Hb | intros u; exact IH].
Qed.

Lemma triple_when (J : heap -> Prop) (b : bool) (m : M unit) :
  triple J m (fun _ h => J h) -> triple J (when b m) (fun _ h => J h).
Proof.
  intros H. destruct b; simpl; [assumption|]. intros h HJ x Hx. exact HJ.
Qed.

(** What keeps a result list: a store that still has the dicts and the list
    itself. *)
Lemma result_list_kept (L : nat) (h h' : heap) :
  (forall l kvs, nth_error h l = Some (ODict kvs) ->
                 nth_error h' l = Some (ODict kvs)) ->
  (forall es, nth_error h L = Some (OList es) ->
              nth_error h' L = Some (OList es)) ->
  result_list L h -> result_list L h'.
Proof.
  intros Hd Hl (es & HL & Hes). exists es. split; [auto|].
  eapply Forall_impl; [|exact Hes].
  intros e (le & c & la & -> & Hle & Hla). exists le, c, la. auto.
Qed.

Lemma nth_error_app_some {A : Type} (h : list A) (o x : A) (l : nat) :
  nth_error h l = Some x -> nth_error (h ++ [o]) l = Some x.
Proof.
  intros H. rewrite nth_error_app1; [assumption|].
  apply nth_error_Some. congruence.
Qed.

Lemma triple_alloc_keeps (L : nat) (o : obj) :
  triple (result_list L) (alloc o)
    (fun v h => result_list L h /\ exists l, v = VRef l /\ L < l).
Proof.
  intros h HJ v Hv. unfold alloc in *. simpl in *. injection Hv as <-. split.
  - apply (result_list_kept L h); [| |assumption]; intros; apply nth_error_app_some;
      assumption.
  - exists (List.length h). split; [reflexivity|].
    destruct HJ as (es & HL & _). apply nth_error_Some. congruence.
Qed.

Lemma update_same (l : loc) (o : obj) (h : heap) :
  l < List.length h -> nth_error (update l o h) l = Some o.
Proof.
  revert l; induction h as [|o' h IH]; intros [|l] H; simpl in *; try lia.
  - reflexivity.
  - apply IH. lia.
Qed.

Lemma triple_append_other (L lc : nat) (v : val) :
  L <> lc ->
  triple (result_list L) (list_append (VRef lc) v) (fun _ h => result_list L h).
Proof.
  intros Hne h HJ x Hx. unfold list_append in *.
  destruct (nth_error h lc) as [[xs|kvs|xs]|] eqn:Hlc; simpl in *; try discriminate.
  apply (result_list_kept L h); [| |assumption].
  - intros l kvs Hl. rewrite update_other; [assumption|]. congruence.
  - intros es Hes. rewrite update_other; [assumption|]. congruence.
Qed.

(** Lines 110-113: the entry of a course is appended to the result list. *)
Lemma triple_push_entry (L lc : nat) (course : val) :
  L < lc ->
  triple (result_list L)
    (entry <~ alloc (ODict [(VStr "Courses in Minor", course);
                            (VStr "Fulfilled Areas", VRef lc)]) ;;
     list_append (VRef L) entry)
    (fun _ h => result_list L h).
Proof.
  intros Hlt h (es & HL & Hes) x Hx.
  unfold bindM, alloc, list_append in *. simpl in *.
  assert (HLlt : L < List.length h) by (apply nth_error_Some; congruence).
  rewrite (nth_error_app_some _ _ _ _ HL) in *. simpl in *.
  set (d := ODict [(VStr "Courses in Minor", course);
                   (VStr "Fulfilled Areas", VRef lc)]) in *.
  exists (es ++ [VRef (List.length h)])%list. split.
  - apply update_same. rewrite length_app. simpl. lia.
  - apply Forall_app. split.
    + eapply Forall_impl; [|exact Hes].
      intros e (le & c & la & -> & Hle & Hla). exists le, c, la.
      repeat split; try assumption.
      rewrite update_other.
      * apply nth_error_app_some. assumption.
      * intros ->. rewrite HL in Hle. discriminate.
    + constructor; [|constructor].
      exists (List.length h), course, lc. repeat split; try assumption.
      rewrite update_other by lia.
      rewrite nth_error_app2 by lia. rewrite Nat.sub_diag. reflexivity.
Qed.

Lemma triple_ret_keeps {A : Type} (P : heap -> Prop) (a : A) :
  triple P (ret a) (fun _ h => P h).
Proof. intros h HP x Hx. exact HP. Qed.

Lemma triple_is_interdisciplinary (P : heap -> Prop) (ID course : val) :
  triple P (is_interdisciplinary ID course) (fun _ h => P h).
Proof.
  unfold is_interdisciplinary.
  eapply triple_bind; [apply triple_read | intros in_catalog].
  destruct in_catalog.
  - apply triple_ret_keeps.
  - destruct course; try apply triple_raise. apply triple_ret_keeps.
Qed.

Lemma triple_alloc_keeps_list (L : nat) (o : obj) :
  triple (result_list L) (alloc o) (fun _ h => result_list L h).
Proof.
  eapply triple_weaken; [apply (triple_alloc_keeps L o) | auto |].
  intros a h [H _]. exact H.
Qed.

Lemma triple_exists {A X : Type} (P : X -> heap -> Prop) (m : M A)
  (Q : A -> heap -> Prop) :
  (forall x, triple (P x) m Q) -> triple (fun h => exists x, P x h) m Q.
Proof. intros H h (x & HP) a Ha. apply (H x h); assumption. Qed.

(** Line 85: the empty result list. *)
Lemma triple_new_result_list :
  triple (fun _ => True) (alloc (OList []))
    (fun v h => exists L, result_list L h /\ v = VRef L).
Proof.
  intros h _ v Hv. unfold alloc in *. simpl in *. injection Hv as <-.
  exists (List.length h). split; [|reflexivity].
  exists []. split; [|constructor].
  rewrite nth_error_app2 by lia. rewrite Nat.sub_diag. reflexivity.
Qed.

Lemma triple_map_gened_requirements (courses : val) (selected_major : string)
  (b : data_bundle) :
  triple (fun _ => True) (map_gened_requirements courses selected_major b)
    (fun v h => exists L, result_list L h /\ v = VRef L).
Proof.
  unfold map_gened_requirements.
  do 12 (eapply triple_bind; [apply triple_any | intros ?]).
  eapply triple_bind; [apply triple_new_result_list | intros v].
  apply triple_exists. intros L. apply triple_pure. intros ->.
  eapply triple_bind; [apply triple_read | intros cs].
  eapply triple_bind; [apply triple_forM_; intros course | intros u].
  - eapply triple_bind; [apply triple_alloc_keeps_list | intros default].
    eapply triple_bind; [apply triple_read | intros fulfilled_geneds].
    eapply triple_bind; [apply triple_read | intros l].
    eapply triple_bind with (R := fun _ h => result_list L h).
    { destruct l; [apply triple_ret_keeps|].
      eapply triple_bind; [apply triple_read | intros t].
      destruct t; apply triple_alloc_keeps_list. }
    intros fulfilled_geneds'.
    eapply triple_bind; [apply triple_read | intros elements].
    eapply triple_bind; [apply triple_alloc_keeps | intros current_fulfilled].
    apply triple_pure. intros (lc & -> & Hlt).
    eapply triple_bind; [apply triple_read | intros in_core].
    eapply triple_bind;
      [apply triple_when; apply triple_append_other; lia | intros u1].
    eapply triple_bind; [apply triple_read | intros in_elective].
    eapply triple_bind;
      [apply triple_when; apply triple_append_other; lia | intros u2].
    eapply triple_bind; [apply triple_read | intros in_lib].
    eapply triple_bind;
      [apply triple_when; apply triple_append_other; lia | intros u3].
    eapply triple_bind; [apply triple_read | intros in_adv].
    eapply triple_bind.
    { apply triple_when.
      eapply triple_bind; [apply triple_append_other; lia | intros u4].
      apply triple_append_other. lia. }
    intros u5.
    eapply triple_bind; [apply triple_is_interdisciplinary | intros is_id].
    eapply triple_bind;
      [apply triple_when; apply triple_append_other; lia | intros u6].
    apply triple_push_entry. exact Hlt.
  - eapply triple_weaken; [apply triple_ret | intros h0 H0; exact H0 |].
    intros r h0 [HJ ->]. exists L. auto.
Qed.

End Triples.

(** When the resolver returns, its result is a new list whose entries are
    dicts with a "Courses in Minor" and a "Fulfilled Areas" field, and the
    area list of every entry is an object the run has made: it is never one
    of the area lists of the gen-ed catalog, although the merged lookup
    holds those very lists (line 93 copies them). *)
Theorem resolved_area_lists_are_copies (courses : Store.val)
  (selected_major : string) (b : Store.data_bundle) (h : Store.heap)
  (v : Store.val) :
  snd (Store.map_gened_requirements courses selected_major b h) = Ok v ->
  entries_with_new_areas (List.length h)
    (fst (Store.map_gened_requirements courses selected_major b h)) v.
Proof.
  intros Hv.
  destruct (triple_map_gened_requirements courses selected_major b h I v Hv)
    as (L & (es & HL & Hes) & ->).
  destruct (frames_map_gened_requirements (List.length h) courses selected_major
              b h (le_n _)) as (_ & _ & Hfresh).
  destruct (Hfresh _ Hv) as (L' & HL' & Hge). injection HL' as <-.
  exists L, es. repeat split; try assumption.
  eapply Forall_impl; [|exact Hes].
  intros e (le & c & la & -> & Hle & Hla). exists le, c, la.
  repeat split; try assumption. lia.
Qed.

Lemma resolved_area_lists_are_copies_witness :
  entries_with_new_areas (List.length (fst store_with_courses))
    (fst (Store.map_gened_requirements (snd store_with_courses) "MAJ"
            (snd store_shared_areas) (fst store_with_courses)))
    resolved_in_store.
Proof.
  apply (resolved_area_lists_are_copies (snd store_with_courses) "MAJ"
           (snd store_shared_areas) (fst store_with_courses) resolved_in_store).
  reflexivity.
Defined.

(** ** A conditional group without courses *)

Lemma nested_courses_no_list (vs : list json) :
  (forall v, In v vs -> is_list v = false) -> flat_map nested_courses vs = [].
Proof.
  induction vs as [|v vs IH]; simpl; intros H; [reflexivity|].
  rewrite IH by (intros; apply H; right; assumption).
  pose proof (H v (or_introl eq_refl)) as Hv.
  destruct v; simpl in *; try reflexivity; discriminate.
Qed.

(** For a minor whose record has the Core section only, the first item of
    which is a conditional group (a "group" field and no "Course" field)
    that has no "courses" field and no field whose value is a list: the
    extractor does not raise and returns the courses of the items after the
    group, the group giving no course, whereas the materializer raises a
    KeyError on the same record, whatever follows the group. *)
Theorem group_without_courses_raises (minor : string)
  (mkvs ikvs : list (string * json)) (rest : list json) (group : json)
  (areas : list string) (fulfillment_list : list fulfillment) :
  lookup minor mkvs = Some (JDict [("Core", JList (JDict ikvs :: rest))]) ->
  lookup "Course" ikvs = None ->
  lookup "group" ikvs = Some group ->
  lookup "courses" ikvs = None ->
  (forall v, In v (map snd ikvs) -> is_list v = false) ->
  Forall (fun f => hashable (f_course f) = true) fulfillment_list ->
  get_minor_courses minor (JDict mkvs) = Ok (flat_map extract_entry rest)
  /\ process_curriculum_json minor
       (JDict [("Core", JList (JDict ikvs :: rest))]) areas fulfillment_list
     = Err KeyError.
Proof.
  intros Hm Hc Hg Hcs Hnl Hh. split.
  - unfold get_minor_courses.
    assert (Hin : contains (JStr minor) (JDict mkvs) = Ok true)
      by (simpl; unfold has_key; rewrite Hm; reflexivity).
    assert (Hget : getitem (JDict mkvs) minor
                   = Ok (JDict [("Core", JList (JDict ikvs :: rest))]))
      by (simpl; rewrite Hm; reflexivity).
    rewrite Hin, Hget.
    cbn [bind values map snd mapM extract_section iter flat_map List.concat].
    cbn [extract_entry]. rewrite Hc, (nested_courses_no_list _ Hnl).
    rewrite app_nil_r. reflexivity.
  - destruct (build_fulfillment_map_total fulfillment_list [] Hh) as (fm & Hfm).
    unfold process_curriculum_json, processed_list, build_fulfillment_map.
    rewrite Hfm. cbn [bind dict_get lookup String.eqb Ascii.eqb Bool.eqb].
    unfold section_rows. cbn [iter bind mapM]. unfold item_rows at 1.
    cbn [contains hashable bind]. unfold has_key. rewrite Hc, Hg.
    cbn [bind getitem]. rewrite Hg, Hcs. reflexivity.
Qed.

Lemma group_without_courses_raises_witness :
  get_minor_courses "M" (JDict [("M", tree_with_bare_group)])
  = Ok (flat_map extract_entry [JDict [("Course", JStr "X1")]])
  /\ process_curriculum_json "M" tree_with_bare_group gened_areas [] = Err KeyError.
Proof.
  apply (group_without_courses_raises "M" [("M", tree_with_bare_group)]
           [("group", JStr "G")] [JDict [("Course", JStr "X1")]] (JStr "G")
           gened_areas []); try reflexivity.
  - intros v [<-|[]]. reflexivity.
  - constructor.
Defined.

Lemma documents_read_the_same_witness :
  Store.document
    (fst (Store.analyze "MAJ" "M" (snd store_shared_areas)
            (fst store_shared_areas)))
    (Store.gened_data (snd store_shared_areas))
  = Ok (gened_with_areas (JList [JStr "EC"; JStr "IS"])).
Proof.
  apply (documents_read_the_same "MAJ" "M" (snd store_shared_areas)
           (fst store_shared_areas)
           (Store.gened_data (snd store_shared_areas))
           (gened_with_areas (JList [JStr "EC"; JStr "IS"]))).
  reflexivity.
Defined.
